(** * SysMonServer: the telemetry sampler of [main.py], embedded in Rocq

    The development follows [src/main.py]: the [SystemMonitor] class, the
    helpers it calls, and the socket handlers at the end of the file.

    Conventions of the embedding.
    - A Python [int] is a [Z].  A Python [float] is a [pyfloat]: an exact
      rational, or one of the IEEE specials.  The rounding of a result to
      53 bits is not modelled; overflow is: a result whose magnitude reaches
      [2^1024] becomes an infinity (or raises [OverflowError] where Python
      does).
    - An exception is a value of [exn]; code that can raise returns a
      [result].
    - A method of [SystemMonitor] is a function in the monad [M], which
      threads the object's fields and keeps the assignments made before an
      exception was raised.
    - The operating system, [psutil] and [pynvml] are the record [Host]: the
      outcome of each provider call during one sample. *)

From Stdlib Require Import ZArith QArith Qround Qabs Lia Lqa Ascii String.
From stdpp Require Import gmap strings list fin_maps pretty.

Local Open Scope Z_scope.

(** ** Exceptions and results *)

Inductive exn : Type :=
  | PermissionError
  | OSError
  | ZeroDivisionError
  | OverflowError
  | TypeError
  | AttributeError
  | NVMLError
  | RuntimeError.

(** [PermissionError] is a subclass of [OSError]. *)
Definition is_OSError (e : exn) : bool :=
  match e with
  | PermissionError | OSError => true
  | _ => false
  end.

Inductive result (A : Type) : Type :=
  | Ok (a : A)
  | Raise (e : exn).
Arguments Ok {A} a.
Arguments Raise {A} e.

Definition rbind {A B : Type} (r : result A) (k : A → result B) : result B :=
  match r with
  | Ok a => k a
  | Raise e => Raise e
  end.

Definition rmap {A B : Type} (f : A → B) (r : result A) : result B :=
  rbind r (λ a, Ok (f a)).

Notation "'do' x <- r ; k" := (rbind r (λ x, k))
  (at level 10, x name, r at level 100, k at level 200).

(** [try: r except: d] for a handler that ignores the exception. *)
Definition or_default {A : Type} (r : result A) (d : A) : A :=
  match r with
  | Ok a => a
  | Raise _ => d
  end.

(** ** Python numbers *)

Inductive pyfloat : Type :=
  | FFin (q : Q)
  | FInf (neg : bool)
  | FNaN.

Inductive num : Type :=
  | NInt (z : Z)
  | NFloat (f : pyfloat).

Definition Qltb (p q : Q) : bool := negb (Qle_bool q p).
Definition Qeqb (p q : Q) : bool := Qeq_bool p q.

Definition float_bound : Q := inject_Z (2 ^ 1024).

Definition overflows (q : Q) : bool := Qle_bool float_bound (Qabs q).

(** The float nearest to an exact result, as far as the model goes. *)
Definition fl (q : Q) : pyfloat :=
  if overflows q then FInf (Qltb q 0) else FFin (Qred q).

(** [float(z)] for an int, as the mixed operators do it. *)
Definition int_to_float (z : Z) : result pyfloat :=
  if overflows (inject_Z z) then Raise OverflowError else Ok (FFin (inject_Z z)).

Definition to_float (x : num) : result pyfloat :=
  match x with
  | NInt z => int_to_float z
  | NFloat f => Ok f
  end.

Definition float_is_zero (f : pyfloat) : bool :=
  match f with
  | FFin q => Qeqb q 0
  | _ => false
  end.

Definition float_mul (a b : pyfloat) : pyfloat :=
  match a, b with
  | FNaN, _ | _, FNaN => FNaN
  | FFin p, FFin q => fl (p * q)
  | FInf s, FFin q | FFin q, FInf s =>
      if Qeqb q 0 then FNaN else FInf (xorb s (Qltb q 0))
  | FInf s, FInf t => FInf (xorb s t)
  end.

(** Float division; the divisor is not zero (the caller has raised). *)
Definition float_div (a b : pyfloat) : pyfloat :=
  match a, b with
  | FNaN, _ | _, FNaN => FNaN
  | FFin p, FFin q => fl (p / q)
  | FFin _, FInf _ => FFin 0
  | FInf s, FFin q => FInf (xorb s (Qltb q 0))
  | FInf _, FInf _ => FNaN
  end.

(** [a * b] *)
Definition py_mul (a b : num) : result num :=
  match a, b with
  | NInt x, NInt y => Ok (NInt (x * y))
  | _, _ =>
      do fa <- to_float a;
      do fb <- to_float b;
      Ok (NFloat (float_mul fa fb))
  end.

(** [a / b]: true division.  Two ints divide exactly and the quotient is
    converted once; otherwise both operands are floats first. *)
Definition py_truediv (a b : num) : result num :=
  match a, b with
  | NInt x, NInt y =>
      if y =? 0 then Raise ZeroDivisionError
      else
        let q := (inject_Z x / inject_Z y)%Q in
        if overflows q then Raise OverflowError else Ok (NFloat (FFin (Qred q)))
  | _, _ =>
      do fa <- to_float a;
      do fb <- to_float b;
      if float_is_zero fb then Raise ZeroDivisionError
      else Ok (NFloat (float_div fa fb))
  end.

(** The exact value of a number, for comparisons (Python compares an int
    with a float exactly). *)
Definition exact (x : num) : pyfloat :=
  match x with
  | NInt z => FFin (inject_Z z)
  | NFloat f => f
  end.

Definition float_ltb (a b : pyfloat) : bool :=
  match a, b with
  | FNaN, _ | _, FNaN => false
  | FFin p, FFin q => Qltb p q
  | FFin _, FInf neg => negb neg
  | FInf neg, FFin _ => neg
  | FInf n1, FInf n2 => n1 && negb n2
  end.

Definition float_leb (a b : pyfloat) : bool :=
  match a, b with
  | FNaN, _ | _, FNaN => false
  | FFin p, FFin q => Qle_bool p q
  | FFin _, FInf neg => negb neg
  | FInf neg, FFin _ => neg
  | FInf n1, FInf n2 => n1 || negb n2
  end.

(** [a < b], [a > b], [a <= b] *)
Definition py_lt (a b : num) : bool := float_ltb (exact a) (exact b).
Definition py_gt (a b : num) : bool := py_lt b a.
Definition py_le (a b : num) : bool := float_leb (exact a) (exact b).

(** [max(a, b)]: the first argument unless the second is greater. *)
Definition py_max (a b : num) : num := if py_gt b a then b else a.

(** [min(a, b)]: the first argument unless the second is smaller. *)
Definition py_min (a b : num) : num := if py_lt b a then b else a.

(** Truth value of a number. *)
Definition py_bool (x : num) : bool :=
  match x with
  | NInt z => negb (z =? 0)
  | NFloat f => negb (float_is_zero f)
  end.

Definition round_half_even (q : Q) : Z :=
  let f := Qfloor q in
  match (q - inject_Z f ?= 1 # 2)%Q with
  | Lt => f
  | Gt => f + 1
  | Eq => if Z.even f then f else f + 1
  end.

(** [round(x, ndigits)] with [ndigits >= 0].  An int is returned as it is;
    a finite float is rounded half-to-even on its exact value; the specials
    round to themselves. *)
Definition float_round (f : pyfloat) (ndigits : nat) : result pyfloat :=
  match f with
  | FFin q =>
      let p := inject_Z (10 ^ Z.of_nat ndigits) in
      let r := (inject_Z (round_half_even (q * p)) / p)%Q in
      if overflows r then Raise OverflowError else Ok (FFin (Qred r))
  | _ => Ok f
  end.

Definition py_round (x : num) (ndigits : nat) : result num :=
  match x with
  | NInt z => Ok (NInt z)
  | NFloat f => rmap NFloat (float_round f ndigits)
  end.

(** ** Values stored in the dictionaries sent to clients *)

Inductive pyval : Type :=
  | VNone
  | VBool (b : bool)
  | VInt (z : Z)
  | VFloat (f : pyfloat)
  | VStr (s : string).

Definition of_num (x : num) : pyval :=
  match x with
  | NInt z => VInt z
  | NFloat f => VFloat f
  end.

Abbreviation pydict := (gmap string pyval).

(** A dict literal. *)
Definition dict_of (l : list (string * pyval)) : pydict := list_to_map l.

(** ** The providers: what the host answers during one sample *)

(** [psutil.net_io_counters()]: the cumulative counters the code reads. *)
Record snetio : Type := { bytes_sent : Z; bytes_recv : Z }.

Record scpufreq : Type := { freq_current : pyfloat; freq_min : pyfloat; freq_max : pyfloat }.

Record svmem : Type := { vm_total : Z; vm_used : Z; vm_percent : pyfloat }.

Record sdiskpart : Type :=
  { device : string; mountpoint : string; fstype : string; opts : string }.

Record sdiskusage : Type := { du_total : Z; du_used : Z }.

Record snicaddr : Type := { family : Z; address : string }.

Record nvml_utilization : Type := { util_gpu : Z; util_memory : Z }.

Record nvml_memory : Type := { mem_total : Z; mem_used : Z }.

(** A provider that returns text as [str] or as [bytes]. *)
Inductive str_or_bytes : Type :=
  | Str (s : string)
  | Bytes (s : string).

Record Host : Type := {
  NVIDIA_AVAILABLE : bool;
  net_io_counters : result (option snetio);
  net_if_addrs : result (list (string * list snicaddr));
  cpu_percent : result pyfloat;
  cpu_freq : result (option scpufreq);
  virtual_memory : result svmem;
  disk_partitions : result (list sdiskpart);
  disk_usage : string → result sdiskusage;
  nvmlInit : result unit;
  nvmlDeviceGetHandleByIndex : result unit;
  nvmlDeviceGetName : result str_or_bytes;
  nvmlDeviceGetTemperature : result Z;
  nvmlDeviceGetFanSpeed : result Z;
  nvmlDeviceGetPowerUsage : result Z;
  nvmlDeviceGetPowerManagementLimitConstraints : result (Z * Z);
  nvmlDeviceGetUtilizationRates : result nvml_utilization;
  nvmlDeviceGetMemoryInfo : result nvml_memory;
  nvmlSystemGetDriverVersion : result str_or_bytes;
  nvmlSystemGetCudaDriverVersion_v2 : result Z;
  gethostname : string;
  platform_system : string;
  time_time : Q;
  (** [datetime.now().isoformat()] *)
  now : string
}.

(** ** The monitor object *)

(** An entry of [connected_clients]. *)
Record client : Type := { ip : string; connected_at : string; last_seen : string }.

Record SystemMonitor : Type := {
  running : bool;
  update_interval : num;
  session_start : Q;
  max_gpu_temp : Z;
  network_baseline : option snetio;
  gpu_name : string;
  is_linux : bool;
  connected_clients : gmap string client;
  hostname : string;
  ip_addresses : list string;
  (** [Some] when the attribute [gpu_handle] exists *)
  gpu_handle : option unit
}.

Definition set_running (v : bool) (s : SystemMonitor) : SystemMonitor :=
  {| running := v; update_interval := update_interval s;
     session_start := session_start s; max_gpu_temp := max_gpu_temp s;
     network_baseline := network_baseline s; gpu_name := gpu_name s;
     is_linux := is_linux s; connected_clients := connected_clients s;
     hostname := hostname s; ip_addresses := ip_addresses s;
     gpu_handle := gpu_handle s |}.

Definition set_update_interval (v : num) (s : SystemMonitor) : SystemMonitor :=
  {| running := running s; update_interval := v;
     session_start := session_start s; max_gpu_temp := max_gpu_temp s;
     network_baseline := network_baseline s; gpu_name := gpu_name s;
     is_linux := is_linux s; connected_clients := connected_clients s;
     hostname := hostname s; ip_addresses := ip_addresses s;
     gpu_handle := gpu_handle s |}.

Definition set_max_gpu_temp (v : Z) (s : SystemMonitor) : SystemMonitor :=
  {| running := running s; update_interval := update_interval s;
     session_start := session_start s; max_gpu_temp := v;
     network_baseline := network_baseline s; gpu_name := gpu_name s;
     is_linux := is_linux s; connected_clients := connected_clients s;
     hostname := hostname s; ip_addresses := ip_addresses s;
     gpu_handle := gpu_handle s |}.

Definition set_network_baseline (v : option snetio) (s : SystemMonitor) : SystemMonitor :=
  {| running := running s; update_interval := update_interval s;
     session_start := session_start s; max_gpu_temp := max_gpu_temp s;
     network_baseline := v; gpu_name := gpu_name s;
     is_linux := is_linux s; connected_clients := connected_clients s;
     hostname := hostname s; ip_addresses := ip_addresses s;
     gpu_handle := gpu_handle s |}.

Definition set_connected_clients (v : gmap string client) (s : SystemMonitor) : SystemMonitor :=
  {| running := running s; update_interval := update_interval s;
     session_start := session_start s; max_gpu_temp := max_gpu_temp s;
     network_baseline := network_baseline s; gpu_name := gpu_name s;
     is_linux := is_linux s; connected_clients := v;
     hostname := hostname s; ip_addresses := ip_addresses s;
     gpu_handle := gpu_handle s |}.

(** ** The monad of methods: state, and exceptions that keep the state *)

Definition M (A : Type) : Type := SystemMonitor → result A * SystemMonitor.

Definition ret {A : Type} (a : A) : M A := λ s, (Ok a, s).

Definition lift {A : Type} (r : result A) : M A := λ s, (r, s).

Definition bind {A B : Type} (m : M A) (k : A → M B) : M B :=
  λ s, match m s with
       | (Ok a, s') => k a s'
       | (Raise e, s') => (Raise e, s')
       end.

Definition get {A : Type} (field : SystemMonitor → A) : M A := λ s, (Ok (field s), s).

Definition modify (f : SystemMonitor → SystemMonitor) : M unit := λ s, (Ok tt, f s).

(** [try: body except Exception: handler] *)
Definition try_except {A : Type} (body : M A) (handler : exn → M A) : M A :=
  λ s, match body s with
       | (Ok a, s') => (Ok a, s')
       | (Raise e, s') => handler e s'
       end.

Notation "'let*' x := m 'in' k" := (bind m (λ x, k))
  (at level 10, x name, m at level 100, k at level 200).
Notation "m ;; k" := (bind m (λ _, k))
  (at level 100, k at level 200, right associativity).

(** ** [SystemMonitor._get_network_stats] *)

Definition _get_network_stats (h : Host) : option snetio :=
  match net_io_counters h with
  | Ok r => r
  | Raise _ => None
  end.

(** ** [SystemMonitor.get_network_stats] *)

Definition zero_network : pydict :=
  dict_of [("usage", VInt 0); ("upload_speed", VInt 0); ("download_speed", VInt 0);
           ("total_sent", VInt 0); ("total_received", VInt 0)]%string.

(** [(delta / time_diff) * 8 / 1024 / 1024], the expression of both speeds *)
Definition to_mbps (delta : Z) (time_diff : num) : result num :=
  do per_second <- py_truediv (NInt delta) time_diff;
  do bits <- py_mul per_second (NInt 8);
  do kbits <- py_truediv bits (NInt 1024);
  py_truediv kbits (NInt 1024).

Definition get_network_stats (h : Host) : M pydict :=
  try_except
    (let* current_stats := lift (net_io_counters h) in
     let* baseline := get network_baseline in
     match current_stats, baseline with
     | Some current_stats, Some baseline =>
         let time_diff := NFloat (FFin 1) in
         let* upload_speed :=
           lift (to_mbps (bytes_sent current_stats - bytes_sent baseline) time_diff) in
         let* download_speed :=
           lift (to_mbps (bytes_recv current_stats - bytes_recv baseline) time_diff) in
         modify (set_network_baseline (Some current_stats)) ;;
         let* total_sent :=
           lift (py_truediv (NInt (bytes_sent current_stats)) (NInt (1024 ^ 3))) in
         let* total_received :=
           lift (py_truediv (NInt (bytes_recv current_stats)) (NInt (1024 ^ 3))) in
         let max_speed := NInt 100 in
         let* usage :=
           lift (do r <- py_truediv (py_max upload_speed download_speed) max_speed;
                 py_mul r (NInt 100)) in
         let* v_usage := lift (py_round (py_min usage (NInt 100)) 1) in
         let* v_upload := lift (py_round (py_max upload_speed (NInt 0)) 1) in
         let* v_download := lift (py_round (py_max download_speed (NInt 0)) 1) in
         let* v_sent := lift (py_round total_sent 2) in
         let* v_received := lift (py_round total_received 2) in
         ret (dict_of [("usage", of_num v_usage); ("upload_speed", of_num v_upload);
                       ("download_speed", of_num v_download);
                       ("total_sent", of_num v_sent);
                       ("total_received", of_num v_received)]%string)
     | _, _ => ret zero_network
     end)
    (λ _, ret zero_network).

(** ** The client registry *)

(** [add_client]; [now1] and [now2] are the two readings of
    [datetime.now().isoformat()] the dict literal makes. *)
Definition add_client (client_id client_ip now1 now2 : string) : M unit :=
  modify (λ s,
    set_connected_clients
      (<[client_id := {| ip := client_ip; connected_at := now1; last_seen := now2 |}]>
         (connected_clients s)) s).

Definition remove_client (client_id : string) : M unit :=
  let* clients := get connected_clients in
  match clients !! client_id with
  | Some _ => modify (set_connected_clients (delete client_id clients))
  | None => ret tt
  end.

Definition update_client_activity (client_id now1 : string) : M unit :=
  let* clients := get connected_clients in
  match clients !! client_id with
  | Some c =>
      modify (set_connected_clients
                (<[client_id := {| ip := ip c; connected_at := connected_at c;
                                   last_seen := now1 |}]> clients))
  | None => ret tt
  end.

Definition get_connected_clients : M (gmap string client) := get connected_clients.

(** ** [SystemMonitor._get_ip_addresses] *)

(** [not ip.startswith('169.') and ip != '127.0.0.1'] *)
Definition ip_listed (ip : string) : bool :=
  negb (String.prefix "169." ip) && negb (String.eqb ip "127.0.0.1").

Definition ips_of_interface (addrs : list snicaddr) : list string :=
  flat_map (λ addr,
    if family addr =? 2 then
      let ip := address addr in
      if ip_listed ip then [ip] else []
    else []) addrs.

Definition _get_ip_addresses (h : Host) : list string :=
  match net_if_addrs h with
  | Ok interfaces => flat_map (λ '(interface, addrs), ips_of_interface addrs) interfaces
  | Raise _ => []
  end.

(** ** [SystemMonitor.get_cpu_stats] *)

Definition cpu_fallback : pydict :=
  dict_of [("usage", VInt 0); ("frequency", VInt 0);
           ("max_frequency", VFloat (FFin 5))]%string.

Definition get_cpu_stats (h : Host) : pydict :=
  or_default
    (do cpu_percent <- cpu_percent h;
     do cpu_freq <- cpu_freq h;
     do freqs <-
       match cpu_freq with
       | Some cpu_freq =>
           do current_freq <- py_truediv (NFloat (freq_current cpu_freq)) (NInt 1000);
           do max_freq <-
             (if py_bool (NFloat (freq_max cpu_freq))
              then py_truediv (NFloat (freq_max cpu_freq)) (NInt 1000)
              else Ok (NFloat (FFin 5)));
           Ok (current_freq, max_freq)
       | None => Ok (NInt 0, NFloat (FFin 5))
       end;
     do v_usage <- py_round (NFloat cpu_percent) 1;
     do v_frequency <- py_round (fst freqs) 1;
     do v_max <- py_round (snd freqs) 1;
     Ok (dict_of [("usage", of_num v_usage); ("frequency", of_num v_frequency);
                  ("max_frequency", of_num v_max)]%string))
    cpu_fallback.

(** ** [SystemMonitor.get_memory_stats] *)

Definition memory_fallback : pydict :=
  dict_of [("usage_percent", VInt 0); ("used_gb", VInt 0); ("total_gb", VInt 0)]%string.

Definition get_memory_stats (h : Host) : pydict :=
  or_default
    (do memory <- virtual_memory h;
     do v_percent <- py_round (NFloat (vm_percent memory)) 1;
     do used <- py_truediv (NInt (vm_used memory)) (NInt (1024 ^ 3));
     do v_used <- py_round used 1;
     do total <- py_truediv (NInt (vm_total memory)) (NInt (1024 ^ 3));
     do v_total <- py_round total 1;
     Ok (dict_of [("usage_percent", of_num v_percent); ("used_gb", of_num v_used);
                  ("total_gb", of_num v_total)]%string))
    memory_fallback.

(** ** [SystemMonitor.get_gpu_stats] *)

(** The zeroed record of the three early returns. *)
Definition gpu_zero (name version : string) : pydict :=
  dict_of [("name", VStr name);
           ("temperature", VInt 0); ("max_temp", VInt 0); ("fan_speed", VInt 0);
           ("fan_percent", VInt 0); ("power_draw", VInt 0); ("max_power", VInt 0);
           ("usage", VInt 0); ("memory_usage", VInt 0); ("memory_used", VInt 0);
           ("memory_total", VInt 0);
           ("driver_version", VStr version); ("cuda_version", VStr version)]%string.

(** [raw.decode('utf-8') if isinstance(raw, bytes) else str(raw)]; the bytes
    of a driver are taken to be valid UTF-8. *)
Definition text_of (raw : str_or_bytes) : string :=
  match raw with
  | Str s => s
  | Bytes b => b
  end.

(** The sub-queries, each in its own [try] with its fallback. *)

Definition gpu_fan_speed (h : Host) : Z := or_default (nvmlDeviceGetFanSpeed h) 0.

(** [(power_draw, power_limit)], in watts *)
Definition gpu_power (h : Host) : num * num :=
  or_default
    (do usage_mw <- nvmlDeviceGetPowerUsage h;
     do power_draw <- py_truediv (NInt usage_mw) (NInt 1000);
     do limits <- nvmlDeviceGetPowerManagementLimitConstraints h;
     do power_limit <- py_truediv (NInt (snd limits)) (NInt 1000);
     Ok (power_draw, power_limit))
    (NInt 0, NInt 320).

Definition gpu_utilization (h : Host) : Z :=
  or_default (do utilization <- nvmlDeviceGetUtilizationRates h;
              Ok (util_gpu utilization)) 0.

(** [(memory_used, memory_total)], in GB *)
Definition gpu_memory (h : Host) : num * num :=
  or_default
    (do memory_info <- nvmlDeviceGetMemoryInfo h;
     do memory_used <- py_truediv (NInt (mem_used memory_info)) (NInt (1024 ^ 3));
     do memory_total <- py_truediv (NInt (mem_total memory_info)) (NInt (1024 ^ 3));
     Ok (memory_used, memory_total))
    (NInt 0, NInt 16).

(** [(memory_used / memory_total) * 100 if memory_total > 0 else 0] *)
Definition gpu_memory_usage (memory_used memory_total : num) : result num :=
  if py_gt memory_total (NInt 0)
  then do ratio <- py_truediv memory_used memory_total;
       py_mul ratio (NInt 100)
  else Ok (NInt 0).

(** [(driver_version, cuda_version)] *)
Definition gpu_versions (h : Host) : string * string :=
  or_default
    (do driver_version_raw <- nvmlSystemGetDriverVersion h;
     do cuda_version <- nvmlSystemGetCudaDriverVersion_v2 h;
     Ok (text_of driver_version_raw,
         pretty (cuda_version / 1000) +:+ "." +:+ pretty ((cuda_version mod 1000) / 10)))
    ("Unknown", "Unknown")%string.

(** The dict of the last [return]. *)
Definition gpu_record (name : string) (temp peak fan_speed : Z) (power : num * num)
    (gpu_usage : Z) (memory_usage memory_used memory_total : num)
    (versions : string * string) : result pydict :=
  do v_power_draw <- py_round (fst power) 0;
  do v_max_power <- py_round (snd power) 0;
  do v_memory_usage <- py_round memory_usage 1;
  do v_memory_used <- py_round memory_used 1;
  do v_memory_total <- py_round memory_total 0;
  Ok (dict_of [("name", VStr name);
               ("temperature", VInt temp);
               ("max_temp", VInt peak);
               ("fan_speed", VInt (fan_speed * 22));
               ("fan_percent", VInt fan_speed);
               ("power_draw", of_num v_power_draw);
               ("max_power", of_num v_max_power);
               ("usage", VInt gpu_usage);
               ("memory_usage", of_num v_memory_usage);
               ("memory_used", of_num v_memory_used);
               ("memory_total", of_num v_memory_total);
               ("driver_version", VStr (fst versions));
               ("cuda_version", VStr (snd versions))]%string).

Definition get_gpu_stats (h : Host) : M pydict :=
  if negb (NVIDIA_AVAILABLE h) then ret (gpu_zero "GPU Not Available" "N/A")
  else
    try_except
      (let* handle := get gpu_handle in
       match handle with
       | None =>
           let* name := get gpu_name in
           ret (gpu_zero name "Error")
       | Some _ =>
           let* temp := lift (nvmlDeviceGetTemperature h) in
           let* peak := get max_gpu_temp in
           modify (set_max_gpu_temp (Z.max peak temp)) ;;
           let fan_speed := gpu_fan_speed h in
           let power := gpu_power h in
           let gpu_usage := gpu_utilization h in
           let memory := gpu_memory h in
           let memory_used := fst memory in
           let memory_total := snd memory in
           let* memory_usage := lift (gpu_memory_usage memory_used memory_total) in
           let versions := gpu_versions h in
           let* name := get gpu_name in
           let* peak' := get max_gpu_temp in
           lift (gpu_record name temp peak' fan_speed power gpu_usage
                            memory_usage memory_used memory_total versions)
       end)
      (λ _, let* name := get gpu_name in ret (gpu_zero name "Error")).

(** ** String methods used by [get_disk_stats] *)

(** [s.replace(c, d)] for one-character [c] and [d] *)
Fixpoint replace_char (c d : ascii) (s : string) : string :=
  match s with
  | EmptyString => EmptyString
  | String a r => String (if Ascii.eqb a c then d else a) (replace_char c d r)
  end.

(** [s.replace(c, '')] *)
Fixpoint remove_char (c : ascii) (s : string) : string :=
  match s with
  | EmptyString => EmptyString
  | String a r => if Ascii.eqb a c then remove_char c r else String a (remove_char c r)
  end.

Fixpoint lstrip_char (c : ascii) (s : string) : string :=
  match s with
  | EmptyString => EmptyString
  | String a r => if Ascii.eqb a c then lstrip_char c r else s
  end.

Fixpoint rstrip_char (c : ascii) (s : string) : string :=
  match s with
  | EmptyString => EmptyString
  | String a r =>
      match rstrip_char c r with
      | EmptyString => if Ascii.eqb a c then EmptyString else String a EmptyString
      | r' => String a r'
      end
  end.

(** [s.strip(c)] *)
Definition strip_char (c : ascii) (s : string) : string :=
  rstrip_char c (lstrip_char c s).

(** [s.lower()] on the ASCII letters *)
Definition lower_ascii (a : ascii) : ascii :=
  let n := Ascii.N_of_ascii a in
  if ((65 <=? n) && (n <=? 90))%N then Ascii.ascii_of_N (n + 32) else a.

Fixpoint lower (s : string) : string :=
  match s with
  | EmptyString => EmptyString
  | String a r => String (lower_ascii a) (lower r)
  end.

(** [sub in s] for a non-empty [sub] *)
Definition contains (sub s : string) : bool :=
  match String.index 0 sub s with
  | Some _ => true
  | None => false
  end.

(** [s.split(c)[-1]]: what follows the last [c] *)
Fixpoint after_last (c : ascii) (s : string) : string :=
  match s with
  | EmptyString => EmptyString
  | String a r =>
      if contains (String c EmptyString) r then after_last c r
      else if Ascii.eqb a c then r else s
  end.

(** ** [SystemMonitor.get_disk_stats] *)

(** The character of code 92, the separator of Windows paths. *)
Definition backslash : ascii := "092"%char.

Definition skip_types : list string :=
  ["tmpfs"; "devtmpfs"; "sysfs"; "proc"; "squashfs"; "overlay"]%string.

Definition skip_mounts : list string :=
  ["/sys"; "/proc"; "/dev"; "/run"; "/snap"]%string.

(** The tests that end in [continue] before the usage query. *)
Definition skipped (linux : bool) (partition : sdiskpart) : bool :=
  if linux then
    existsb (String.eqb (fstype partition)) skip_types
    || existsb (λ skip, String.prefix skip (mountpoint partition)) skip_mounts
  else
    contains "cdrom" (opts partition) || String.eqb (fstype partition) EmptyString.

Definition disk_name (linux : bool) (partition : sdiskpart) : string :=
  if linux then
    let name := strip_char "_"%char (replace_char "/"%char "_"%char (mountpoint partition)) in
    if String.eqb name EmptyString then "root" else name
  else
    lower (remove_char backslash (remove_char ":"%char (device partition))).

Definition display_name (linux : bool) (partition : sdiskpart) : string :=
  if linux then mountpoint partition
  else if contains (String backslash EmptyString) (device partition)
       then after_last backslash (device partition)
       else "Local Disk".

(** The body of the inner [try]: the key and the entry stored under it. *)
Definition disk_entry (h : Host) (linux : bool) (partition : sdiskpart)
  : result (string * pydict) :=
  do usage <- disk_usage h (mountpoint partition);
  do used <- py_truediv (NInt (du_used usage)) (NInt (1024 ^ 3));
  do v_used <- py_round used 1;
  do total <- py_truediv (NInt (du_total usage)) (NInt (1024 ^ 3));
  do v_total <- py_round total 1;
  Ok (disk_name linux partition,
      dict_of [("used", of_num v_used); ("total", of_num v_total);
               ("label", VStr (display_name linux partition));
               ("fstype", VStr (fstype partition))]%string).

(** The [for] loop.  An [OSError] of the inner [try] skips the partition;
    any other exception leaves the loop for the outer handler, which keeps
    the entries made so far. *)
Fixpoint disk_loop (h : Host) (linux : bool) (partitions : list sdiskpart)
    (disks : gmap string pydict) : gmap string pydict :=
  match partitions with
  | [] => disks
  | partition :: rest =>
      if skipped linux partition then disk_loop h linux rest disks
      else
        match disk_entry h linux partition with
        | Ok (name, entry) => disk_loop h linux rest (<[name := entry]> disks)
        | Raise e => if is_OSError e then disk_loop h linux rest disks else disks
        end
  end.

Definition get_disk_stats (h : Host) : M (gmap string pydict) :=
  let* linux := get is_linux in
  ret (match disk_partitions h with
       | Ok partitions => disk_loop h linux partitions ∅
       | Raise _ => ∅
       end).

(** ** [SystemMonitor.get_all_stats] *)

Record Snapshot : Type := {
  snap_cpu : pydict;
  snap_memory : pydict;
  snap_gpu : pydict;
  snap_disks : gmap string pydict;
  snap_network : pydict;
  snap_hostname : string;
  snap_ip_addresses : list string;
  snap_connected_clients : gmap string client;
  snap_platform : string;
  snap_timestamp : string
}.

Definition get_all_stats (h : Host) : M Snapshot :=
  let cpu := get_cpu_stats h in
  let memory := get_memory_stats h in
  let* gpu := get_gpu_stats h in
  let* disks := get_disk_stats h in
  let* network := get_network_stats h in
  let* name := get hostname in
  let* ips := get ip_addresses in
  let* clients := get_connected_clients in
  ret {| snap_cpu := cpu; snap_memory := memory; snap_gpu := gpu;
         snap_disks := disks; snap_network := network;
         snap_hostname := name; snap_ip_addresses := ips;
         snap_connected_clients := clients;
         snap_platform := platform_system h; snap_timestamp := now h |}.

(** ** [SystemMonitor.__init__] *)

Definition __init__ (h : Host) : SystemMonitor :=
  let gpu :=
    if NVIDIA_AVAILABLE h then
      match nvmlInit h with
      | Raise _ => (None, "GPU Error")
      | Ok _ =>
          match nvmlDeviceGetHandleByIndex h with
          | Raise _ => (None, "GPU Error")
          | Ok handle =>
              match nvmlDeviceGetName h with
              | Raise _ => (Some handle, "GPU Error")
              | Ok gpu_name_raw => (Some handle, text_of gpu_name_raw)
              end
          end
      end
    else (None, "GPU Not Available") in
  {| running := true;
     update_interval := NInt 1000;
     session_start := time_time h;
     max_gpu_temp := 0;
     network_baseline := _get_network_stats h;
     gpu_name := snd gpu;
     is_linux := String.eqb (lower (platform_system h)) "linux";
     connected_clients := ∅;
     hostname := gethostname h;
     ip_addresses := _get_ip_addresses h;
     gpu_handle := fst gpu |}.

(** ** The socket handlers *)

(** What a handler sends. *)
Inductive emitted : Type :=
  | system_stats (stats : Snapshot)
  | interval_updated (payload : pydict).

(** A JSON value used as a number; [bool] is a subclass of [int]. *)
Definition num_of (v : pyval) : result num :=
  match v with
  | VBool b => Ok (NInt (if b then 1 else 0))
  | VInt z => Ok (NInt z)
  | VFloat f => Ok (NFloat f)
  | VNone | VStr _ => Raise TypeError
  end.

(** [data.get(key, default)] *)
Definition dict_get (data : pydict) (key : string) (default : pyval) : pyval :=
  match data !! key with
  | Some v => v
  | None => default
  end.

(** [handle_update_interval(data)] for the connection [sid]. *)
Definition handle_update_interval (sid now1 : string) (data : pydict) : M (list emitted) :=
  let client_id := sid in
  update_client_activity client_id now1 ;;
  let new_interval := dict_get data "interval" (VInt 1000) in
  let* n := lift (num_of new_interval) in
  if py_le (NInt 100) n && py_le n (NInt 10000) then
    modify (set_update_interval n) ;;
    ret [interval_updated (dict_of [("interval", new_interval)]%string)]
  else ret [].

(** [request.environ.get('HTTP_X_FORWARDED_FOR',
                         request.environ.get('REMOTE_ADDR', 'Unknown'))] *)
Definition client_ip_of (environ : gmap string string) : string :=
  match environ !! "HTTP_X_FORWARDED_FOR"%string with
  | Some a => a
  | None =>
      match environ !! "REMOTE_ADDR"%string with
      | Some a => a
      | None => "Unknown"
      end
  end.

Definition handle_connect (h : Host) (sid now1 now2 : string)
    (environ : gmap string string) : M (list emitted) :=
  add_client sid (client_ip_of environ) now1 now2 ;;
  let* stats := get_all_stats h in
  ret [system_stats stats].

Definition handle_disconnect (sid : string) : M unit := remove_client sid.

(** ** [background_stats_updater] *)

(** One iteration of the loop body: the snapshot broadcast, if any.  The
    handler of the loop only logs and sleeps. *)
Definition tick (h : Host) : M (list emitted) :=
  try_except
    (let* stats := get_all_stats h in ret [system_stats stats])
    (λ _, ret []).

(** A run of the loop: one host reading per iteration, while [running]. *)
Fixpoint background_stats_updater (hs : list Host) (s : SystemMonitor)
  : list (list emitted) * SystemMonitor :=
  match hs with
  | [] => ([], s)
  | h :: rest =>
      if running s then
        let r := tick h s in
        let r' := background_stats_updater rest (snd r) in
        (or_default (fst r) [] :: fst r', snd r')
      else ([], s)
  end.

(** ** Predicates of the statements *)

(** A float that is a number: finite or infinite. *)
Definition not_nan (x : num) : Prop :=
  match x with
  | NFloat FNaN => False
  | _ => True
  end.

Definition is_float (x : num) : Prop :=
  match x with
  | NFloat _ => True
  | NInt _ => False
  end.

(** A finite float of the model: a rational below the overflow bound. *)
Definition valid_float (f : pyfloat) : Prop :=
  match f with
  | FFin q => (Qabs q < float_bound)%Q
  | _ => False
  end.

(** A number that is finite: any int, or a finite float. *)
Definition finite (x : num) : Prop :=
  match x with
  | NInt _ => True
  | NFloat f => valid_float f
  end.

(** A value that is a finite number: not [None], not text, not NaN, not an
    infinity. *)
Definition finite_number (v : pyval) : Prop :=
  match v with
  | VInt _ => True
  | VFloat f => valid_float f
  | _ => False
  end.

(** Every key of [keys] is present in [d] and holds a finite number. *)
Definition has_numbers (keys : list string) (d : pydict) : Prop :=
  Forall (λ k, ∃ v, d !! k = Some v ∧ finite_number v) keys.

Definition cpu_fields : list string := ["usage"; "frequency"; "max_frequency"]%string.

Definition memory_fields : list string := ["usage_percent"; "used_gb"; "total_gb"]%string.

Definition gpu_fields : list string :=
  ["temperature"; "max_temp"; "fan_speed"; "fan_percent"; "power_draw"; "max_power";
   "usage"; "memory_usage"; "memory_used"; "memory_total"]%string.

Definition disk_fields : list string := ["used"; "total"]%string.

Definition network_fields : list string :=
  ["usage"; "upload_speed"; "download_speed"; "total_sent"; "total_received"]%string.

(** Every numeric field of a snapshot is present and finite. *)
Definition snapshot_numbers_ok (stats : Snapshot) : Prop :=
  has_numbers cpu_fields (snap_cpu stats) ∧
  has_numbers memory_fields (snap_memory stats) ∧
  has_numbers gpu_fields (snap_gpu stats) ∧
  (∀ name entry, snap_disks stats !! name = Some entry → has_numbers disk_fields entry) ∧
  has_numbers network_fields (snap_network stats).


(** The counters of the operating system are unsigned 64-bit integers. *)
Definition counters_ok (c : snetio) : Prop :=
  0 ≤ bytes_sent c < 2 ^ 64 ∧ 0 ≤ bytes_recv c < 2 ^ 64.

(** A host reading whose network counters, if read, are well formed. *)
Definition reading_ok (h : Host) : Prop :=
  match net_io_counters h with
  | Ok (Some c) => counters_ok c
  | _ => True
  end.

(** The counters of the most recent sample of [hs] that read them, or
    [base] when none did. *)
Definition last_reading (hs : list Host) (base : snetio) : snetio :=
  fold_left (λ b h, match net_io_counters h with
                    | Ok (Some c) => c
                    | _ => b
                    end) hs base.

(** The baseline of the monitor, if present, is a reading of 64-bit counters. *)
Definition baseline_ok (s : SystemMonitor) : Prop :=
  match network_baseline s with
  | Some b => counters_ok b
  | None => True
  end.

(** The values a provider returns when it does not fail are well formed:
    the floats of [psutil] are finite, the memory sizes of NVML and the
    network counters are unsigned 64-bit integers.  Nothing is asked of a
    provider that fails, and any provider may. *)
Definition host_ok (h : Host) : Prop :=
  match cpu_percent h with
  | Ok f => valid_float f
  | Raise _ => True
  end ∧
  match cpu_freq h with
  | Ok (Some fr) => valid_float (freq_current fr) ∧ valid_float (freq_max fr)
  | _ => True
  end ∧
  match virtual_memory h with
  | Ok m => valid_float (vm_percent m)
  | Raise _ => True
  end ∧
  match nvmlDeviceGetMemoryInfo h with
  | Ok mi => 0 ≤ mem_used mi < 2 ^ 64 ∧ 0 ≤ mem_total mi < 2 ^ 64
  | Raise _ => True
  end ∧
  reading_ok h.

(** ** Addresses, in the words of the specification *)

(** An address of 127.0.0.0/8, written as a dotted quad. *)
Definition is_loopback (ip : string) : bool := String.prefix "127." ip.

(** An address of 169.254.0.0/16, written as a dotted quad. *)
Definition is_link_local (ip : string) : bool := String.prefix "169.254." ip.

(** The IPv4 addresses of all interfaces, in the order of enumeration. *)
Definition ipv4_addresses (interfaces : list (string * list snicaddr)) : list string :=
  flat_map (λ '(interface, addrs),
    flat_map (λ addr, if family addr =? 2 then [address addr] else []) addrs) interfaces.

(** ** Host readings for the examples *)

(** A host where only the listed providers answer; with [nvidia] the NVML
    library loads and hands out a device. *)
Definition host_of (nvidia : bool) (counters : result (option snetio))
    (interfaces : result (list (string * list snicaddr))) (temperature : result Z) : Host :=
  {| NVIDIA_AVAILABLE := nvidia;
     net_io_counters := counters;
     net_if_addrs := interfaces;
     cpu_percent := Raise OSError;
     cpu_freq := Raise OSError;
     virtual_memory := Raise OSError;
     disk_partitions := Raise OSError;
     disk_usage := λ _, Raise OSError;
     nvmlInit := if nvidia then Ok tt else Raise NVMLError;
     nvmlDeviceGetHandleByIndex := if nvidia then Ok tt else Raise NVMLError;
     nvmlDeviceGetName := if nvidia then Ok (Bytes "GeForce") else Raise NVMLError;
     nvmlDeviceGetTemperature := temperature;
     nvmlDeviceGetFanSpeed := Raise NVMLError;
     nvmlDeviceGetPowerUsage := Raise NVMLError;
     nvmlDeviceGetPowerManagementLimitConstraints := Raise NVMLError;
     nvmlDeviceGetUtilizationRates := Raise NVMLError;
     nvmlDeviceGetMemoryInfo := Raise NVMLError;
     nvmlSystemGetDriverVersion := Raise NVMLError;
     nvmlSystemGetCudaDriverVersion_v2 := Raise NVMLError;
     gethostname := "host";
     platform_system := "Linux";
     time_time := 0%Q;
     now := "2025-01-01T00:00:00" |}.

(** Every provider fails; no NVIDIA library. *)
Definition host_failing : Host :=
  host_of false (Raise OSError) (Raise OSError) (Raise NVMLError).

(** Only the network counters answer. *)
Definition host_with_counters (sent recv : Z) : Host :=
  host_of false (Ok (Some {| bytes_sent := sent; bytes_recv := recv |}))
          (Raise OSError) (Raise NVMLError).

(** Only the interface table answers. *)
Definition host_with_interfaces (interfaces : list (string * list snicaddr)) : Host :=
  host_of false (Raise OSError) (Ok interfaces) (Raise NVMLError).

(** A GPU whose temperature query gives [temperature]. *)
Definition host_with_gpu (temperature : result Z) : Host :=
  host_of true (Raise OSError) (Raise OSError) temperature.

(** A Linux host with a GPU where every provider answers, except the
    usage query of one mount point. *)
Definition host_healthy : Host :=
  {| NVIDIA_AVAILABLE := true;
     net_io_counters := Ok (Some {| bytes_sent := 52428800; bytes_recv := 104857600 |});
     net_if_addrs := Ok [("lo", [{| family := 2; address := "127.0.0.1" |}]);
                         ("eth0", [{| family := 2; address := "192.168.1.20" |}])]%string;
     cpu_percent := Ok (FFin (375 # 10));
     cpu_freq := Ok (Some {| freq_current := FFin 3400; freq_min := FFin 800;
                             freq_max := FFin 4200 |});
     virtual_memory := Ok {| vm_total := 17179869184; vm_used := 6442450944;
                             vm_percent := FFin (375 # 10) |};
     disk_partitions := Ok [{| device := "/dev/sda1"; mountpoint := "/";
                               fstype := "ext4"; opts := "rw" |};
                            {| device := "tmpfs"; mountpoint := "/run";
                               fstype := "tmpfs"; opts := "rw" |};
                            {| device := "/dev/sdb1"; mountpoint := "/mnt/data";
                               fstype := "ext4"; opts := "rw" |}]%string;
     disk_usage := λ m, if String.eqb m "/"
                        then Ok {| du_total := 500000000000; du_used := 120000000000 |}
                        else Raise PermissionError;
     nvmlInit := Ok tt;
     nvmlDeviceGetHandleByIndex := Ok tt;
     nvmlDeviceGetName := Ok (Bytes "GeForce");
     nvmlDeviceGetTemperature := Ok 61;
     nvmlDeviceGetFanSpeed := Ok 40;
     nvmlDeviceGetPowerUsage := Ok 180500;
     nvmlDeviceGetPowerManagementLimitConstraints := Ok (100000, 350000);
     nvmlDeviceGetUtilizationRates := Ok {| util_gpu := 55; util_memory := 20 |};
     nvmlDeviceGetMemoryInfo := Ok {| mem_total := 8589934592; mem_used := 2147483648 |};
     nvmlSystemGetDriverVersion := Ok (Str "550.54");
     nvmlSystemGetCudaDriverVersion_v2 := Ok 12040;
     gethostname := "host";
     platform_system := "Linux";
     time_time := 0%Q;
     now := "2025-01-01T00:00:00" |}.

(** ** [api_stats] and the pause of the loop *)

(** [api_stats]: the body of the JSON response. *)
Definition api_stats (h : Host) : M Snapshot := get_all_stats h.

(** One iteration of [background_stats_updater] with its pause: what is
    broadcast, and the seconds handed to [socketio.sleep].  The pause is
    [update_interval / 1000.0], read after the broadcast; the handler of
    the loop pauses one second. *)
Definition iteration (h : Host) : M (list emitted * num) :=
  λ s, match get_all_stats h s with
       | (Ok stats, s1) =>
           match py_truediv (update_interval s1) (NFloat (FFin 1000)) with
           | Ok seconds => (Ok ([system_stats stats], seconds), s1)
           | Raise _ => (Ok ([system_stats stats], NInt 1), s1)
           end
       | (Raise _, s1) => (Ok ([], NInt 1), s1)
       end.

(** ** The server as a sequence of events *)

(** What reaches the monitor: an iteration of the loop, the three socket
    events, and a request for [/api/stats].  Each is handled to its end
    before the next (cooperative scheduling). *)
Inductive event : Type :=
  | Tick (h : Host)
  | Connect (h : Host) (sid now1 now2 : string) (environ : gmap string string)
  | Disconnect (sid : string)
  | UpdateInterval (sid now1 : string) (data : pydict)
  | ApiStats (h : Host).

(** The monitor after one event; an exception in a handler leaves the
    assignments made before it. *)
Definition handle (ev : event) (s : SystemMonitor) : SystemMonitor :=
  match ev with
  | Tick h => snd (tick h s)
  | Connect h sid now1 now2 environ => snd (handle_connect h sid now1 now2 environ s)
  | Disconnect sid => snd (handle_disconnect sid s)
  | UpdateInterval sid now1 data => snd (handle_update_interval sid now1 data s)
  | ApiStats h => snd (api_stats h s)
  end.

Definition serve (evs : list event) (s : SystemMonitor) : SystemMonitor :=
  fold_left (λ s ev, handle ev s) evs s.

(** The host reading an event samples, if it samples. *)
Definition sampled (ev : event) : option Host :=
  match ev with
  | Tick h | Connect h _ _ _ _ | ApiStats h => Some h
  | Disconnect _ | UpdateInterval _ _ _ => None
  end.

(** The connections open after [evs], given those open before. *)
Definition open_connections (evs : list event) (before : gset string) : gset string :=
  fold_left (λ open ev,
    match ev with
    | Connect _ sid _ _ _ => {[sid]} ∪ open
    | Disconnect sid => open ∖ {[sid]}
    | _ => open
    end) evs before.

(** The cadence is a number between 100 and 10000 milliseconds. *)
Definition cadence_ok (s : SystemMonitor) : Prop :=
  py_le (NInt 100) (update_interval s) = true ∧
  py_le (update_interval s) (NInt 10000) = true.

(** The fields no handler and no sample assigns. *)
Definition identity (s : SystemMonitor)
  : bool * Q * string * bool * string * list string * option unit :=
  (running s, session_start s, gpu_name s, is_linux s, hostname s, ip_addresses s,
   gpu_handle s).

(** A value that is a percentage: a number between 0 and 100. *)
Definition in_percent (v : pyval) : Prop :=
  match v with
  | VInt z => 0 ≤ z ≤ 100
  | VFloat (FFin q) => (0 <= q)%Q ∧ (q <= 100)%Q
  | _ => False
  end.

(** A value that is a number and is at most 100 (minus infinity counts). *)
Definition at_most_100 (v : pyval) : Prop :=
  match v with
  | VInt z => z ≤ 100
  | VFloat (FFin q) => (q <= 100)%Q
  | VFloat (FInf true) => True
  | _ => False
  end.

(** The host [h] with other answers to the three queries of the
    constructor's GPU block. *)
Definition with_nvml_init (init handle : result unit) (name : result str_or_bytes)
    (h : Host) : Host :=
  {| NVIDIA_AVAILABLE := NVIDIA_AVAILABLE h;
     net_io_counters := net_io_counters h;
     net_if_addrs := net_if_addrs h;
     cpu_percent := cpu_percent h;
     cpu_freq := cpu_freq h;
     virtual_memory := virtual_memory h;
     disk_partitions := disk_partitions h;
     disk_usage := disk_usage h;
     nvmlInit := init;
     nvmlDeviceGetHandleByIndex := handle;
     nvmlDeviceGetName := name;
     nvmlDeviceGetTemperature := nvmlDeviceGetTemperature h;
     nvmlDeviceGetFanSpeed := nvmlDeviceGetFanSpeed h;
     nvmlDeviceGetPowerUsage := nvmlDeviceGetPowerUsage h;
     nvmlDeviceGetPowerManagementLimitConstraints :=
       nvmlDeviceGetPowerManagementLimitConstraints h;
     nvmlDeviceGetUtilizationRates := nvmlDeviceGetUtilizationRates h;
     nvmlDeviceGetMemoryInfo := nvmlDeviceGetMemoryInfo h;
     nvmlSystemGetDriverVersion := nvmlSystemGetDriverVersion h;
     nvmlSystemGetCudaDriverVersion_v2 := nvmlSystemGetCudaDriverVersion_v2 h;
     gethostname := gethostname h;
     platform_system := platform_system h;
     time_time := time_time h;
     now := now h |}.

(** The host [h] with other answers to the two power queries. *)
Definition with_power (usage : result Z) (limits : result (Z * Z)) (h : Host) : Host :=
  {| NVIDIA_AVAILABLE := NVIDIA_AVAILABLE h;
     net_io_counters := net_io_counters h;
     net_if_addrs := net_if_addrs h;
     cpu_percent := cpu_percent h;
     cpu_freq := cpu_freq h;
     virtual_memory := virtual_memory h;
     disk_partitions := disk_partitions h;
     disk_usage := disk_usage h;
     nvmlInit := nvmlInit h;
     nvmlDeviceGetHandleByIndex := nvmlDeviceGetHandleByIndex h;
     nvmlDeviceGetName := nvmlDeviceGetName h;
     nvmlDeviceGetTemperature := nvmlDeviceGetTemperature h;
     nvmlDeviceGetFanSpeed := nvmlDeviceGetFanSpeed h;
     nvmlDeviceGetPowerUsage := usage;
     nvmlDeviceGetPowerManagementLimitConstraints := limits;
     nvmlDeviceGetUtilizationRates := nvmlDeviceGetUtilizationRates h;
     nvmlDeviceGetMemoryInfo := nvmlDeviceGetMemoryInfo h;
     nvmlSystemGetDriverVersion := nvmlSystemGetDriverVersion h;
     nvmlSystemGetCudaDriverVersion_v2 := nvmlSystemGetCudaDriverVersion_v2 h;
     gethostname := gethostname h;
     platform_system := platform_system h;
     time_time := time_time h;
     now := now h |}.

(** ** The network record, in closed form *)


(** Gigabytes for [bytes] bytes. *)
Definition gigabytes (bytes : Z) : Q := (inject_Z bytes / inject_Z (1024 ^ 3))%Q.

(** [q] rounded half-to-even to [ndigits] decimals. *)
Definition round_to (ndigits : nat) (q : Q) : Q :=
  (inject_Z (round_half_even (q * inject_Z (10 ^ Z.of_nat ndigits)))
   / inject_Z (10 ^ Z.of_nat ndigits))%Q.




(** ** Characters of a string *)

(** [c in s] for a character *)
Fixpoint has_char (c : ascii) (s : string) : bool :=
  match s with
  | EmptyString => false
  | String a r => Ascii.eqb a c || has_char c r
  end.

(** A host whose every mount point has the same usage. *)
Definition host_with_disks (partitions : list sdiskpart) : Host :=
  {| NVIDIA_AVAILABLE := false;
     net_io_counters := Raise OSError;
     net_if_addrs := Raise OSError;
     cpu_percent := Raise OSError;
     cpu_freq := Raise OSError;
     virtual_memory := Raise OSError;
     disk_partitions := Ok partitions;
     disk_usage := λ _, Ok {| du_total := 500000000000; du_used := 120000000000 |};
     nvmlInit := Raise NVMLError;
     nvmlDeviceGetHandleByIndex := Raise NVMLError;
     nvmlDeviceGetName := Raise NVMLError;
     nvmlDeviceGetTemperature := Raise NVMLError;
     nvmlDeviceGetFanSpeed := Raise NVMLError;
     nvmlDeviceGetPowerUsage := Raise NVMLError;
     nvmlDeviceGetPowerManagementLimitConstraints := Raise NVMLError;
     nvmlDeviceGetUtilizationRates := Raise NVMLError;
     nvmlDeviceGetMemoryInfo := Raise NVMLError;
     nvmlSystemGetDriverVersion := Raise NVMLError;
     nvmlSystemGetCudaDriverVersion_v2 := Raise NVMLError;
     gethostname := "host";
     platform_system := "Linux";
     time_time := 0%Q;
     now := "2025-01-01T00:00:00" |}.

(** Partitions for the examples. *)
Definition part_root : sdiskpart :=
  {| device := "/dev/sda1"; mountpoint := "/"; fstype := "ext4"; opts := "rw" |}.

Definition part_data : sdiskpart :=
  {| device := "/dev/sdb1"; mountpoint := "/mnt/data"; fstype := "ext4"; opts := "rw" |}.

Definition part_srv : sdiskpart :=
  {| device := "/dev/sdc1"; mountpoint := "/srv"; fstype := "ext4"; opts := "rw" |}.

Definition part_a_b : sdiskpart :=
  {| device := "/dev/sdd1"; mountpoint := "/a/b"; fstype := "ext4"; opts := "rw" |}.

Definition part_a_b' : sdiskpart :=
  {| device := "/dev/sde1"; mountpoint := "/a_b"; fstype := "xfs"; opts := "rw" |}.

(** [a <= b] for two values of the same numeric kind. *)
Definition value_le (a b : pyval) : Prop :=
  match a, b with
  | VInt x, VInt y => x ≤ y
  | VFloat (FFin p), VFloat (FFin q) => (p <= q)%Q
  | _, _ => False
  end.

(** ** Proof steps that recur *)

Create HintDb finite_db.

(** The fields of a dict literal, one key after the other: the lookup is
    computed, the value is left to be shown finite. *)
Ltac numbers :=
  unfold has_numbers, cpu_fields, memory_fields, gpu_fields, disk_fields, network_fields;
  repeat match goal with
  | |- Forall _ (_ :: _) =>
      constructor;
      [eexists; split;
       [vm_compute; reflexivity
       | try lazymatch goal with
             | |- finite_number (match ?v with NInt _ => _ | NFloat _ => _ end) =>
                 change (finite_number (of_num v))
             end]
      |]
  | |- Forall _ [] => constructor
  end.

Ltac finite_field := first [exact I | solve [eauto with finite_db]].

(** * Facts about the numbers *)

Lemma overflows_false (q : Q) : overflows q = false ↔ (Qabs q < float_bound)%Q.
Proof.
  unfold overflows. destruct (Qle_bool float_bound (Qabs q)) eqn:E.
  - apply Qle_bool_iff in E. split; [discriminate | intros H; exfalso; lra].
  - split; [intros _ | reflexivity].
    apply Qnot_le_lt. intros H. apply Qle_bool_iff in H. congruence.
Qed.

Lemma float_bound_large : (inject_Z (2 ^ 128) <= float_bound)%Q.
Proof. apply Qle_bool_iff. vm_compute. reflexivity. Qed.

Lemma Qltb_false (p q : Q) : Qltb p q = false ↔ (q <= p)%Q.
Proof.
  unfold Qltb. rewrite negb_false_iff. apply Qle_bool_iff.
Qed.

Lemma Qltb_true (p q : Q) : Qltb p q = true ↔ (p < q)%Q.
Proof.
  unfold Qltb. rewrite negb_true_iff. split.
  - intros E. apply Qnot_le_lt. intros H. apply Qle_bool_iff in H. congruence.
  - intros H. destruct (Qle_bool q p) eqn:E; [| reflexivity].
    apply Qle_bool_iff in E. lra.
Qed.

Lemma fl_not_nan (q : Q) : fl q ≠ FNaN.
Proof. unfold fl. destruct (overflows q); discriminate. Qed.

Lemma fl_finite (q : Q) : (Qabs q < float_bound)%Q → fl q = FFin (Qred q).
Proof. intros H. unfold fl. apply overflows_false in H. rewrite H. reflexivity. Qed.

Lemma to_float_small (z : Z) :
  Z.abs z < 2 ^ 128 → to_float (NInt z) = Ok (FFin (inject_Z z)).
Proof.
  intros H. cbn. unfold int_to_float.
  assert (E : overflows (inject_Z z) = false); [| rewrite E; reflexivity].
  apply overflows_false. pose proof float_bound_large as B.
  assert (Qabs (inject_Z z) < inject_Z (2 ^ 128))%Q; [| lra].
  change (Qabs (inject_Z z)) with (inject_Z (Z.abs z)). rewrite <- Zlt_Qlt. exact H.
Qed.

(** Multiplying or dividing a float by a positive int constant keeps it a
    number. *)
Lemma py_mul_const (f : pyfloat) (c : Z) (r : num) :
  0 < c < 2 ^ 128 → f ≠ FNaN →
  py_mul (NFloat f) (NInt c) = Ok r → is_float r ∧ not_nan r.
Proof.
  intros Hc Hf. unfold py_mul. rewrite to_float_small by lia. cbn.
  intros [= <-]. split; [exact I |].
  destruct f as [p | s |]; cbn; [| | congruence].
  - pose proof (fl_not_nan (p * inject_Z c)). destruct (fl _); congruence || exact I.
  - assert (E : Qeqb (inject_Z c) 0 = false); [| rewrite E; exact I].
    unfold Qeqb. destruct (Qeq_bool _ _) eqn:E; [| reflexivity].
    apply Qeq_bool_iff in E. unfold Qeq in E. cbn in E. lia.
Qed.

Lemma py_truediv_const (f : pyfloat) (c : Z) (r : num) :
  0 < c < 2 ^ 128 → f ≠ FNaN →
  py_truediv (NFloat f) (NInt c) = Ok r → is_float r ∧ not_nan r.
Proof.
  intros Hc Hf. unfold py_truediv. rewrite to_float_small by lia. cbn.
  assert (E : Qeqb (inject_Z c) 0 = false).
  { unfold Qeqb. destruct (Qeq_bool _ _) eqn:E; [| reflexivity].
    apply Qeq_bool_iff in E. unfold Qeq in E. cbn in E. lia. }
  rewrite E. intros [= <-]. split; [exact I |].
  destruct f as [p | s |]; cbn; [| exact I | congruence].
  pose proof (fl_not_nan (p / inject_Z c)). destruct (fl _); congruence || exact I.
Qed.

Lemma py_truediv_int_one (z : Z) (r : num) :
  py_truediv (NInt z) (NFloat (FFin 1)) = Ok r → is_float r ∧ not_nan r.
Proof.
  unfold py_truediv. cbn. unfold int_to_float.
  destruct (overflows (inject_Z z)); cbn; [discriminate |].
  intros [= <-]. split; [exact I |]. cbn.
  pose proof (fl_not_nan (inject_Z z / 1)). destruct (fl _); congruence || exact I.
Qed.

Lemma to_mbps_number (delta : Z) (r : num) :
  to_mbps delta (NFloat (FFin 1)) = Ok r → is_float r ∧ not_nan r.
Proof.
  unfold to_mbps. intros H.
  destruct (py_truediv (NInt delta) (NFloat (FFin 1))) as [a |] eqn:Ea; [| discriminate].
  apply py_truediv_int_one in Ea as [Fa Na]. cbn in H.
  destruct a as [| fa]; [contradiction |].
  destruct (py_mul (NFloat fa) (NInt 8)) as [b |] eqn:Eb; [| discriminate].
  apply py_mul_const in Eb as [Fb Nb]; [| lia | destruct fa; cbn in Na; congruence].
  cbn in H. destruct b as [| fb]; [contradiction |].
  destruct (py_truediv (NFloat fb) (NInt 1024)) as [c |] eqn:Ec; [| discriminate].
  apply py_truediv_const in Ec as [Fc Nc]; [| lia | destruct fb; cbn in Nb; congruence].
  cbn in H. destruct c as [| fc]; [contradiction |].
  apply py_truediv_const in H; [exact H | lia | destruct fc; cbn in Nc; congruence].
Qed.

Lemma Qfloor_nonneg (q : Q) : (0 <= q)%Q → 0 ≤ Qfloor q.
Proof. intros H. apply (Qfloor_resp_le 0 q) in H. exact H. Qed.

Lemma round_half_even_range (q : Q) :
  round_half_even q = Qfloor q ∨ round_half_even q = Qfloor q + 1.
Proof.
  unfold round_half_even.
  destruct (q - inject_Z (Qfloor q) ?= 1 # 2)%Q; [destruct (Z.even _) | |]; auto.
Qed.

Lemma round_half_even_nonneg (q : Q) : (0 <= q)%Q → 0 ≤ round_half_even q.
Proof.
  intros H. apply Qfloor_nonneg in H.
  destruct (round_half_even_range q) as [-> | ->]; lia.
Qed.

Lemma pow10_pos (n : nat) : (0 < inject_Z (10 ^ Z.of_nat n))%Q.
Proof.
  change 0%Q with (inject_Z 0). rewrite <- Zlt_Qlt. apply Z.pow_pos_nonneg; lia.
Qed.

(** The sign of a float, as a proposition: not negative. *)
Lemma float_round_nonneg (q : Q) (n : nat) (f : pyfloat) :
  (0 <= q)%Q → float_round (FFin q) n = Ok f → ∃ q', f = FFin q' ∧ (0 <= q')%Q.
Proof.
  intros Hq. cbn. destruct (overflows _); [discriminate |].
  intros [= <-]. eexists; split; [reflexivity |].
  rewrite Qred_correct. pose proof (pow10_pos n) as Hp.
  apply Qle_shift_div_l; [exact Hp |]. rewrite Qmult_0_l.
  change 0%Q with (inject_Z 0). rewrite <- Zle_Qle.
  apply round_half_even_nonneg. apply Qmult_le_0_compat; [exact Hq | lra].
Qed.


(** * The network deriver *)

(** What a call of [get_network_stats] comes to: the zero record with the
    monitor as it was, the zero record after the baseline was replaced, or
    the record computed from both readings. *)
Lemma get_network_stats_inv (h : Host) (s : SystemMonitor) :
  get_network_stats h s = (Ok zero_network, s) ∨
  (∃ cur, net_io_counters h = Ok (Some cur) ∧
     get_network_stats h s = (Ok zero_network, set_network_baseline (Some cur) s)) ∨
  ∃ cur base up down ts tr usage v1 v2 v3 v4 v5,
    net_io_counters h = Ok (Some cur) ∧ network_baseline s = Some base ∧
    to_mbps (bytes_sent cur - bytes_sent base) (NFloat (FFin 1)) = Ok up ∧
    to_mbps (bytes_recv cur - bytes_recv base) (NFloat (FFin 1)) = Ok down ∧
    py_truediv (NInt (bytes_sent cur)) (NInt (1024 ^ 3)) = Ok ts ∧
    py_truediv (NInt (bytes_recv cur)) (NInt (1024 ^ 3)) = Ok tr ∧
    (do r <- py_truediv (py_max up down) (NInt 100); py_mul r (NInt 100)) = Ok usage ∧
    py_round (py_min usage (NInt 100)) 1 = Ok v1 ∧
    py_round (py_max up (NInt 0)) 1 = Ok v2 ∧
    py_round (py_max down (NInt 0)) 1 = Ok v3 ∧
    py_round ts 2 = Ok v4 ∧
    py_round tr 2 = Ok v5 ∧
    get_network_stats h s =
      (Ok (dict_of [("usage", of_num v1); ("upload_speed", of_num v2);
                    ("download_speed", of_num v3); ("total_sent", of_num v4);
                    ("total_received", of_num v5)]%string),
       set_network_baseline (Some cur) s).
Proof.
  unfold get_network_stats, try_except, bind, lift, get, modify, ret.
  destruct (net_io_counters h) as [[cur |] |]; cbv beta iota; auto.
  destruct (network_baseline s) as [base |] eqn:Eb; cbv beta iota; auto.
  destruct (to_mbps (bytes_sent cur - _) _) as [up |] eqn:Eu; cbv beta iota; auto.
  destruct (to_mbps (bytes_recv cur - _) _) as [down |] eqn:Ed; cbv beta iota; auto.
  destruct (py_truediv (NInt (bytes_sent cur)) _) as [ts |] eqn:Ets; cbv beta iota; eauto.
  destruct (py_truediv (NInt (bytes_recv cur)) _) as [tr |] eqn:Etr; cbv beta iota; eauto.
  destruct (do r <- py_truediv (py_max up down) (NInt 100); py_mul r (NInt 100))
    as [usage |] eqn:Eus; cbv beta iota; eauto.
  destruct (py_round (py_min usage (NInt 100)) 1) as [v1 |] eqn:E1; cbv beta iota; eauto.
  destruct (py_round (py_max up (NInt 0)) 1) as [v2 |] eqn:E2; cbv beta iota; eauto.
  destruct (py_round (py_max down (NInt 0)) 1) as [v3 |] eqn:E3; cbv beta iota; eauto.
  destruct (py_round ts 2) as [v4 |] eqn:E4; cbv beta iota; eauto.
  destruct (py_round tr 2) as [v5 |] eqn:E5; cbv beta iota; eauto.
  right. right. exists cur, base, up, down, ts, tr, usage, v1, v2, v3, v4, v5. auto 15.
Qed.


(** * What a sample does to the monitor *)

Lemma set_max_gpu_temp_id (s : SystemMonitor) : set_max_gpu_temp (max_gpu_temp s) s = s.
Proof. destruct s; reflexivity. Qed.

(** [get_gpu_stats] returns a record and touches [max_gpu_temp] only. *)
Lemma get_gpu_stats_frame (h : Host) (s : SystemMonitor) :
  ∃ d z, get_gpu_stats h s = (Ok d, set_max_gpu_temp z s).
Proof.
  unfold get_gpu_stats.
  destruct (NVIDIA_AVAILABLE h); cbv beta iota delta [negb];
    [| exists (gpu_zero "GPU Not Available" "N/A"), (max_gpu_temp s);
       rewrite set_max_gpu_temp_id; reflexivity].
  unfold try_except, bind, lift, get, modify, ret.
  destruct (gpu_handle s); cbv beta iota;
    [| eexists _, (max_gpu_temp s); rewrite set_max_gpu_temp_id; reflexivity].
  destruct (nvmlDeviceGetTemperature h) as [t |]; cbv beta iota;
    [| eexists _, (max_gpu_temp s); rewrite set_max_gpu_temp_id; reflexivity].
  repeat match goal with
  | |- context [match (match ?r with Ok _ => _ | Raise _ => _ end) with _ => _ end] =>
      destruct r; cbv beta iota
  | |- ∃ d z, (match ?r with Ok _ => _ | Raise _ => _ end) = _ =>
      destruct r; cbv beta iota
  end; eexists _, _; reflexivity.
Qed.

Lemma get_disk_stats_frame (h : Host) (s : SystemMonitor) :
  ∃ d, get_disk_stats h s = (Ok d, s).
Proof. eexists. reflexivity. Qed.

Lemma set_network_baseline_id (s : SystemMonitor) (b : option snetio) :
  network_baseline s = b → set_network_baseline b s = s.
Proof. intros <-. destruct s; reflexivity. Qed.

Lemma get_network_stats_frame (h : Host) (s : SystemMonitor) :
  ∃ d b, get_network_stats h s = (Ok d, set_network_baseline b s).
Proof.
  unfold get_network_stats, try_except, bind, lift, get, modify, ret.
  pose proof (set_network_baseline_id s _ eq_refl) as Hid.
  destruct (net_io_counters h) as [[cur |] |]; cbv beta iota;
    try (eexists _, (network_baseline s); rewrite Hid; reflexivity).
  destruct (network_baseline s) as [base |] eqn:Eb; cbv beta iota;
    try (eexists _, None; rewrite Hid; reflexivity).
  repeat match goal with
  | |- context [match (match ?r with Ok _ => _ | Raise _ => _ end) with _ => _ end] =>
      destruct r; cbv beta iota;
      try (eexists _, (Some base); rewrite Hid; reflexivity)
  | |- ∃ d z, (match ?r with Ok _ => _ | Raise _ => _ end) = _ =>
      destruct r; cbv beta iota;
      try (eexists _, (Some base); rewrite Hid; reflexivity)
  end; eexists _, _; reflexivity.
Qed.

(** [get_all_stats] never raises: it is the three stateful adapters in a
    row around the pure ones. *)
Lemma get_all_stats_inv (h : Host) (s : SystemMonitor) :
  ∃ gpu disks network s1 s2,
    get_gpu_stats h s = (Ok gpu, s1) ∧
    get_disk_stats h s1 = (Ok disks, s1) ∧
    get_network_stats h s1 = (Ok network, s2) ∧
    get_all_stats h s =
      (Ok {| snap_cpu := get_cpu_stats h; snap_memory := get_memory_stats h;
             snap_gpu := gpu; snap_disks := disks; snap_network := network;
             snap_hostname := hostname s2; snap_ip_addresses := ip_addresses s2;
             snap_connected_clients := connected_clients s2;
             snap_platform := platform_system h; snap_timestamp := now h |}, s2).
Proof.
  destruct (get_gpu_stats_frame h s) as (gpu & z & Eg).
  destruct (get_disk_stats_frame h (set_max_gpu_temp z s)) as (disks & Ed).
  destruct (get_network_stats_frame h (set_max_gpu_temp z s)) as (net & b & En).
  exists gpu, disks, net, (set_max_gpu_temp z s), (set_network_baseline b (set_max_gpu_temp z s)).
  repeat split; try assumption.
  unfold get_all_stats, bind. rewrite Eg. cbv beta iota. rewrite Ed. cbv beta iota.
  rewrite En. reflexivity.
Qed.

Lemma tick_inv (h : Host) (s : SystemMonitor) :
  ∃ stats s1,
    get_all_stats h s = (Ok stats, s1) ∧ tick h s = (Ok [system_stats stats], s1).
Proof.
  destruct (get_all_stats_inv h s) as (gpu & disks & net & s1 & s2 & _ & _ & _ & E).
  eexists _, s2. split; [exact E |].
  unfold tick, try_except, bind. rewrite E. reflexivity.
Qed.

Lemma get_gpu_stats_baseline (h : Host) (s : SystemMonitor) :
  network_baseline (snd (get_gpu_stats h s)) = network_baseline s.
Proof. destruct (get_gpu_stats_frame h s) as (d & z & ->). reflexivity. Qed.

Lemma get_gpu_stats_running (h : Host) (s : SystemMonitor) :
  running (snd (get_gpu_stats h s)) = running s.
Proof. destruct (get_gpu_stats_frame h s) as (d & z & ->). reflexivity. Qed.

Lemma get_network_stats_running (h : Host) (s : SystemMonitor) :
  running (snd (get_network_stats h s)) = running s.
Proof. destruct (get_network_stats_frame h s) as (d & z & ->). reflexivity. Qed.

Lemma get_all_stats_state (h : Host) (s : SystemMonitor) :
  snd (get_all_stats h s) = snd (get_network_stats h (snd (get_gpu_stats h s))).
Proof.
  destruct (get_all_stats_inv h s) as (gpu & disks & net & s1 & s2 & Eg & _ & En & ->).
  rewrite Eg. cbn [snd]. rewrite En. reflexivity.
Qed.

Lemma tick_state (h : Host) (s : SystemMonitor) :
  snd (tick h s) = snd (get_all_stats h s).
Proof. destruct (tick_inv h s) as (stats & s1 & -> & ->). reflexivity. Qed.

Lemma tick_running (h : Host) (s : SystemMonitor) : running (snd (tick h s)) = running s.
Proof.
  rewrite tick_state, get_all_stats_state, get_network_stats_running.
  apply get_gpu_stats_running.
Qed.

(** ** The baseline *)

Lemma get_network_stats_absent (h : Host) (s : SystemMonitor) :
  network_baseline s = None → get_network_stats h s = (Ok zero_network, s).
Proof.
  intros E. unfold get_network_stats, try_except, bind, lift, get, ret.
  destruct (net_io_counters h) as [[cur |] |]; cbv beta iota; rewrite ?E; reflexivity.
Qed.

Lemma get_network_stats_unread (h : Host) (s : SystemMonitor) :
  (∀ c, net_io_counters h ≠ Ok (Some c)) → get_network_stats h s = (Ok zero_network, s).
Proof.
  intros E. unfold get_network_stats, try_except, bind, lift, get, ret.
  destruct (net_io_counters h) as [[cur |] |]; cbv beta iota; try reflexivity.
  destruct (E cur eq_refl).
Qed.

Lemma inject_Z_nonzero (c : Z) : c ≠ 0 → Qeqb (inject_Z c) 0 = false.
Proof.
  intros Hc. unfold Qeqb. destruct (Qeq_bool _ _) eqn:E; [| reflexivity].
  apply Qeq_bool_iff in E. unfold Qeq in E. cbn in E. lia.
Qed.

Lemma py_truediv_int_float (z : Z) (f : pyfloat) :
  Z.abs z < 2 ^ 128 → float_is_zero f = false →
  py_truediv (NInt z) (NFloat f) = Ok (NFloat (float_div (FFin (inject_Z z)) f)).
Proof.
  intros Hz Hf. unfold py_truediv. rewrite to_float_small by exact Hz.
  cbn [rbind to_float]. rewrite Hf. reflexivity.
Qed.

Lemma py_truediv_float_int (f : pyfloat) (c : Z) :
  0 < c < 2 ^ 128 →
  py_truediv (NFloat f) (NInt c) = Ok (NFloat (float_div f (FFin (inject_Z c)))).
Proof.
  intros Hc. unfold py_truediv. rewrite to_float_small by lia.
  cbn [rbind to_float float_is_zero]. rewrite inject_Z_nonzero by lia. reflexivity.
Qed.

Lemma py_mul_float_int (f : pyfloat) (c : Z) :
  Z.abs c < 2 ^ 128 →
  py_mul (NFloat f) (NInt c) = Ok (NFloat (float_mul f (FFin (inject_Z c)))).
Proof.
  intros Hc. unfold py_mul. rewrite to_float_small by exact Hc. reflexivity.
Qed.

Lemma to_mbps_ok (delta : Z) :
  Z.abs delta < 2 ^ 128 → ∃ r, to_mbps delta (NFloat (FFin 1)) = Ok r.
Proof.
  intros H. unfold to_mbps.
  rewrite py_truediv_int_float by (exact H || reflexivity). cbn [rbind].
  rewrite py_mul_float_int by lia. cbn [rbind].
  rewrite py_truediv_float_int by lia. cbn [rbind].
  rewrite py_truediv_float_int by lia. eexists. reflexivity.
Qed.

Lemma get_network_stats_present (h : Host) (s : SystemMonitor) (cur base : snetio) :
  net_io_counters h = Ok (Some cur) → network_baseline s = Some base →
  counters_ok cur → counters_ok base →
  network_baseline (snd (get_network_stats h s)) = Some cur.
Proof.
  intros Ec Eb [Hs Hr] [Hs' Hr'].
  destruct (to_mbps_ok (bytes_sent cur - bytes_sent base)) as [up Eu]; [lia |].
  destruct (to_mbps_ok (bytes_recv cur - bytes_recv base)) as [down Ed]; [lia |].
  unfold get_network_stats, try_except, bind, lift, get, modify, ret.
  rewrite Ec. cbv beta iota. rewrite Eb. cbv beta iota.
  rewrite Eu. cbv beta iota. rewrite Ed. cbv beta iota.
  repeat match goal with
  | |- context [match (match ?r with Ok _ => _ | Raise _ => _ end) with _ => _ end] =>
      destruct r; cbv beta iota; try reflexivity
  | |- network_baseline (snd (match ?r with Ok _ => _ | Raise _ => _ end)) = _ =>
      destruct r; cbv beta iota; try reflexivity
  end.
Qed.

(** One iteration of the loop: the snapshot it broadcasts and the state it
    leaves, in terms of the stateful adapters. *)
Lemma tick_network (h : Host) (s : SystemMonitor) :
  ∃ stats,
    tick h s = (Ok [system_stats stats], snd (get_network_stats h (snd (get_gpu_stats h s)))) ∧
    snap_network stats = or_default (fst (get_network_stats h (snd (get_gpu_stats h s)))) ∅.
Proof.
  destruct (get_all_stats_inv h s) as (gpu & disks & net & s1 & s2 & Eg & _ & En & E).
  eexists. unfold tick, try_except, bind. rewrite E, Eg. cbn [snd]. rewrite En.
  split; reflexivity.
Qed.

Lemma run_absent (hs : list Host) (s : SystemMonitor) :
  running s = true → network_baseline s = None →
  network_baseline (snd (background_stats_updater hs s)) = None ∧
  length (fst (background_stats_updater hs s)) = length hs ∧
  Forall (λ out, ∃ stats, out = [system_stats stats] ∧ snap_network stats = zero_network)
         (fst (background_stats_updater hs s)).
Proof.
  revert s. induction hs as [| h rest IH]; intros s Hr Hb.
  - cbn. auto.
  - cbn [background_stats_updater]. rewrite Hr.
    destruct (tick_network h s) as (stats & Et & En). rewrite Et. cbn [fst snd or_default].
    assert (Hb1 : network_baseline (snd (get_gpu_stats h s)) = None)
      by (rewrite get_gpu_stats_baseline; exact Hb).
    rewrite (get_network_stats_absent h _ Hb1) in *. cbn [fst snd or_default] in *.
    destruct (IH (snd (get_gpu_stats h s))) as (I1 & I2 & I3);
      [rewrite get_gpu_stats_running; exact Hr | exact Hb1 |].
    repeat split; [exact I1 | cbn; lia |].
    constructor; [eauto | exact I3].
Qed.

(** C10. When the counter read of the constructor fails, the baseline is
    absent; from then on every iteration of the loop broadcasts a snapshot
    whose network record is the all-zero one, and the baseline is absent
    after the run, whatever the later readings are. *)
Theorem absent_baseline_is_absorbing (h0 : Host) (e : exn) (hs : list Host) :
  net_io_counters h0 = Raise e →
  network_baseline (__init__ h0) = None ∧
  network_baseline (snd (background_stats_updater hs (__init__ h0))) = None ∧
  length (fst (background_stats_updater hs (__init__ h0))) = length hs ∧
  Forall (λ out, ∃ stats, out = [system_stats stats] ∧ snap_network stats = zero_network)
         (fst (background_stats_updater hs (__init__ h0))).
Proof.
  intros E.
  assert (Hb : network_baseline (__init__ h0) = None).
  { cbn. unfold _get_network_stats. rewrite E. reflexivity. }
  split; [exact Hb |]. apply run_absent; [reflexivity | exact Hb].
Qed.

Lemma absent_baseline_is_absorbing_witness :
  network_baseline (__init__ host_failing) = None ∧
  network_baseline
    (snd (background_stats_updater [host_with_counters 1000 2000; host_with_counters 5000 9000]
              (__init__ host_failing))) = None ∧
  length (fst (background_stats_updater [host_with_counters 1000 2000; host_with_counters 5000 9000]
                   (__init__ host_failing))) = 2%nat ∧
  Forall (λ out, ∃ stats, out = [system_stats stats] ∧ snap_network stats = zero_network)
         (fst (background_stats_updater [host_with_counters 1000 2000; host_with_counters 5000 9000]
                   (__init__ host_failing))).
Proof.
  apply (absent_baseline_is_absorbing host_failing OSError
           [host_with_counters 1000 2000; host_with_counters 5000 9000]).
  reflexivity.
Defined.





(** C2, evaluated where it fails. Baseline 2000000/2000000 bytes, current
    counters 1000000/1000000 (a counter reset): the record carries the usage
    percent -7.6, below the interval [0,100] of the claim, while both speeds
    are reported as 0. *)
Theorem usage_negative_after_counter_reset :
  rmap (λ d : pydict, (d !! "usage", d !! "upload_speed", d !! "download_speed")%string)
       (fst (get_network_stats (host_with_counters 1000000 1000000)
                               (__init__ (host_with_counters 2000000 2000000))))
  = Ok (Some (VFloat (FFin (-38 # 5))), Some (VInt 0), Some (VInt 0)).
Proof. vm_compute. reflexivity. Qed.

(** * The cadence handler *)

Lemma py_le_int (a b : Z) : py_le (NInt a) (NInt b) = true ↔ a ≤ b.
Proof.
  unfold py_le. cbn. rewrite Qle_bool_iff, <- Zle_Qle. reflexivity.
Qed.

Lemma in_range_int (v : Z) :
  py_le (NInt 100) (NInt v) && py_le (NInt v) (NInt 10000) = true ↔ 100 ≤ v ≤ 10000.
Proof. rewrite andb_true_iff, !py_le_int. reflexivity. Qed.

Lemma update_client_activity_frame (sid now1 : string) (s : SystemMonitor) :
  ∃ clients, update_client_activity sid now1 s = (Ok tt, set_connected_clients clients s).
Proof.
  unfold update_client_activity, bind, get, modify, ret.
  destruct (connected_clients s !! sid).
  - eexists. reflexivity.
  - exists (connected_clients s). destruct s; reflexivity.
Qed.

(** C7. A cadence request that carries the integer [v] is accepted exactly
    when [100 <= v <= 10000]: then [update_interval] becomes [v] and the one
    message sent is the acknowledgement carrying [v]; otherwise
    [update_interval] keeps its value and nothing is sent. *)
Theorem cadence_request_accepted_iff_in_range
    (sid now1 : string) (data : pydict) (s : SystemMonitor) (v : Z) :
  data !! "interval"%string = Some (VInt v) →
  (100 ≤ v ≤ 10000 →
     fst (handle_update_interval sid now1 data s)
       = Ok [interval_updated (dict_of [("interval"%string, VInt v)])] ∧
     update_interval (snd (handle_update_interval sid now1 data s)) = NInt v) ∧
  (¬ (100 ≤ v ≤ 10000) →
     fst (handle_update_interval sid now1 data s) = Ok [] ∧
     update_interval (snd (handle_update_interval sid now1 data s)) = update_interval s).
Proof.
  intros Hv. unfold handle_update_interval, bind, lift, modify, ret, dict_get.
  destruct (update_client_activity_frame sid now1 s) as (clients & ->).
  rewrite Hv. cbn [num_of]. cbv beta iota.
  destruct (py_le (NInt 100) (NInt v) && py_le (NInt v) (NInt 10000)) eqn:E.
  - apply in_range_int in E. split; [intros _; split; reflexivity | intros N; tauto].
  - split; [| intros _; split; reflexivity].
    intros R. apply in_range_int in R. congruence.
Qed.

Lemma cadence_request_accepted_iff_in_range_witness :
  (100 ≤ 5000 ≤ 10000 →
     fst (handle_update_interval "sid1" "t1" (dict_of [("interval"%string, VInt 5000)])
            (__init__ host_failing))
       = Ok [interval_updated (dict_of [("interval"%string, VInt 5000)])] ∧
     update_interval
       (snd (handle_update_interval "sid1" "t1" (dict_of [("interval"%string, VInt 5000)])
               (__init__ host_failing))) = NInt 5000) ∧
  (¬ (100 ≤ 5000 ≤ 10000) →
     fst (handle_update_interval "sid1" "t1" (dict_of [("interval"%string, VInt 5000)])
            (__init__ host_failing)) = Ok [] ∧
     update_interval
       (snd (handle_update_interval "sid1" "t1" (dict_of [("interval"%string, VInt 5000)])
               (__init__ host_failing))) = update_interval (__init__ host_failing)).
Proof.
  apply (cadence_request_accepted_iff_in_range "sid1" "t1"
           (dict_of [("interval"%string, VInt 5000)]) (__init__ host_failing) 5000).
  reflexivity.
Defined.

(** C9. A cadence request without the [interval] field is not ignored: the
    default 1000 is validated and applied, and acknowledged with 1000,
    whatever the cadence was. *)
Theorem cadence_request_without_interval
    (sid now1 : string) (data : pydict) (s : SystemMonitor) :
  data !! "interval"%string = None →
  fst (handle_update_interval sid now1 data s)
    = Ok [interval_updated (dict_of [("interval"%string, VInt 1000)])] ∧
  update_interval (snd (handle_update_interval sid now1 data s)) = NInt 1000.
Proof.
  intros Hv. unfold handle_update_interval, bind, lift, modify, ret, dict_get.
  destruct (update_client_activity_frame sid now1 s) as (clients & ->).
  rewrite Hv. split; reflexivity.
Qed.

Lemma cadence_request_without_interval_witness :
  fst (handle_update_interval "sid1" "t1" ∅
         (set_update_interval (NInt 250) (__init__ host_failing)))
    = Ok [interval_updated (dict_of [("interval"%string, VInt 1000)])] ∧
  update_interval
    (snd (handle_update_interval "sid1" "t1" ∅
            (set_update_interval (NInt 250) (__init__ host_failing)))) = NInt 1000.
Proof.
  apply (cadence_request_without_interval "sid1" "t1" ∅
           (set_update_interval (NInt 250) (__init__ host_failing))).
  reflexivity.
Defined.

(** * The client registry *)

(** C4, as stated, fails: a second [add_client] for an id that is present,
    from the same address, replaces [connected_at] and [last_seen]. *)
Lemma add_client_twice_changes_entry :
  let s1 := snd (add_client "sid1" "10.0.0.5" "09:00:00" "09:00:00" (__init__ host_failing)) in
  let s2 := snd (add_client "sid1" "10.0.0.5" "09:30:00" "09:30:00" s1) in
  connected_clients s1 !! "sid1"%string
    = Some {| ip := "10.0.0.5"; connected_at := "09:00:00"; last_seen := "09:00:00" |} ∧
  connected_clients s2 !! "sid1"%string ≠ connected_clients s1 !! "sid1"%string.
Proof. split; [vm_compute; reflexivity |]. vm_compute. discriminate. Qed.

(** C4, as the code has it. [add_client] overwrites: whether or not the id
    is present, afterwards its entry holds the address and the two clock
    readings of this call, and every other entry is as before.  Only a
    call that repeats the address and the clock readings changes nothing. *)
Theorem add_client_overwrites (client_id client_ip now1 now2 : string) (s : SystemMonitor) :
  let s' := snd (add_client client_id client_ip now1 now2 s) in
  fst (add_client client_id client_ip now1 now2 s) = Ok tt ∧
  connected_clients s' !! client_id
    = Some {| ip := client_ip; connected_at := now1; last_seen := now2 |} ∧
  (∀ other, other ≠ client_id →
     connected_clients s' !! other = connected_clients s !! other) ∧
  snd (add_client client_id client_ip now1 now2 s') = s'.
Proof.
  cbn. repeat split.
  - apply lookup_insert_eq.
  - intros other Hne. apply lookup_insert_ne. congruence.
  - unfold set_connected_clients. cbn. rewrite insert_insert_eq. reflexivity.
Qed.

(** * The address list *)

Lemma ips_of_interface_In (addrs : list snicaddr) (ip : string) :
  In ip (ips_of_interface addrs) ↔
  In ip (flat_map (λ addr, if family addr =? 2 then [address addr] else []) addrs) ∧
  ip_listed ip = true.
Proof.
  unfold ips_of_interface. rewrite !in_flat_map. split.
  - intros (a & Ha & Hip). destruct (family a =? 2) eqn:Ef; [| destruct Hip].
    destruct (ip_listed (address a)) eqn:El; [| destruct Hip].
    destruct Hip as [<- | []]. split; [| exact El].
    exists a. rewrite Ef. split; [exact Ha | left; reflexivity].
  - intros ((a & Ha & Hip) & Hl). exists a. split; [exact Ha |].
    destruct (family a =? 2); [| destruct Hip]. destruct Hip as [<- | []].
    rewrite Hl. left; reflexivity.
Qed.

Lemma ip_listed_spec (ip : string) :
  ip_listed ip = true ↔ String.prefix "169." ip = false ∧ ip ≠ "127.0.0.1"%string.
Proof.
  unfold ip_listed. rewrite andb_true_iff, !negb_true_iff, String.eqb_neq. reflexivity.
Qed.

Lemma prefix_app (s1 s2 s : string) :
  String.prefix (s1 +:+ s2) s = true → String.prefix s1 s = true.
Proof.
  revert s. induction s1 as [| a s1 IH]; intros s H.
  - destruct s; reflexivity.
  - destruct s as [| b s]; [discriminate H |].
    simpl in *. destruct (ascii_dec a b); [apply IH; exact H | discriminate H].
Qed.

Lemma prefix_169 (ip : string) : is_link_local ip = true → String.prefix "169." ip = true.
Proof. apply (prefix_app "169." "254." ip). Qed.

(** C3, as the code has it. The list holds, in the order of enumeration,
    exactly the IPv4 addresses whose text does not start with "169." and is
    not "127.0.0.1".  So every link-local address and 127.0.0.1 are left
    out, and so is every other address of 169.0.0.0/8; a loopback address
    other than 127.0.0.1 is kept. *)
Theorem ip_addresses_listed (h : Host) (interfaces : list (string * list snicaddr)) :
  net_if_addrs h = Ok interfaces →
  (∀ ip, In ip (_get_ip_addresses h) ↔
         In ip (ipv4_addresses interfaces) ∧
         String.prefix "169." ip = false ∧ ip ≠ "127.0.0.1"%string) ∧
  (∀ ip, is_link_local ip = true → ¬ In ip (_get_ip_addresses h)) ∧
  _get_ip_addresses h = List.filter ip_listed (ipv4_addresses interfaces).
Proof.
  intros E. unfold _get_ip_addresses. rewrite E.
  assert (Hin : ∀ ip, In ip (flat_map (λ '(_, addrs), ips_of_interface addrs) interfaces) ↔
                      In ip (ipv4_addresses interfaces) ∧ ip_listed ip = true).
  { intros ip. unfold ipv4_addresses. rewrite !in_flat_map. split.
    - intros ([i addrs] & Hi & Hip). apply ips_of_interface_In in Hip as [Hip Hl].
      split; [| exact Hl]. exists (i, addrs). split; assumption.
    - intros (([i addrs] & Hi & Hip) & Hl). exists (i, addrs). split; [exact Hi |].
      apply ips_of_interface_In. split; assumption. }
  split; [| split].
  - intros ip. rewrite Hin, ip_listed_spec. reflexivity.
  - intros ip Hll Hip. apply Hin in Hip as [_ Hl]. apply ip_listed_spec in Hl as [Hl _].
    apply prefix_169 in Hll. congruence.
  - unfold ipv4_addresses. clear E Hin.
    induction interfaces as [| [i addrs] rest IH]; [reflexivity |].
    cbn [flat_map]. rewrite List.filter_app, <- IH. f_equal.
    clear IH. unfold ips_of_interface.
    induction addrs as [| a addrs IHa]; [reflexivity |].
    cbn [flat_map]. rewrite List.filter_app, <- IHa. f_equal.
    destruct (family a =? 2); [| reflexivity]. cbn [List.filter].
    destruct (ip_listed (address a)); reflexivity.
Qed.

Lemma ip_addresses_listed_witness :
  (∀ ip, In ip (_get_ip_addresses (host_with_interfaces
           [("eth0"%string, [{| family := 2; address := "192.168.1.20" |};
                             {| family := 10; address := "fe80::1" |}])])) ↔
         In ip (ipv4_addresses
           [("eth0"%string, [{| family := 2; address := "192.168.1.20" |};
                             {| family := 10; address := "fe80::1" |}])]) ∧
         String.prefix "169." ip = false ∧ ip ≠ "127.0.0.1"%string) ∧
  (∀ ip, is_link_local ip = true →
         ¬ In ip (_get_ip_addresses (host_with_interfaces
           [("eth0"%string, [{| family := 2; address := "192.168.1.20" |};
                             {| family := 10; address := "fe80::1" |}])]))) ∧
  _get_ip_addresses (host_with_interfaces
           [("eth0"%string, [{| family := 2; address := "192.168.1.20" |};
                             {| family := 10; address := "fe80::1" |}])])
  = List.filter ip_listed (ipv4_addresses
           [("eth0"%string, [{| family := 2; address := "192.168.1.20" |};
                             {| family := 10; address := "fe80::1" |}])]).
Proof.
  apply (ip_addresses_listed
           (host_with_interfaces
              [("eth0"%string, [{| family := 2; address := "192.168.1.20" |};
                                {| family := 10; address := "fe80::1" |}])])).
  reflexivity.
Defined.

(** C3, as stated, fails twice on one interface table: 169.1.2.3 is
    neither loopback nor link-local and is left out, and 127.0.0.2 is a
    loopback address and is listed. *)
Lemma ip_addresses_not_by_network :
  let interfaces :=
    [("lo"%string, [{| family := 2; address := "127.0.0.2" |}]);
     ("eth0"%string, [{| family := 2; address := "169.1.2.3" |}])] in
  let listed := _get_ip_addresses (host_with_interfaces interfaces) in
  (In "169.1.2.3"%string (ipv4_addresses interfaces) ∧
   is_loopback "169.1.2.3" = false ∧ is_link_local "169.1.2.3" = false ∧
   ¬ In "169.1.2.3"%string listed) ∧
  (is_loopback "127.0.0.2" = true ∧ In "127.0.0.2"%string listed).
Proof.
  cbn. repeat split; auto.
  intros [H | []]. discriminate H.
Qed.

(** * The GPU adapter *)

(** The four ways a call of [get_gpu_stats] ends. *)
Lemma get_gpu_stats_inv (h : Host) (s : SystemMonitor) :
  (NVIDIA_AVAILABLE h = false ∧
   get_gpu_stats h s = (Ok (gpu_zero "GPU Not Available" "N/A"), s)) ∨
  (NVIDIA_AVAILABLE h = true ∧
   (gpu_handle s = None ∨ ∃ e, nvmlDeviceGetTemperature h = Raise e) ∧
   get_gpu_stats h s = (Ok (gpu_zero (gpu_name s) "Error"), s)) ∨
  (∃ t d,
     NVIDIA_AVAILABLE h = true ∧ is_Some (gpu_handle s) ∧
     nvmlDeviceGetTemperature h = Ok t ∧
     get_gpu_stats h s = (Ok d, set_max_gpu_temp (Z.max (max_gpu_temp s) t) s) ∧
     (d = gpu_zero (gpu_name s) "Error" ∨
      ∃ memory_usage,
        gpu_memory_usage (fst (gpu_memory h)) (snd (gpu_memory h)) = Ok memory_usage ∧
        gpu_record (gpu_name s) t (Z.max (max_gpu_temp s) t) (gpu_fan_speed h)
                   (gpu_power h) (gpu_utilization h) memory_usage
                   (fst (gpu_memory h)) (snd (gpu_memory h)) (gpu_versions h) = Ok d)).
Proof.
  unfold get_gpu_stats.
  destruct (NVIDIA_AVAILABLE h); cbv beta iota delta [negb]; [| left; auto].
  right. unfold try_except, bind, lift, get, modify, ret.
  destruct (gpu_handle s) as [hd |] eqn:Eh; cbv beta iota; [| left; auto].
  destruct (nvmlDeviceGetTemperature h) as [t | e] eqn:Et; cbv beta iota;
    [| left; eauto].
  right. exists t.
  destruct (gpu_memory_usage _ _) as [mu |] eqn:Em; cbn [fst snd];
    [| eexists; repeat split; eauto].
  destruct (gpu_record _ _ _ _ _ _ _ _ _ _) as [d |] eqn:Ed; cbn [fst snd];
    eexists; repeat split; eauto.
Qed.

(** The peak after a sample, as one equation. *)
Lemma get_gpu_stats_peak (h : Host) (s : SystemMonitor) :
  max_gpu_temp (snd (get_gpu_stats h s)) =
  match NVIDIA_AVAILABLE h, gpu_handle s, nvmlDeviceGetTemperature h with
  | true, Some _, Ok t => Z.max (max_gpu_temp s) t
  | _, _, _ => max_gpu_temp s
  end.
Proof.
  destruct (get_gpu_stats_inv h s)
    as [[En ->] | [(En & Hc & ->) | (t & d & En & [hd Eh] & Et & -> & _)]].
  - rewrite En. reflexivity.
  - rewrite En. destruct Hc as [-> | [e ->]]; [reflexivity |].
    destruct (gpu_handle s); reflexivity.
  - rewrite En, Eh, Et. reflexivity.
Qed.

Lemma get_network_stats_peak (h : Host) (s : SystemMonitor) :
  max_gpu_temp (snd (get_network_stats h s)) = max_gpu_temp s.
Proof. destruct (get_network_stats_frame h s) as (d & z & ->). reflexivity. Qed.

Lemma gpu_record_max_temp (name : string) (temp peak fan : Z) (power : num * num)
    (usage : Z) (mu used total : num) (versions : string * string) (d : pydict) :
  gpu_record name temp peak fan power usage mu used total versions = Ok d →
  d !! "max_temp"%string = Some (VInt peak).
Proof.
  unfold gpu_record. intros H.
  repeat match type of H with
  | rbind ?r _ = _ => destruct r; cbn [rbind] in H; [| discriminate H]
  end.
  injection H as <-. vm_compute. reflexivity.
Qed.

Lemma run_peak (hs : list Host) (s : SystemMonitor) :
  max_gpu_temp s ≤ max_gpu_temp (snd (background_stats_updater hs s)).
Proof.
  revert s. induction hs as [| h rest IH]; intros s; [cbn; lia |].
  cbn [background_stats_updater]. destruct (running s); [| cbn; lia]. cbn [snd].
  etransitivity; [| apply IH].
  rewrite tick_state, get_all_stats_state, get_network_stats_peak, get_gpu_stats_peak.
  destruct (NVIDIA_AVAILABLE h), (gpu_handle s), (nvmlDeviceGetTemperature h); lia.
Qed.

(** C6, as the code has it. The peak [max_gpu_temp] of the monitor never
    decreases: a sample whose temperature query succeeds sets it to the
    maximum of its value and the observed temperature, any other sample
    leaves it as it is, and so it only grows along a run of the loop.  The
    [max_temp] a sample reports is that peak, unless the sample returns
    the zeroed record, which reports 0. *)
Theorem gpu_peak_never_decreases (h : Host) (hs : list Host) (s : SystemMonitor) :
  max_gpu_temp (snd (get_gpu_stats h s)) =
    match NVIDIA_AVAILABLE h, gpu_handle s, nvmlDeviceGetTemperature h with
    | true, Some _, Ok t => Z.max (max_gpu_temp s) t
    | _, _, _ => max_gpu_temp s
    end ∧
  max_gpu_temp s ≤ max_gpu_temp (snd (get_gpu_stats h s)) ∧
  max_gpu_temp s ≤ max_gpu_temp (snd (background_stats_updater hs s)) ∧
  ∃ d, fst (get_gpu_stats h s) = Ok d ∧
       ((∃ name version, d = gpu_zero name version) ∨
        d !! "max_temp"%string = Some (VInt (max_gpu_temp (snd (get_gpu_stats h s))))).
Proof.
  split; [apply get_gpu_stats_peak |]. split; [| split; [apply run_peak |]].
  - rewrite get_gpu_stats_peak.
    destruct (NVIDIA_AVAILABLE h), (gpu_handle s), (nvmlDeviceGetTemperature h); lia.
  - destruct (get_gpu_stats_inv h s)
      as [[En ->] | [(En & Hc & ->) | (t & d & En & Eh & Et & -> & Hd)]];
      eexists; (split; [reflexivity |]); eauto.
    destruct Hd as [-> | (mu & _ & Hd)]; [eauto |].
    right. exact (gpu_record_max_temp _ _ _ _ _ _ _ _ _ _ _ Hd).
Qed.

(** C6, as stated, fails: after a sample that reported the peak 70, a
    sample whose temperature query fails reports [max_temp] 0, although the
    monitor still holds 70. *)
Lemma reported_peak_drops_on_failed_sample :
  let s0 := __init__ (host_with_gpu (Ok 70)) in
  let r1 := get_gpu_stats (host_with_gpu (Ok 70)) s0 in
  let r2 := get_gpu_stats (host_with_gpu (Raise NVMLError)) (snd r1) in
  rmap (λ d : pydict, d !! "max_temp"%string) (fst r1) = Ok (Some (VInt 70)) ∧
  rmap (λ d : pydict, d !! "max_temp"%string) (fst r2) = Ok (Some (VInt 0)) ∧
  max_gpu_temp (snd r2) = 70.
Proof. vm_compute. repeat split. Qed.

(** * Every numeric field is finite *)

Lemma valid_float_fl (q : Q) :
  (Qabs q < float_bound)%Q → valid_float (fl q) ∧ fl q = FFin (Qred q).
Proof.
  intros H. rewrite (fl_finite q H). split; [| reflexivity].
  cbn. rewrite Qred_correct. exact H.
Qed.

Lemma py_round_finite (x v : num) (n : nat) : finite x → py_round x n = Ok v → finite v.
Proof.
  destruct x as [z | [q | b |]]; cbn; try contradiction.
  - intros _ [= <-]. exact I.
  - intros _. destruct (overflows _) eqn:E; cbn; [discriminate |].
    intros [= <-]. cbn. rewrite Qred_correct. apply overflows_false. exact E.
Qed.

Lemma py_truediv_int_int_finite (a b : Z) (r : num) :
  py_truediv (NInt a) (NInt b) = Ok r → finite r.
Proof.
  cbn. destruct (b =? 0); [discriminate |].
  destruct (overflows _) eqn:E; [discriminate |].
  intros [= <-]. cbn. rewrite Qred_correct. apply overflows_false. exact E.
Qed.

Lemma finite_of_num (x : num) : finite x → finite_number (of_num x).
Proof. destruct x; exact id. Qed.

Lemma valid_float_small (q : Q) :
  (Qabs q < inject_Z (2 ^ 128))%Q → valid_float (FFin q).
Proof. pose proof float_bound_large. cbn. lra. Qed.

Lemma rounded_field (x v : num) (n : nat) :
  py_round x n = Ok v → finite x → finite_number (of_num v).
Proof. intros E F. apply finite_of_num. exact (py_round_finite x v n F E). Qed.

Lemma five_is_finite : finite_number (VFloat (FFin 5)).
Proof. apply valid_float_small. vm_compute. reflexivity. Qed.

#[local] Hint Resolve rounded_field five_is_finite : finite_db.

Lemma float_div_1000_valid (f : pyfloat) :
  valid_float f → valid_float (float_div f (FFin (inject_Z 1000))).
Proof.
  destruct f as [p | |]; cbn [valid_float float_div]; try contradiction.
  intros H. apply valid_float_fl.
  apply Qabs_Qlt_condition in H. apply Qabs_Qlt_condition.
  unfold Qdiv. change (/ inject_Z 1000)%Q with (1 # 1000)%Q. lra.
Qed.

Lemma cpu_fallback_numbers : has_numbers cpu_fields cpu_fallback.
Proof. numbers; finite_field. Qed.

Lemma get_cpu_stats_numbers (h : Host) : host_ok h → has_numbers cpu_fields (get_cpu_stats h).
Proof.
  intros (Hp & Hf & _). unfold get_cpu_stats.
  destruct (cpu_percent h) as [cp |]; cbn [rbind or_default];
    [| apply cpu_fallback_numbers].
  destruct (cpu_freq h) as [fr |]; cbn [rbind or_default];
    [| apply cpu_fallback_numbers].
  assert (Hfreqs : ∀ freqs,
    match fr with
    | Some cpu_freq =>
        do current_freq <- py_truediv (NFloat (freq_current cpu_freq)) (NInt 1000);
        do max_freq <-
          (if py_bool (NFloat (freq_max cpu_freq))
           then py_truediv (NFloat (freq_max cpu_freq)) (NInt 1000)
           else Ok (NFloat (FFin 5)));
        Ok (current_freq, max_freq)
    | None => Ok (NInt 0, NFloat (FFin 5))
    end = Ok freqs → finite (fst freqs) ∧ finite (snd freqs)).
  { intros freqs. destruct fr as [fr |].
    - destruct Hf as [Hc Hm]. rewrite !py_truediv_float_int by lia. cbn [rbind].
      destruct (py_bool _); cbn [rbind]; intros [= <-]; cbn [fst snd finite];
        (split; [apply float_div_1000_valid; exact Hc |]).
      + apply float_div_1000_valid; exact Hm.
      + apply valid_float_small. vm_compute. reflexivity.
    - intros [= <-]. split; [exact I |]. apply valid_float_small. vm_compute. reflexivity. }
  destruct (match fr with Some _ => _ | None => _ end) as [freqs |];
    cbn [rbind or_default]; [| apply cpu_fallback_numbers].
  destruct (Hfreqs freqs eq_refl) as [F1 F2].
  destruct (py_round (NFloat cp) 1) as [v1 |] eqn:E1; cbn [rbind or_default];
    [| apply cpu_fallback_numbers].
  destruct (py_round (fst freqs) 1) as [v2 |] eqn:E2; cbn [rbind or_default];
    [| apply cpu_fallback_numbers].
  destruct (py_round (snd freqs) 1) as [v3 |] eqn:E3; cbn [rbind or_default];
    [| apply cpu_fallback_numbers].
  numbers; finite_field.
Qed.

Lemma memory_fallback_numbers : has_numbers memory_fields memory_fallback.
Proof. numbers; finite_field. Qed.

Lemma get_memory_stats_numbers (h : Host) :
  host_ok h → has_numbers memory_fields (get_memory_stats h).
Proof.
  intros (_ & _ & Hm & _). unfold get_memory_stats.
  destruct (virtual_memory h) as [m |]; cbn [rbind or_default];
    [| apply memory_fallback_numbers].
  destruct (py_round (NFloat (vm_percent m)) 1) as [v1 |] eqn:E1; cbn [rbind or_default];
    [| apply memory_fallback_numbers].
  destruct (py_truediv (NInt (vm_used m)) _) as [used |] eqn:Eu; cbn [rbind or_default];
    [| apply memory_fallback_numbers].
  destruct (py_round used 1) as [v2 |] eqn:E2; cbn [rbind or_default];
    [| apply memory_fallback_numbers].
  destruct (py_truediv (NInt (vm_total m)) _) as [total |] eqn:Et; cbn [rbind or_default];
    [| apply memory_fallback_numbers].
  destruct (py_round total 1) as [v3 |] eqn:E3; cbn [rbind or_default];
    [| apply memory_fallback_numbers].
  apply py_truediv_int_int_finite in Eu, Et.
  numbers; finite_field.
Qed.

Lemma gpu_zero_numbers (name version : string) : has_numbers gpu_fields (gpu_zero name version).
Proof. numbers; finite_field. Qed.

Lemma gpu_power_finite (h : Host) : finite (fst (gpu_power h)) ∧ finite (snd (gpu_power h)).
Proof.
  unfold gpu_power.
  destruct (nvmlDeviceGetPowerUsage h) as [mw |]; cbn [rbind or_default fst snd finite]; auto.
  destruct (py_truediv (NInt mw) _) as [pd |] eqn:Ed; cbn [rbind or_default fst snd finite]; auto.
  destruct (nvmlDeviceGetPowerManagementLimitConstraints h) as [limits |];
    cbn [rbind or_default fst snd finite]; auto.
  destruct (py_truediv (NInt (snd limits)) _) as [pl |] eqn:El;
    cbn [rbind or_default fst snd finite]; auto.
  apply py_truediv_int_int_finite in Ed, El. auto.
Qed.

(** The memory pair is the fallback, or both sizes divided by 2^30. *)
Lemma gpu_memory_cases (h : Host) :
  gpu_memory h = (NInt 0, NInt 16) ∨
  ∃ mi, nvmlDeviceGetMemoryInfo h = Ok mi ∧
        gpu_memory h =
          (NFloat (FFin (Qred (inject_Z (mem_used mi) / inject_Z (1024 ^ 3)))),
           NFloat (FFin (Qred (inject_Z (mem_total mi) / inject_Z (1024 ^ 3))))).
Proof.
  unfold gpu_memory.
  destruct (nvmlDeviceGetMemoryInfo h) as [mi |]; cbn [rbind or_default]; auto.
  unfold py_truediv. change (1024 ^ 3 =? 0) with false. cbv iota.
  destruct (overflows _); cbn [rbind or_default]; auto.
  destruct (overflows _); cbn [rbind or_default]; auto.
  right. exists mi. auto.
Qed.

Lemma gpu_memory_finite (h : Host) : finite (fst (gpu_memory h)) ∧ finite (snd (gpu_memory h)).
Proof.
  unfold gpu_memory.
  destruct (nvmlDeviceGetMemoryInfo h) as [mi |]; cbn [rbind or_default fst snd finite]; auto.
  destruct (py_truediv (NInt (mem_used mi)) _) as [mu |] eqn:Eu;
    cbn [rbind or_default fst snd finite]; auto.
  destruct (py_truediv (NInt (mem_total mi)) _) as [mt |] eqn:Et;
    cbn [rbind or_default fst snd finite]; auto.
  apply py_truediv_int_int_finite in Eu, Et. auto.
Qed.

Lemma inject_Z_range (z : Z) :
  0 ≤ z < 2 ^ 64 → (0 <= inject_Z z)%Q ∧ (inject_Z z < 18446744073709551616 # 1)%Q.
Proof.
  intros H. change 0%Q with (inject_Z 0).
  change (18446744073709551616 # 1)%Q with (inject_Z (2 ^ 64)).
  rewrite <- Zle_Qle, <- Zlt_Qlt. exact H.
Qed.

Lemma float_bound_numeral :
  (340282366920938463463374607431768211456 # 1 <= float_bound)%Q.
Proof. exact float_bound_large. Qed.

(** The share of GPU memory in use is finite when the sizes are 64-bit. *)
Lemma gpu_memory_usage_finite (h : Host) (memory_usage : num) :
  host_ok h →
  gpu_memory_usage (fst (gpu_memory h)) (snd (gpu_memory h)) = Ok memory_usage →
  finite memory_usage.
Proof.
  intros (_ & _ & _ & Hm & _).
  destruct (gpu_memory_cases h) as [-> | (mi & Emi & ->)]; cbn [fst snd].
  - assert (E : gpu_memory_usage (NInt 0) (NInt 16) = Ok (NFloat (FFin 0)))
      by (vm_compute; reflexivity).
    rewrite E. intros [= <-]. apply valid_float_small. vm_compute. reflexivity.
  - rewrite Emi in Hm. destruct Hm as [Hu Ht].
    apply inject_Z_range in Hu as [Hu0 Hu1].
    pose proof (Qred_correct (inject_Z (mem_used mi) / inject_Z (1024 ^ 3))) as Ea.
    pose proof (Qred_correct (inject_Z (mem_total mi) / inject_Z (1024 ^ 3))) as Eb.
    set (a := Qred (inject_Z (mem_used mi) / inject_Z (1024 ^ 3))) in *.
    set (b := Qred (inject_Z (mem_total mi) / inject_Z (1024 ^ 3))) in *.
    unfold Qdiv in Ea, Eb.
    change (/ inject_Z (1024 ^ 3))%Q with (1 # 1073741824)%Q in Ea, Eb.
    unfold gpu_memory_usage, py_gt, py_lt. cbn [exact float_ltb].
    destruct (Qltb (inject_Z 0) b) eqn:Eg; [| intros [= <-]; exact I].
    apply Qltb_true in Eg. change (inject_Z 0) with 0%Q in Eg.
    assert (Hb : (1 # 1073741824 <= b)%Q).
    { assert (1 ≤ mem_total mi).
      { destruct (Z_lt_le_dec (mem_total mi) 1) as [Hlt |]; [| assumption].
        assert (E0 : mem_total mi = 0) by lia. rewrite E0 in Eb.
        change (inject_Z 0) with 0%Q in Eb. lra. }
      assert (inject_Z 1 <= inject_Z (mem_total mi))%Q by (rewrite <- Zle_Qle; assumption).
      change (inject_Z 1) with 1%Q in *. lra. }
    unfold py_truediv. cbn [to_float rbind float_is_zero].
    assert (Ez : Qeqb b 0 = false).
    { unfold Qeqb. destruct (Qeq_bool b 0) eqn:E; [| reflexivity].
      apply Qeq_bool_iff in E. lra. }
    rewrite Ez. cbn [float_div rbind].
    assert (Hr0 : (0 <= a / b)%Q) by (apply Qle_shift_div_l; lra).
    assert (Hr1 : (a / b < 18446744073709551616 # 1)%Q) by (apply Qlt_shift_div_r; lra).
    pose proof float_bound_numeral as HB.
    assert (Hv : (Qabs (a / b) < float_bound)%Q) by (apply Qabs_Qlt_condition; lra).
    rewrite (fl_finite _ Hv). rewrite py_mul_float_int by lia. cbn [float_mul].
    intros [= <-]. cbn [finite]. apply valid_float_fl.
    pose proof (Qred_correct (a / b)) as Er. set (r := Qred (a / b)) in *.
    apply Qabs_Qlt_condition. change (inject_Z 100) with (100 # 1)%Q. lra.
Qed.

Lemma gpu_record_numbers (name : string) (temp peak fan : Z) (power : num * num)
    (usage : Z) (mu used total : num) (versions : string * string) (d : pydict) :
  finite (fst power) → finite (snd power) → finite mu → finite used → finite total →
  gpu_record name temp peak fan power usage mu used total versions = Ok d →
  has_numbers gpu_fields d.
Proof.
  intros F1 F2 F3 F4 F5. unfold gpu_record.
  destruct (py_round (fst power) 0) as [v1 |] eqn:E1; cbn [rbind]; [| discriminate].
  destruct (py_round (snd power) 0) as [v2 |] eqn:E2; cbn [rbind]; [| discriminate].
  destruct (py_round mu 1) as [v3 |] eqn:E3; cbn [rbind]; [| discriminate].
  destruct (py_round used 1) as [v4 |] eqn:E4; cbn [rbind]; [| discriminate].
  destruct (py_round total 0) as [v5 |] eqn:E5; cbn [rbind]; [| discriminate].
  intros [= <-]. numbers; finite_field.
Qed.

Lemma get_gpu_stats_numbers (h : Host) (s : SystemMonitor) :
  host_ok h → ∃ d, fst (get_gpu_stats h s) = Ok d ∧ has_numbers gpu_fields d.
Proof.
  intros Hh.
  destruct (get_gpu_stats_inv h s)
    as [[En ->] | [(En & Hc & ->) | (t & d & En & Eh & Et & -> & Hd)]];
    eexists; (split; [reflexivity |]); try apply gpu_zero_numbers.
  destruct Hd as [-> | (mu & Emu & Hd)]; [apply gpu_zero_numbers |].
  destruct (gpu_power_finite h) as [P1 P2]. destruct (gpu_memory_finite h) as [M1 M2].
  exact (gpu_record_numbers _ _ _ _ _ _ _ _ _ _ _ P1 P2
           (gpu_memory_usage_finite h mu Hh Emu) M1 M2 Hd).
Qed.

Lemma disk_entry_numbers (h : Host) (linux : bool) (partition : sdiskpart)
    (name : string) (entry : pydict) :
  disk_entry h linux partition = Ok (name, entry) → has_numbers disk_fields entry.
Proof.
  unfold disk_entry.
  destruct (disk_usage h _) as [usage |]; cbn [rbind]; [| discriminate].
  destruct (py_truediv (NInt (du_used usage)) _) as [used |] eqn:Eu; cbn [rbind];
    [| discriminate].
  destruct (py_round used 1) as [v1 |] eqn:E1; cbn [rbind]; [| discriminate].
  destruct (py_truediv (NInt (du_total usage)) _) as [total |] eqn:Et; cbn [rbind];
    [| discriminate].
  destruct (py_round total 1) as [v2 |] eqn:E2; cbn [rbind]; [| discriminate].
  intros [= <- <-]. apply py_truediv_int_int_finite in Eu, Et.
  numbers; finite_field.
Qed.

Lemma disk_loop_numbers (h : Host) (linux : bool) (partitions : list sdiskpart)
    (disks : gmap string pydict) :
  (∀ name entry, disks !! name = Some entry → has_numbers disk_fields entry) →
  ∀ name entry,
    disk_loop h linux partitions disks !! name = Some entry → has_numbers disk_fields entry.
Proof.
  revert disks. induction partitions as [| p rest IH]; intros disks Hd; [exact Hd |].
  cbn [disk_loop]. destruct (skipped linux p); [apply IH; exact Hd |].
  destruct (disk_entry h linux p) as [[key new] | e] eqn:E.
  - apply IH. intros name entry. rewrite lookup_insert.
    destruct (decide (key = name)); [| apply Hd].
    intros [= <-]. exact (disk_entry_numbers _ _ _ _ _ E).
  - destruct (is_OSError e); [apply IH |]; exact Hd.
Qed.

Lemma get_disk_stats_numbers (h : Host) (s : SystemMonitor) :
  ∃ disks, get_disk_stats h s = (Ok disks, s) ∧
           ∀ name entry, disks !! name = Some entry → has_numbers disk_fields entry.
Proof.
  eexists. split; [reflexivity |].
  destruct (disk_partitions h); [apply disk_loop_numbers |];
    intros name entry; rewrite lookup_empty; discriminate.
Qed.

Lemma zero_network_numbers : has_numbers network_fields zero_network.
Proof. numbers; finite_field. Qed.

(** A speed computed from a difference of 64-bit counters is a finite
    float below 2^64 in magnitude. *)
Lemma to_mbps_small (delta : Z) :
  Z.abs delta < 2 ^ 64 →
  ∃ q, to_mbps delta (NFloat (FFin 1)) = Ok (NFloat (FFin q)) ∧
       (Qabs q < 18446744073709551616 # 1)%Q.
Proof.
  intros H.
  assert (Hd : (Qabs (inject_Z delta) < 18446744073709551616 # 1)%Q).
  { change (Qabs (inject_Z delta)) with (inject_Z (Z.abs delta)).
    change (18446744073709551616 # 1)%Q with (inject_Z (2 ^ 64)).
    rewrite <- Zlt_Qlt. exact H. }
  apply Qabs_Qlt_condition in Hd. pose proof float_bound_numeral as HB.
  unfold to_mbps.
  rewrite py_truediv_int_float by (lia || reflexivity). cbn [rbind float_div].
  assert (H1 : (Qabs (inject_Z delta / 1) < float_bound)%Q).
  { apply Qabs_Qlt_condition. unfold Qdiv. change (/ 1)%Q with 1%Q. lra. }
  rewrite (fl_finite _ H1).
  pose proof (Qred_correct (inject_Z delta / 1)) as E1.
  set (x1 := Qred (inject_Z delta / 1)) in *.
  unfold Qdiv in E1. change (/ 1)%Q with 1%Q in E1.
  rewrite py_mul_float_int by lia. cbn [rbind float_mul].
  assert (H2 : (Qabs (x1 * inject_Z 8) < float_bound)%Q).
  { apply Qabs_Qlt_condition. change (inject_Z 8) with (8 # 1)%Q. lra. }
  rewrite (fl_finite _ H2).
  pose proof (Qred_correct (x1 * inject_Z 8)) as E2.
  set (x2 := Qred (x1 * inject_Z 8)) in *. change (inject_Z 8) with (8 # 1)%Q in E2.
  rewrite py_truediv_float_int by lia. cbn [rbind float_div].
  assert (H3 : (Qabs (x2 / inject_Z 1024) < float_bound)%Q).
  { apply Qabs_Qlt_condition. unfold Qdiv.
    change (/ inject_Z 1024)%Q with (1 # 1024)%Q. lra. }
  rewrite (fl_finite _ H3).
  pose proof (Qred_correct (x2 / inject_Z 1024)) as E3.
  set (x3 := Qred (x2 / inject_Z 1024)) in *.
  unfold Qdiv in E3. change (/ inject_Z 1024)%Q with (1 # 1024)%Q in E3.
  rewrite py_truediv_float_int by lia. cbn [float_div].
  assert (H4 : (Qabs (x3 / inject_Z 1024) < float_bound)%Q).
  { apply Qabs_Qlt_condition. unfold Qdiv.
    change (/ inject_Z 1024)%Q with (1 # 1024)%Q. lra. }
  rewrite (fl_finite _ H4).
  pose proof (Qred_correct (x3 / inject_Z 1024)) as E4.
  set (x4 := Qred (x3 / inject_Z 1024)) in *.
  unfold Qdiv in E4. change (/ inject_Z 1024)%Q with (1 # 1024)%Q in E4.
  exists x4. split; [reflexivity |]. apply Qabs_Qlt_condition. lra.
Qed.

Lemma py_max_cases (a b : num) : py_max a b = a ∨ py_max a b = b.
Proof. unfold py_max. destruct (py_gt b a); auto. Qed.

Lemma py_min_cases (a b : num) : py_min a b = a ∨ py_min a b = b.
Proof. unfold py_min. destruct (py_lt b a); auto. Qed.

(** The usage percent of a finite speed below 2^64 is finite. *)
Lemma usage_finite (q : Q) (usage : num) :
  (Qabs q < 18446744073709551616 # 1)%Q →
  (do r <- py_truediv (NFloat (FFin q)) (NInt 100); py_mul r (NInt 100)) = Ok usage →
  finite usage.
Proof.
  intros Hq. apply Qabs_Qlt_condition in Hq. pose proof float_bound_numeral as HB.
  rewrite py_truediv_float_int by lia. cbn [rbind float_div].
  assert (H1 : (Qabs (q / inject_Z 100) < float_bound)%Q).
  { apply Qabs_Qlt_condition. unfold Qdiv.
    change (/ inject_Z 100)%Q with (1 # 100)%Q. lra. }
  rewrite (fl_finite _ H1).
  pose proof (Qred_correct (q / inject_Z 100)) as E1.
  set (x1 := Qred (q / inject_Z 100)) in *.
  unfold Qdiv in E1. change (/ inject_Z 100)%Q with (1 # 100)%Q in E1.
  rewrite py_mul_float_int by lia. cbn [float_mul].
  intros [= <-]. cbn [finite]. apply valid_float_fl.
  apply Qabs_Qlt_condition. change (inject_Z 100) with (100 # 1)%Q. lra.
Qed.

Lemma get_network_stats_numbers (h : Host) (s : SystemMonitor) :
  reading_ok h → baseline_ok s →
  ∃ d, fst (get_network_stats h s) = Ok d ∧ has_numbers network_fields d ∧
       baseline_ok (snd (get_network_stats h s)).
Proof.
  intros Hh Hs.
  destruct (get_network_stats_inv h s)
    as [E | [(cur & Ec & E) |
             (cur & base & up & down & ts & tr & usage & v1 & v2 & v3 & v4 & v5 &
              Ec & Eb & Eu & Ed & Ets & Etr & Eus & E1 & E2 & E3 & E4 & E5 & E)]];
    rewrite E; cbn [fst snd]; eexists; (split; [reflexivity |]).
  - split; [apply zero_network_numbers | exact Hs].
  - split; [apply zero_network_numbers |].
    unfold reading_ok in Hh. rewrite Ec in Hh. exact Hh.
  - unfold reading_ok in Hh. rewrite Ec in Hh.
    unfold baseline_ok in Hs. rewrite Eb in Hs.
    split; [| exact Hh].
    destruct Hh as [Hs1 Hr1]. destruct Hs as [Hs0 Hr0].
    destruct (to_mbps_small (bytes_sent cur - bytes_sent base)) as (qu & Eu' & Hu); [lia |].
    destruct (to_mbps_small (bytes_recv cur - bytes_recv base)) as (qd & Ed' & Hd); [lia |].
    rewrite Eu' in Eu. rewrite Ed' in Ed. injection Eu as <-. injection Ed as <-.
    pose proof float_bound_numeral as HB.
    assert (Fu : finite (NFloat (FFin qu))) by (cbn; lra).
    assert (Fd : finite (NFloat (FFin qd))) by (cbn; lra).
    assert (Fusage : finite usage).
    { destruct (py_max_cases (NFloat (FFin qu)) (NFloat (FFin qd))) as [Em | Em];
        rewrite Em in Eus; (eapply usage_finite; [| exact Eus]); assumption. }
    assert (F1 : finite (py_min usage (NInt 100)))
      by (destruct (py_min_cases usage (NInt 100)) as [-> | ->]; [exact Fusage | exact I]).
    assert (F2 : finite (py_max (NFloat (FFin qu)) (NInt 0)))
      by (destruct (py_max_cases (NFloat (FFin qu)) (NInt 0)) as [-> | ->];
          [exact Fu | exact I]).
    assert (F3 : finite (py_max (NFloat (FFin qd)) (NInt 0)))
      by (destruct (py_max_cases (NFloat (FFin qd)) (NInt 0)) as [-> | ->];
          [exact Fd | exact I]).
    apply py_truediv_int_int_finite in Ets, Etr.
    numbers; finite_field.
Qed.

Lemma get_gpu_stats_baseline_ok (h : Host) (s : SystemMonitor) :
  baseline_ok s → baseline_ok (snd (get_gpu_stats h s)).
Proof. unfold baseline_ok. rewrite get_gpu_stats_baseline. exact id. Qed.

(** A sample taken from a well-formed host in a state with a well-formed
    baseline: the snapshot, its numbers, and the baseline it leaves. *)
Lemma get_all_stats_numbers (h : Host) (s : SystemMonitor) :
  host_ok h → baseline_ok s →
  ∃ stats,
    fst (get_all_stats h s) = Ok stats ∧
    snapshot_numbers_ok stats ∧
    baseline_ok (snd (get_all_stats h s)).
Proof.
  intros Hh Hs.
  destruct (get_all_stats_inv h s) as (gpu & disks & net & s1 & s2 & Eg & Ed & En & E).
  rewrite E. cbn [fst snd]. eexists. split; [reflexivity |].
  destruct (get_gpu_stats_numbers h s Hh) as (gpu' & Eg' & Hg).
  rewrite Eg in Eg'. injection Eg' as <-.
  destruct (get_disk_stats_numbers h s1) as (disks' & Ed' & Hd).
  rewrite Ed in Ed'. injection Ed' as <-.
  assert (Hs1 : baseline_ok s1).
  { pose proof (get_gpu_stats_baseline_ok h s Hs) as B. rewrite Eg in B. exact B. }
  destruct (get_network_stats_numbers h s1 (proj2 (proj2 (proj2 (proj2 Hh)))) Hs1)
    as (net' & En' & Hn & Hb).
  rewrite En in En', Hb. injection En' as <-.
  split; [| exact Hb].
  unfold snapshot_numbers_ok. cbn.
  repeat split; try assumption.
  - apply get_cpu_stats_numbers. exact Hh.
  - apply get_memory_stats_numbers. exact Hh.
Qed.

(** The constructor leaves a well-formed baseline. *)
Lemma init_baseline_ok (h0 : Host) : reading_ok h0 → baseline_ok (__init__ h0).
Proof.
  unfold reading_ok, baseline_ok. cbn. unfold _get_network_stats.
  destruct (net_io_counters h0) as [[c |] |]; auto.
Qed.

Lemma host_healthy_ok : host_ok host_healthy.
Proof.
  unfold host_ok, reading_ok, counters_ok. cbn.
  repeat split; try lia; vm_compute; reflexivity.
Defined.

Lemma host_failing_ok : host_ok host_failing.
Proof. repeat split. Defined.

(** C1. For every tick of the loop, whatever providers fail during it,
    [get_all_stats] returns a snapshot and the tick broadcasts it, and every
    numeric field of its cpu, memory, gpu, disk and network records is
    present and holds a finite number: an int or a finite float, never
    [None], NaN or an infinity.  The providers that do answer return
    well-formed values ([host_ok]), and the run starts from a monitor whose
    baseline is a 64-bit reading or absent, as the constructor leaves it. *)
Theorem every_numeric_field_finite (hs : list Host) (s : SystemMonitor) :
  running s = true → baseline_ok s → Forall host_ok hs →
  length (fst (background_stats_updater hs s)) = length hs ∧
  Forall (λ out, ∃ stats, out = [system_stats stats] ∧ snapshot_numbers_ok stats)
         (fst (background_stats_updater hs s)).
Proof.
  revert s. induction hs as [| h rest IH]; intros s Hr Hs Hall.
  - split; [reflexivity | constructor].
  - apply Forall_cons in Hall as [Hh Hrest].
    cbn [background_stats_updater]. rewrite Hr. cbn [fst snd].
    destruct (get_all_stats_numbers h s Hh Hs) as (stats & Es & Hn & Hb).
    destruct (tick_inv h s) as (stats' & s1 & Ea & Et).
    rewrite Ea in Es, Hb. cbn [fst snd] in Es, Hb. injection Es as ->.
    rewrite Et. cbn [fst snd or_default].
    destruct (IH s1) as [IL IF]; try assumption.
    { pose proof (tick_running h s) as R. rewrite Et in R. cbn in R. congruence. }
    split; [cbn; lia |]. constructor; [eauto | exact IF].
Qed.

Lemma every_numeric_field_finite_witness :
  length (fst (background_stats_updater [host_healthy; host_failing; host_healthy]
                 (__init__ host_failing))) = 3%nat ∧
  Forall (λ out, ∃ stats, out = [system_stats stats] ∧ snapshot_numbers_ok stats)
         (fst (background_stats_updater [host_healthy; host_failing; host_healthy]
                 (__init__ host_failing))).
Proof.
  apply (every_numeric_field_finite [host_healthy; host_failing; host_healthy]
           (__init__ host_failing)).
  - reflexivity.
  - exact (init_baseline_ok host_failing I).
  - constructor; [exact host_healthy_ok |].
    constructor; [exact host_failing_ok |].
    constructor; [exact host_healthy_ok | constructor].
Defined.

(** * More on the client registry *)

Lemma set_connected_clients_id (s : SystemMonitor) :
  set_connected_clients (connected_clients s) s = s.
Proof. destruct s; reflexivity. Qed.

Lemma remove_client_state (client_id : string) (s : SystemMonitor) :
  remove_client client_id s
  = (Ok tt, set_connected_clients (delete client_id (connected_clients s)) s).
Proof.
  unfold remove_client, bind, get, modify, ret.
  destruct (connected_clients s !! client_id) eqn:E; [reflexivity |].
  rewrite delete_id by exact E. rewrite set_connected_clients_id. reflexivity.
Qed.

(** X1. Register A, register B, unregister A: the registry is the one
    before with A removed and B's fresh entry added; from an empty registry
    it holds exactly B. *)
Theorem register_register_unregister
    (a b ip_a ip_b a1 a2 b1 b2 : string) (s : SystemMonitor) :
  a ≠ b →
  let s' := snd (remove_client a
                   (snd (add_client b ip_b b1 b2 (snd (add_client a ip_a a1 a2 s))))) in
  connected_clients s'
    = <[b := {| ip := ip_b; connected_at := b1; last_seen := b2 |}]>
        (delete a (connected_clients s)) ∧
  (connected_clients s = ∅ →
   connected_clients s' = {[b := {| ip := ip_b; connected_at := b1; last_seen := b2 |}]}).
Proof.
  intros Hab. cbn zeta. rewrite remove_client_state. cbn.
  assert (E : delete a (<[b:={| ip := ip_b; connected_at := b1; last_seen := b2 |}]>
                 (<[a:={| ip := ip_a; connected_at := a1; last_seen := a2 |}]>
                    (connected_clients s)))
              = <[b:={| ip := ip_b; connected_at := b1; last_seen := b2 |}]>
                  (delete a (connected_clients s))).
  { rewrite delete_insert_ne by congruence. rewrite delete_insert_eq. reflexivity. }
  split; [exact E |].
  intros He. rewrite E, He, delete_empty. reflexivity.
Qed.

Lemma register_register_unregister_witness :
  let s' := snd (remove_client "A"
                   (snd (add_client "B" "10.0.0.2" "t3" "t4"
                           (snd (add_client "A" "10.0.0.1" "t1" "t2"
                                   (__init__ host_failing))))))%string in
  connected_clients s'
    = <["B"%string := {| ip := "10.0.0.2"; connected_at := "t3"; last_seen := "t4" |}]>
        (delete "A"%string (connected_clients (__init__ host_failing))) ∧
  (connected_clients (__init__ host_failing) = ∅ →
   connected_clients s'
     = {["B"%string := {| ip := "10.0.0.2"; connected_at := "t3"; last_seen := "t4" |}]}).
Proof.
  apply (register_register_unregister "A" "B" "10.0.0.1" "10.0.0.2" "t1" "t2" "t3" "t4"
           (__init__ host_failing)).
  discriminate.
Defined.

(** X2. Registering an id that was absent and unregistering it again
    gives back the monitor as it was. *)
Theorem register_unregister_restores
    (client_id client_ip now1 now2 : string) (s : SystemMonitor) :
  connected_clients s !! client_id = None →
  snd (remove_client client_id (snd (add_client client_id client_ip now1 now2 s))) = s.
Proof.
  intros Hn. rewrite remove_client_state. cbn.
  rewrite delete_insert_eq. rewrite delete_id by exact Hn.
  destruct s; reflexivity.
Qed.

Lemma register_unregister_restores_witness :
  snd (remove_client "A"
         (snd (add_client "A" "10.0.0.1" "t1" "t2" (__init__ host_failing))))
  = __init__ host_failing.
Proof.
  apply (register_unregister_restores "A" "10.0.0.1" "t1" "t2" (__init__ host_failing)).
  reflexivity.
Defined.

Lemma update_client_activity_state (client_id now1 : string) (s : SystemMonitor) :
  update_client_activity client_id now1 s
  = (Ok tt,
     set_connected_clients
       (alter (λ c, {| ip := ip c; connected_at := connected_at c; last_seen := now1 |})
              client_id (connected_clients s)) s).
Proof.
  unfold update_client_activity, bind, get, modify, ret.
  destruct (connected_clients s !! client_id) as [c |] eqn:E.
  - f_equal. f_equal. apply map_eq. intros k. rewrite lookup_alter, lookup_insert.
    destruct (decide (client_id = k)) as [<- |]; [rewrite E |]; reflexivity.
  - f_equal. rewrite <- (set_connected_clients_id s) at 1. f_equal.
    apply map_eq. intros k. rewrite lookup_alter.
    destruct (decide (client_id = k)) as [<- |]; [rewrite E |]; reflexivity.
Qed.

(** X3. [update_client_activity] changes nothing but the [last_seen] of
    the given id: the set of registered ids is the same (an unknown id is
    not created), the address and the connect time of the id are kept, and
    every other entry is untouched. *)
Theorem update_client_activity_only_last_seen (client_id now1 : string) (s : SystemMonitor) :
  let s' := snd (update_client_activity client_id now1 s) in
  dom (connected_clients s') = dom (connected_clients s) ∧
  connected_clients s' !! client_id
    = (λ c, {| ip := ip c; connected_at := connected_at c; last_seen := now1 |})
        <$> connected_clients s !! client_id ∧
  (∀ other, other ≠ client_id →
     connected_clients s' !! other = connected_clients s !! other) ∧
  set_connected_clients (connected_clients s) s' = s.
Proof.
  cbn zeta. rewrite update_client_activity_state. cbn.
  repeat split.
  - apply dom_alter_L.
  - rewrite lookup_alter. destruct (decide (client_id = client_id)); congruence.
  - intros other Hne. rewrite lookup_alter.
    destruct (decide (client_id = other)); congruence.
  - destruct s; reflexivity.
Qed.

(** * Sampling and the rest of the monitor *)

Lemma get_all_stats_frame (h : Host) (s : SystemMonitor) :
  ∃ stats z b,
    get_all_stats h s = (Ok stats, set_network_baseline b (set_max_gpu_temp z s)) ∧
    snap_connected_clients stats = connected_clients s ∧
    snap_hostname stats = hostname s ∧
    snap_ip_addresses stats = ip_addresses s ∧
    snap_platform stats = platform_system h ∧
    snap_timestamp stats = now h.
Proof.
  destruct (get_all_stats_inv h s) as (gpu & disks & net & s1 & s2 & Eg & _ & En & E).
  destruct (get_gpu_stats_frame h s) as (gpu' & z & Eg').
  rewrite Eg in Eg'. injection Eg' as <- ->.
  destruct (get_network_stats_frame h (set_max_gpu_temp z s)) as (net' & b & En').
  rewrite En in En'. injection En' as <- ->.
  eexists _, z, b. split; [exact E |]. repeat split.
Qed.


(** * The socket handlers *)

(** X5. On connect the client is registered first, under the address of
    [HTTP_X_FORWARDED_FOR], else of [REMOTE_ADDR], else "Unknown"; then one
    snapshot is sent, and it already lists the new client. *)
Theorem handle_connect_registers_then_sends
    (h : Host) (sid now1 now2 : string) (environ : gmap string string) (s : SystemMonitor) :
  let entry := {| ip := client_ip_of environ; connected_at := now1; last_seen := now2 |} in
  ∃ stats,
    fst (handle_connect h sid now1 now2 environ s) = Ok [system_stats stats] ∧
    snap_connected_clients stats = <[sid := entry]> (connected_clients s) ∧
    connected_clients (snd (handle_connect h sid now1 now2 environ s))
      = <[sid := entry]> (connected_clients s).
Proof.
  cbn zeta. unfold handle_connect, add_client, bind, modify, ret.
  set (s1 := set_connected_clients _ s).
  destruct (get_all_stats_frame h s1) as (stats & z & b & E & Hc & _).
  rewrite E. exists stats. split; [reflexivity |]. split; [exact Hc | reflexivity].
Qed.

Lemma handle_connect_clients
    (h : Host) (sid now1 now2 : string) (environ : gmap string string) (s : SystemMonitor) :
  connected_clients (snd (handle_connect h sid now1 now2 environ s))
  = <[sid := {| ip := client_ip_of environ; connected_at := now1; last_seen := now2 |}]>
      (connected_clients s).
Proof.
  unfold handle_connect, add_client, bind, modify, ret.
  set (s1 := set_connected_clients _ s).
  destruct (get_all_stats_frame h s1) as (stats & z & b & E & _).
  rewrite E. reflexivity.
Qed.

(** X6. A connection that opens and closes leaves the registry as it was,
    when its id was not registered before. *)
Theorem connect_disconnect_restores_registry
    (h : Host) (sid now1 now2 : string) (environ : gmap string string) (s : SystemMonitor) :
  connected_clients s !! sid = None →
  connected_clients
    (snd (handle_disconnect sid (snd (handle_connect h sid now1 now2 environ s))))
  = connected_clients s.
Proof.
  intros Hn. unfold handle_disconnect. rewrite remove_client_state.
  cbn [snd set_connected_clients connected_clients].
  rewrite handle_connect_clients, delete_insert_eq. apply delete_id. exact Hn.
Qed.

Lemma connect_disconnect_restores_registry_witness :
  connected_clients
    (snd (handle_disconnect "sid1"
            (snd (handle_connect host_healthy "sid1" "t1" "t2" ∅ (__init__ host_failing)))))
  = connected_clients (__init__ host_failing).
Proof.
  apply (connect_disconnect_restores_registry host_healthy "sid1" "t1" "t2" ∅
           (__init__ host_failing)).
  reflexivity.
Defined.

(** What a cadence request comes to, whatever it carries. *)
Lemma handle_update_interval_cases (sid now1 : string) (data : pydict) (s : SystemMonitor) :
  let touched := snd (update_client_activity sid now1 s) in
  let v := dict_get data "interval" (VInt 1000) in
  (num_of v = Raise TypeError ∧
   handle_update_interval sid now1 data s = (Raise TypeError, touched)) ∨
  (∃ n, num_of v = Ok n ∧
        py_le (NInt 100) n && py_le n (NInt 10000) = false ∧
        handle_update_interval sid now1 data s = (Ok [], touched)) ∨
  (∃ n, num_of v = Ok n ∧
        py_le (NInt 100) n && py_le n (NInt 10000) = true ∧
        handle_update_interval sid now1 data s
        = (Ok [interval_updated (dict_of [("interval"%string, v)])],
           set_update_interval n touched)).
Proof.
  cbn zeta. unfold handle_update_interval, bind, lift, modify, ret.
  rewrite update_client_activity_state. cbn [fst snd].
  destruct (num_of (dict_get data "interval" (VInt 1000))) as [n | e] eqn:En.
  - right. destruct (py_le (NInt 100) n && py_le n (NInt 10000)) eqn:Er.
    + right. exists n. auto.
    + left. exists n. auto.
  - left. destruct (dict_get data "interval" (VInt 1000)); cbn in En; try discriminate;
      injection En as <-; auto.
Qed.

(** X7. A cadence request whose interval is [null] or text raises
    [TypeError]: nothing is sent and the cadence is unchanged, but the
    sender's [last_seen] has been updated before. *)
Theorem cadence_request_not_a_number
    (sid now1 : string) (data : pydict) (s : SystemMonitor) (v : pyval) :
  data !! "interval"%string = Some v →
  v = VNone ∨ (∃ text, v = VStr text) →
  handle_update_interval sid now1 data s
  = (Raise TypeError, snd (update_client_activity sid now1 s)).
Proof.
  intros Hv Hk.
  destruct (handle_update_interval_cases sid now1 data s)
    as [[_ E] | [(n & En & _) | (n & En & _)]]; [exact E | |];
    unfold dict_get in En; rewrite Hv in En;
    destruct Hk as [-> | [text ->]]; discriminate En.
Qed.

Lemma cadence_request_not_a_number_witness :
  handle_update_interval "sid1" "t1" (dict_of [("interval"%string, VStr "fast")])
    (__init__ host_failing)
  = (Raise TypeError, snd (update_client_activity "sid1" "t1" (__init__ host_failing))).
Proof.
  apply (cadence_request_not_a_number "sid1" "t1"
           (dict_of [("interval"%string, VStr "fast")]) (__init__ host_failing)
           (VStr "fast")).
  - reflexivity.
  - right. exists "fast"%string. reflexivity.
Defined.

(** X8. A cadence request that carries a finite float is treated like an
    int: it is accepted exactly when the float lies in [100, 10000], and
    then the float itself becomes the cadence and is acknowledged. *)
Theorem cadence_request_float
    (sid now1 : string) (data : pydict) (s : SystemMonitor) (q : Q) :
  data !! "interval"%string = Some (VFloat (FFin q)) →
  ((100 <= q)%Q ∧ (q <= 10000)%Q →
     fst (handle_update_interval sid now1 data s)
       = Ok [interval_updated (dict_of [("interval"%string, VFloat (FFin q))])] ∧
     update_interval (snd (handle_update_interval sid now1 data s)) = NFloat (FFin q)) ∧
  (¬ ((100 <= q)%Q ∧ (q <= 10000)%Q) →
     fst (handle_update_interval sid now1 data s) = Ok [] ∧
     update_interval (snd (handle_update_interval sid now1 data s)) = update_interval s).
Proof.
  intros Hv.
  assert (Hr : py_le (NInt 100) (NFloat (FFin q)) && py_le (NFloat (FFin q)) (NInt 10000) = true
               ↔ (100 <= q)%Q ∧ (q <= 10000)%Q).
  { rewrite andb_true_iff. unfold py_le. cbn. rewrite !Qle_bool_iff. reflexivity. }
  assert (Hu : update_interval (snd (update_client_activity sid now1 s)) = update_interval s)
    by (rewrite update_client_activity_state; reflexivity).
  destruct (handle_update_interval_cases sid now1 data s)
    as [[En _] | [(n & En & Er & E) | (n & En & Er & E)]];
    unfold dict_get in *; rewrite Hv in *; cbn in En; try discriminate;
    injection En as <-; rewrite E; cbn [fst snd].
  - split; [intros R; apply Hr in R; congruence | intros _; auto].
  - split; [intros _; auto | intros N; apply Hr in Er; tauto].
Qed.

Lemma cadence_request_float_witness :
  ((100 <= 2500 # 10)%Q ∧ (2500 # 10 <= 10000)%Q →
     fst (handle_update_interval "sid1" "t1"
            (dict_of [("interval"%string, VFloat (FFin (2500 # 10)))]) (__init__ host_failing))
       = Ok [interval_updated (dict_of [("interval"%string, VFloat (FFin (2500 # 10)))])] ∧
     update_interval
       (snd (handle_update_interval "sid1" "t1"
               (dict_of [("interval"%string, VFloat (FFin (2500 # 10)))])
               (__init__ host_failing))) = NFloat (FFin (2500 # 10))) ∧
  (¬ ((100 <= 2500 # 10)%Q ∧ (2500 # 10 <= 10000)%Q) →
     fst (handle_update_interval "sid1" "t1"
            (dict_of [("interval"%string, VFloat (FFin (2500 # 10)))]) (__init__ host_failing))
       = Ok [] ∧
     update_interval
       (snd (handle_update_interval "sid1" "t1"
               (dict_of [("interval"%string, VFloat (FFin (2500 # 10)))])
               (__init__ host_failing))) = update_interval (__init__ host_failing)).
Proof.
  apply (cadence_request_float "sid1" "t1"
           (dict_of [("interval"%string, VFloat (FFin (2500 # 10)))])
           (__init__ host_failing) (2500 # 10)).
  reflexivity.
Defined.

(** X9. Whatever a cadence request carries and whether it is accepted,
    rejected or raises, the registry afterwards is the registry with the
    sender's [last_seen] updated: no entry is created or removed. *)
Theorem cadence_request_touches_sender (sid now1 : string) (data : pydict) (s : SystemMonitor) :
  connected_clients (snd (handle_update_interval sid now1 data s))
  = alter (λ c, {| ip := ip c; connected_at := connected_at c; last_seen := now1 |})
          sid (connected_clients s).
Proof.
  destruct (handle_update_interval_cases sid now1 data s)
    as [[_ E] | [(n & _ & _ & E) | (n & _ & _ & E)]];
    rewrite E, update_client_activity_state; reflexivity.
Qed.

(** * Any sequence of events *)

(** Every event leaves a monitor that differs from the one before in the
    four assigned fields at most. *)
Lemma handle_frame (ev : event) (s : SystemMonitor) :
  ∃ u m b z,
    handle ev s
    = set_update_interval u
        (set_connected_clients m (set_network_baseline b (set_max_gpu_temp z s))).
Proof.
  destruct ev as [h | h sid now1 now2 environ | sid | sid now1 data | h]; cbn [handle].
  - rewrite tick_state. destruct (get_all_stats_frame h s) as (stats & z & b & -> & _).
    exists (update_interval s), (connected_clients s), b, z. destruct s; reflexivity.
  - unfold handle_connect, add_client, bind, modify, ret.
    set (s1 := set_connected_clients _ s).
    destruct (get_all_stats_frame h s1) as (stats & z & b & -> & _).
    exists (update_interval s), (connected_clients s1), b, z. destruct s; reflexivity.
  - unfold handle_disconnect. rewrite remove_client_state.
    exists (update_interval s), (delete sid (connected_clients s)),
      (network_baseline s), (max_gpu_temp s).
    destruct s; reflexivity.
  - destruct (handle_update_interval_cases sid now1 data s)
      as [[_ E] | [(n & _ & _ & E) | (n & _ & _ & E)]];
      rewrite E, update_client_activity_state;
      set (f := λ c, {| ip := ip c; connected_at := connected_at c; last_seen := now1 |});
      [exists (update_interval s), (alter f sid (connected_clients s)),
         (network_baseline s), (max_gpu_temp s)
      |exists (update_interval s), (alter f sid (connected_clients s)),
         (network_baseline s), (max_gpu_temp s)
      |exists n, (alter f sid (connected_clients s)),
         (network_baseline s), (max_gpu_temp s)];
      destruct s; reflexivity.
  - unfold api_stats. destruct (get_all_stats_frame h s) as (stats & z & b & -> & _).
    exists (update_interval s), (connected_clients s), b, z. destruct s; reflexivity.
Qed.

Lemma handle_identity (ev : event) (s : SystemMonitor) : identity (handle ev s) = identity s.
Proof. destruct (handle_frame ev s) as (u & m & b & z & ->). reflexivity. Qed.

Lemma serve_identity (evs : list event) (s : SystemMonitor) :
  identity (serve evs s) = identity s.
Proof.
  revert s. induction evs as [| ev rest IH]; intros s; [reflexivity |].
  cbn [serve fold_left]. change (fold_left _ rest ?x) with (serve rest x).
  rewrite IH. apply handle_identity.
Qed.

Lemma serve_fixed (evs : list event) (s : SystemMonitor) :
  gpu_name (serve evs s) = gpu_name s ∧ gpu_handle (serve evs s) = gpu_handle s ∧
  hostname (serve evs s) = hostname s ∧ ip_addresses (serve evs s) = ip_addresses s.
Proof.
  pose proof (serve_identity evs s) as I. unfold identity in I.
  injection I as _ _ In _ Hn Hi Hh. auto.
Qed.

(** X10. The host name and the address list are read once, by the
    constructor.  After any sequence of events a sample still reports the
    name and the addresses of that first reading, whatever the interfaces
    of the host are by then. *)
Theorem identity_fixed_at_construction (h0 h : Host) (evs : list event) :
  ∃ stats,
    fst (get_all_stats h (serve evs (__init__ h0))) = Ok stats ∧
    snap_hostname stats = gethostname h0 ∧
    snap_ip_addresses stats = _get_ip_addresses h0.
Proof.
  destruct (get_all_stats_frame h (serve evs (__init__ h0)))
    as (stats & z & b & E & _ & Hn & Hi & _).
  exists stats. rewrite E. split; [reflexivity |].
  destruct (serve_fixed evs (__init__ h0)) as (_ & _ & In & Ii).
  rewrite Hn, Hi, In, Ii. split; reflexivity.
Qed.

Lemma handle_clients_dom (ev : event) (s : SystemMonitor) :
  dom (connected_clients (handle ev s))
  = match ev with
    | Connect _ sid _ _ _ => {[sid]} ∪ dom (connected_clients s)
    | Disconnect sid => dom (connected_clients s) ∖ {[sid]}
    | _ => dom (connected_clients s)
    end.
Proof.
  destruct ev as [h | h sid now1 now2 environ | sid | sid now1 data | h]; cbn [handle].
  - rewrite tick_state. destruct (get_all_stats_frame h s) as (stats & z & b & -> & _).
    reflexivity.
  - rewrite handle_connect_clients. apply dom_insert_L.
  - unfold handle_disconnect. rewrite remove_client_state. cbn. apply dom_delete_L.
  - destruct (handle_update_interval_cases sid now1 data s)
      as [[_ E] | [(n & _ & _ & E) | (n & _ & _ & E)]];
      rewrite E, update_client_activity_state; cbn; apply dom_alter_L.
  - unfold api_stats. destruct (get_all_stats_frame h s) as (stats & z & b & -> & _).
    reflexivity.
Qed.

(** X11. After any sequence of events the registered ids are exactly the
    connections still open: those registered before or connected since,
    less those disconnected since.  Samples, ticks and cadence requests
    neither add nor drop a client. *)
Theorem registry_tracks_open_connections (evs : list event) (s : SystemMonitor) :
  dom (connected_clients (serve evs s)) = open_connections evs (dom (connected_clients s)).
Proof.
  revert s. induction evs as [| ev rest IH]; intros s; [reflexivity |].
  cbn [serve open_connections fold_left].
  change (fold_left _ rest (handle ev s)) with (serve rest (handle ev s)).
  rewrite IH, handle_clients_dom. unfold open_connections.
  destruct ev; reflexivity.
Qed.

Lemma handle_peak (ev : event) (s : SystemMonitor) :
  max_gpu_temp s ≤ max_gpu_temp (handle ev s).
Proof.
  assert (Hs : ∀ h s0, max_gpu_temp s0 ≤ max_gpu_temp (snd (get_all_stats h s0))).
  { intros h s0. rewrite get_all_stats_state, get_network_stats_peak, get_gpu_stats_peak.
    destruct (NVIDIA_AVAILABLE h), (gpu_handle s0), (nvmlDeviceGetTemperature h); lia. }
  destruct ev as [h | h sid now1 now2 environ | sid | sid now1 data | h]; cbn [handle].
  - rewrite tick_state. apply Hs.
  - unfold handle_connect, add_client, bind, modify, ret.
    set (s1 := set_connected_clients _ s).
    change (max_gpu_temp s) with (max_gpu_temp s1).
    destruct (get_all_stats_frame h s1) as (stats & z & b & E & _).
    specialize (Hs h s1). rewrite E in *. exact Hs.
  - unfold handle_disconnect. rewrite remove_client_state. cbn. lia.
  - destruct (handle_update_interval_cases sid now1 data s)
      as [[_ E] | [(n & _ & _ & E) | (n & _ & _ & E)]];
      rewrite E, update_client_activity_state; cbn; lia.
  - apply Hs.
Qed.

(** X12. Whatever events arrive, in whatever order, the peak temperature
    of the monitor never goes down: connects, one-shot requests and ticks
    can only raise it, the other events leave it. *)
Theorem peak_never_lowered_by_any_event (evs : list event) (s : SystemMonitor) :
  max_gpu_temp s ≤ max_gpu_temp (serve evs s).
Proof.
  revert s. induction evs as [| ev rest IH]; intros s; [cbn; lia |].
  cbn [serve fold_left]. change (fold_left _ rest ?x) with (serve rest x).
  etransitivity; [apply handle_peak | apply IH].
Qed.

Lemma handle_cadence (ev : event) (s : SystemMonitor) :
  cadence_ok s → cadence_ok (handle ev s).
Proof.
  intros Hc.
  destruct ev as [h | h sid now1 now2 environ | sid | sid now1 data | h]; cbn [handle].
  - rewrite tick_state. destruct (get_all_stats_frame h s) as (stats & z & b & -> & _).
    exact Hc.
  - unfold handle_connect, add_client, bind, modify, ret.
    set (s1 := set_connected_clients _ s).
    destruct (get_all_stats_frame h s1) as (stats & z & b & -> & _). exact Hc.
  - unfold handle_disconnect. rewrite remove_client_state. exact Hc.
  - destruct (handle_update_interval_cases sid now1 data s)
      as [[_ E] | [(n & _ & _ & E) | (n & _ & Hr & E)]];
      rewrite E, update_client_activity_state; try exact Hc.
    apply andb_true_iff in Hr. exact Hr.
  - unfold api_stats. destruct (get_all_stats_frame h s) as (stats & z & b & -> & _).
    exact Hc.
Qed.

Lemma serve_cadence (evs : list event) (s : SystemMonitor) :
  cadence_ok s → cadence_ok (serve evs s).
Proof.
  revert s. induction evs as [| ev rest IH]; intros s Hc; [exact Hc |].
  cbn [serve fold_left]. change (fold_left _ rest ?x) with (serve rest x).
  apply IH, handle_cadence, Hc.
Qed.

(** X13. Started by [main.py], the monitor keeps its cadence between 100
    and 10000 milliseconds through any sequence of events and any cadence
    requests, well formed or not. *)
Theorem cadence_always_in_range (h0 : Host) (evs : list event) :
  cadence_ok (serve evs (__init__ h0)).
Proof. apply serve_cadence. split; reflexivity. Qed.

Lemma get_all_stats_baseline (h : Host) (s : SystemMonitor) :
  reading_ok h → baseline_ok s →
  network_baseline (snd (get_all_stats h s))
  = match net_io_counters h, network_baseline s with
    | Ok (Some c), Some _ => Some c
    | _, b => b
    end.
Proof.
  intros Hh Hs. rewrite get_all_stats_state.
  set (s1 := snd (get_gpu_stats h s)).
  assert (Hb : network_baseline s1 = network_baseline s) by apply get_gpu_stats_baseline.
  unfold reading_ok in Hh. unfold baseline_ok in Hs. rewrite <- Hb in *.
  destruct (network_baseline s1) as [base |] eqn:Eb.
  - destruct (net_io_counters h) as [[c |] |] eqn:Ec.
    + exact (get_network_stats_present h s1 c base Ec Eb Hh Hs).
    + rewrite get_network_stats_unread by (rewrite Ec; congruence). exact Eb.
    + rewrite get_network_stats_unread by (rewrite Ec; congruence). exact Eb.
  - rewrite (get_network_stats_absent h s1 Eb). cbn [snd]. rewrite Eb.
    destruct (net_io_counters h) as [[c |] |]; reflexivity.
Qed.

Lemma handle_baseline (ev : event) (s : SystemMonitor) :
  match sampled ev with Some h => reading_ok h | None => True end →
  baseline_ok s →
  network_baseline (handle ev s)
  = match sampled ev with
    | Some h =>
        match net_io_counters h, network_baseline s with
        | Ok (Some c), Some _ => Some c
        | _, b => b
        end
    | None => network_baseline s
    end.
Proof.
  intros Hh Hs.
  destruct ev as [h | h sid now1 now2 environ | sid | sid now1 data | h];
    cbn [handle sampled] in *.
  - rewrite tick_state. apply get_all_stats_baseline; assumption.
  - unfold handle_connect, add_client, bind, modify, ret.
    set (s1 := set_connected_clients _ s).
    pose proof (get_all_stats_baseline h s1 Hh Hs) as B.
    destruct (get_all_stats_frame h s1) as (stats & z & b & E & _).
    rewrite E in *. exact B.
  - unfold handle_disconnect. rewrite remove_client_state. reflexivity.
  - destruct (handle_update_interval_cases sid now1 data s)
      as [[_ E] | [(n & _ & _ & E) | (n & _ & _ & E)]];
      rewrite E, update_client_activity_state; reflexivity.
  - apply get_all_stats_baseline; assumption.
Qed.

(** X14. Every sample moves the baseline, not only the ticks of the loop:
    after any sequence of events the baseline is the reading of the most
    recent connect, one-shot request or tick that read the counters (the
    baseline before, if none did), and an absent baseline stays absent.
    So the speeds of a tick are measured from the last sample of any kind. *)
Theorem baseline_is_last_sample_of_any_kind (evs : list event) (s : SystemMonitor) :
  baseline_ok s → Forall reading_ok (omap sampled evs) →
  network_baseline (serve evs s)
  = last_reading (omap sampled evs) <$> network_baseline s.
Proof.
  revert s. induction evs as [| ev rest IH]; intros s Hs Hall.
  - cbn. destruct (network_baseline s); reflexivity.
  - cbn [serve fold_left]. change (fold_left _ rest ?x) with (serve rest x).
    assert (Hev : match sampled ev with Some h => reading_ok h | None => True end).
    { cbn [omap list_omap] in Hall. destruct (sampled ev); [| exact I].
      apply Forall_cons in Hall as [Hh _]. exact Hh. }
    assert (Hrest : Forall reading_ok (omap sampled rest)).
    { cbn [omap list_omap] in Hall. destruct (sampled ev); [| exact Hall].
      apply Forall_cons in Hall as [_ Hr]. exact Hr. }
    pose proof (handle_baseline ev s Hev Hs) as B.
    assert (Hs' : baseline_ok (handle ev s)).
    { unfold baseline_ok in *. rewrite B.
      destruct (sampled ev) as [h |]; [| exact Hs]. unfold reading_ok in Hev.
      destruct (net_io_counters h) as [[c |] |], (network_baseline s); auto. }
    rewrite (IH _ Hs' Hrest), B. cbn [omap list_omap].
    destruct (sampled ev) as [h |]; [| reflexivity].
    unfold last_reading at 2. cbn [fold_left].
    destruct (net_io_counters h) as [[c |] |], (network_baseline s); reflexivity.
Qed.

Lemma baseline_is_last_sample_of_any_kind_witness :
  network_baseline
    (serve [Tick (host_with_counters 1000 2000);
            ApiStats (host_with_counters 1500 2600);
            UpdateInterval "sid1" "t1" ∅;
            Connect (host_with_counters 1800 3000) "sid2" "t2" "t2" ∅;
            Tick host_failing]
           (__init__ (host_with_counters 10 20)))
  = last_reading
      (omap sampled [Tick (host_with_counters 1000 2000);
                     ApiStats (host_with_counters 1500 2600);
                     UpdateInterval "sid1" "t1" ∅;
                     Connect (host_with_counters 1800 3000) "sid2" "t2" "t2" ∅;
                     Tick host_failing])
      <$> network_baseline (__init__ (host_with_counters 10 20)).
Proof.
  apply (baseline_is_last_sample_of_any_kind
           [Tick (host_with_counters 1000 2000);
            ApiStats (host_with_counters 1500 2600);
            UpdateInterval "sid1" "t1" ∅;
            Connect (host_with_counters 1800 3000) "sid2" "t2" "t2" ∅;
            Tick host_failing]
           (__init__ (host_with_counters 10 20))).
  - unfold baseline_ok, counters_ok; cbn; lia.
  - repeat constructor; cbn; lia.
Defined.

(** * The pause of the loop *)

Lemma cadence_ok_cases (s : SystemMonitor) :
  cadence_ok s →
  (∃ z, update_interval s = NInt z ∧ 100 ≤ z ≤ 10000) ∨
  (∃ q, update_interval s = NFloat (FFin q) ∧ (100 <= q)%Q ∧ (q <= 10000)%Q).
Proof.
  unfold cadence_ok, py_le. intros [H1 H2].
  destruct (update_interval s) as [z | [q | b |]]; cbn in *.
  - left. exists z. apply Qle_bool_iff in H1, H2.
    rewrite <- Zle_Qle in H1, H2. auto.
  - right. exists q. apply Qle_bool_iff in H1, H2. auto.
  - destruct b; discriminate.
  - discriminate.
Qed.

(** X15. With the cadence in its range, an iteration of the loop
    broadcasts one snapshot and then pauses the cadence divided by 1000:
    a finite number of seconds between 0.1 and 10.  It never falls into
    the one-second pause of the error handler. *)
Theorem iteration_pause_in_range (h : Host) (s : SystemMonitor) :
  cadence_ok s →
  ∃ stats seconds,
    fst (iteration h s) = Ok ([system_stats stats], NFloat (FFin seconds)) ∧
    fst (get_all_stats h s) = Ok stats ∧
    (1 # 10 <= seconds)%Q ∧ (seconds <= 10)%Q.
Proof.
  intros Hc. unfold iteration.
  destruct (get_all_stats_frame h s) as (stats & z & b & E & _). rewrite E.
  cbn [update_interval set_network_baseline set_max_gpu_temp fst].
  pose proof float_bound_numeral as HB.
  destruct (cadence_ok_cases s Hc) as [(n & -> & Hn) | (q & -> & H1 & H2)].
  - rewrite py_truediv_int_float by (lia || reflexivity). cbn [float_div].
    assert (R1 : (inject_Z 100 <= inject_Z n)%Q) by (rewrite <- Zle_Qle; lia).
    assert (R2 : (inject_Z n <= inject_Z 10000)%Q) by (rewrite <- Zle_Qle; lia).
    change (inject_Z 100) with (100 # 1)%Q in R1.
    change (inject_Z 10000) with (10000 # 1)%Q in R2.
    assert (Hv : (Qabs (inject_Z n / 1000) < float_bound)%Q).
    { apply Qabs_Qlt_condition. unfold Qdiv. change (/ 1000)%Q with (1 # 1000)%Q. lra. }
    rewrite (fl_finite _ Hv). exists stats. eexists. split; [reflexivity |].
    split; [reflexivity |]. rewrite Qred_correct.
    unfold Qdiv. change (/ 1000)%Q with (1 # 1000)%Q. lra.
  - unfold py_truediv. cbn [to_float rbind float_is_zero].
    change (Qeqb 1000 0) with false. cbv iota. cbn [float_div].
    assert (Hv : (Qabs (q / 1000) < float_bound)%Q).
    { apply Qabs_Qlt_condition. unfold Qdiv. change (/ 1000)%Q with (1 # 1000)%Q. lra. }
    rewrite (fl_finite _ Hv). exists stats. eexists. split; [reflexivity |].
    split; [reflexivity |]. rewrite Qred_correct.
    unfold Qdiv. change (/ 1000)%Q with (1 # 1000)%Q. lra.
Qed.

Lemma iteration_pause_in_range_witness :
  ∃ stats seconds,
    fst (iteration host_healthy (__init__ host_failing))
      = Ok ([system_stats stats], NFloat (FFin seconds)) ∧
    fst (get_all_stats host_healthy (__init__ host_failing)) = Ok stats ∧
    (1 # 10 <= seconds)%Q ∧ (seconds <= 10)%Q.
Proof.
  apply (iteration_pause_in_range host_healthy (__init__ host_failing)).
  split; reflexivity.
Defined.

(** * More on the GPU adapter *)

Lemma gpu_zero_lookup (name version : string) :
  gpu_zero name version !! "name"%string = Some (VStr name) ∧
  gpu_zero name version !! "temperature"%string = Some (VInt 0) ∧
  gpu_zero name version !! "max_temp"%string = Some (VInt 0) ∧
  gpu_zero name version !! "fan_speed"%string = Some (VInt 0) ∧
  gpu_zero name version !! "fan_percent"%string = Some (VInt 0) ∧
  gpu_zero name version !! "power_draw"%string = Some (VInt 0) ∧
  gpu_zero name version !! "max_power"%string = Some (VInt 0) ∧
  gpu_zero name version !! "memory_usage"%string = Some (VInt 0).
Proof. repeat split; vm_compute; reflexivity. Qed.

(** The fields of the dict of the last [return]. *)
Lemma gpu_record_inv (name : string) (temp peak fan : Z) (power : num * num)
    (usage : Z) (mu used total : num) (versions : string * string) (d : pydict) :
  gpu_record name temp peak fan power usage mu used total versions = Ok d →
  ∃ v1 v2 v3,
    py_round (fst power) 0 = Ok v1 ∧ py_round (snd power) 0 = Ok v2 ∧
    py_round mu 1 = Ok v3 ∧
    d !! "name"%string = Some (VStr name) ∧
    d !! "temperature"%string = Some (VInt temp) ∧
    d !! "max_temp"%string = Some (VInt peak) ∧
    d !! "fan_speed"%string = Some (VInt (fan * 22)) ∧
    d !! "fan_percent"%string = Some (VInt fan) ∧
    d !! "power_draw"%string = Some (of_num v1) ∧
    d !! "max_power"%string = Some (of_num v2) ∧
    d !! "memory_usage"%string = Some (of_num v3).
Proof.
  unfold gpu_record.
  destruct (py_round (fst power) 0) as [v1 |]; cbn [rbind]; [| discriminate].
  destruct (py_round (snd power) 0) as [v2 |]; cbn [rbind]; [| discriminate].
  destruct (py_round mu 1) as [v3 |]; cbn [rbind]; [| discriminate].
  destruct (py_round used 1) as [v4 |]; cbn [rbind]; [| discriminate].
  destruct (py_round total 0) as [v5 |]; cbn [rbind]; [| discriminate].
  intros [= <-]. exists v1, v2, v3.
  repeat split; vm_compute; reflexivity.
Qed.

Lemma init_gpu_failed (h0 : Host) :
  NVIDIA_AVAILABLE h0 = true →
  (∃ e, nvmlInit h0 = Raise e) ∨ (∃ e, nvmlDeviceGetHandleByIndex h0 = Raise e) →
  gpu_handle (__init__ h0) = None ∧ gpu_name (__init__ h0) = "GPU Error"%string.
Proof.
  intros En Hf. cbn. rewrite En.
  destruct Hf as [[e ->] | [e ->]]; [auto |]. destruct (nvmlInit h0); auto.
Qed.

(** X16. A GPU whose initialisation or handle query fails in the
    constructor is never tried again: after any sequence of events every
    sample returns the zeroed record named "GPU Error" with both versions
    "Error", and leaves the monitor as it is, even when the driver answers
    by then. *)
Theorem gpu_init_failure_is_permanent (h0 h : Host) (evs : list event) :
  NVIDIA_AVAILABLE h0 = true → NVIDIA_AVAILABLE h = true →
  (∃ e, nvmlInit h0 = Raise e) ∨ (∃ e, nvmlDeviceGetHandleByIndex h0 = Raise e) →
  get_gpu_stats h (serve evs (__init__ h0))
  = (Ok (gpu_zero "GPU Error" "Error"), serve evs (__init__ h0)).
Proof.
  intros En0 En Hf. destruct (init_gpu_failed h0 En0 Hf) as [Hh Hn].
  destruct (serve_fixed evs (__init__ h0)) as (In & Ih & _).
  rewrite Hh in Ih. rewrite Hn in In.
  unfold get_gpu_stats, try_except, bind, get, ret. rewrite En. cbn [negb].
  rewrite Ih, In. reflexivity.
Qed.

Lemma gpu_init_failure_is_permanent_witness :
  get_gpu_stats host_healthy
    (serve [Tick host_healthy]
       (__init__ (with_nvml_init (Raise NVMLError) (Ok tt) (Ok (Str "GeForce"))
                    host_healthy)))
  = (Ok (gpu_zero "GPU Error" "Error"),
     serve [Tick host_healthy]
       (__init__ (with_nvml_init (Raise NVMLError) (Ok tt) (Ok (Str "GeForce"))
                    host_healthy))).
Proof.
  apply (gpu_init_failure_is_permanent
           (with_nvml_init (Raise NVMLError) (Ok tt) (Ok (Str "GeForce")) host_healthy)
           host_healthy [Tick host_healthy]).
  - reflexivity.
  - reflexivity.
  - left. exists NVMLError. reflexivity.
Defined.

(** X17. When only the name query of the constructor fails, the handle is
    kept and the GPU is sampled as usual, under the name "GPU Error": a
    sample whose temperature query gives [t] raises the peak to the maximum
    of the peak and [t], and the record it returns is named "GPU Error". *)
Theorem gpu_name_failure_keeps_sampling (h0 h : Host) (evs : list event) (t : Z) (e : exn) :
  NVIDIA_AVAILABLE h0 = true → NVIDIA_AVAILABLE h = true →
  nvmlInit h0 = Ok tt → nvmlDeviceGetHandleByIndex h0 = Ok tt →
  nvmlDeviceGetName h0 = Raise e →
  nvmlDeviceGetTemperature h = Ok t →
  let s := serve evs (__init__ h0) in
  ∃ d,
    get_gpu_stats h s = (Ok d, set_max_gpu_temp (Z.max (max_gpu_temp s) t) s) ∧
    d !! "name"%string = Some (VStr "GPU Error").
Proof.
  intros En0 En Ei Eh Ename Et s.
  assert (Hh : gpu_handle s = Some tt ∧ gpu_name s = "GPU Error"%string).
  { destruct (serve_fixed evs (__init__ h0)) as (In & Ih & _).
    fold s in In, Ih. rewrite In, Ih.
    cbn. rewrite En0, Ei, Eh, Ename. split; reflexivity. }
  destruct Hh as [Hh Hn].
  destruct (get_gpu_stats_inv h s)
    as [[En' _] | [(_ & Hc & _) | (t' & d & _ & _ & Et' & E & Hd)]].
  - congruence.
  - destruct Hc as [Hc | [e' Hc]]; congruence.
  - rewrite Et in Et'. injection Et' as <-. exists d. split; [exact E |].
    rewrite Hn in Hd. destruct Hd as [-> | (mu & _ & Hd)].
    + apply gpu_zero_lookup.
    + apply gpu_record_inv in Hd as (v1 & v2 & v3 & _ & _ & _ & Hname & _). exact Hname.
Qed.

Lemma gpu_name_failure_keeps_sampling_witness :
  let s := serve [Tick host_failing]
             (__init__ (with_nvml_init (Ok tt) (Ok tt) (Raise NVMLError) host_healthy)) in
  ∃ d,
    get_gpu_stats host_healthy s = (Ok d, set_max_gpu_temp (Z.max (max_gpu_temp s) 61) s) ∧
    d !! "name"%string = Some (VStr "GPU Error").
Proof.
  apply (gpu_name_failure_keeps_sampling
           (with_nvml_init (Ok tt) (Ok tt) (Raise NVMLError) host_healthy)
           host_healthy [Tick host_failing] 61 NVMLError); reflexivity.
Defined.

Lemma round_zero : py_round (NFloat (FFin 0)) 1 = Ok (NFloat (FFin 0)).
Proof. vm_compute. reflexivity. Qed.

Lemma memory_usage_fallback : gpu_memory_usage (NInt 0) (NInt 16) = Ok (NFloat (FFin 0)).
Proof. vm_compute. reflexivity. Qed.

(** X18. The sub-queries fail one by one.  When the temperature query
    answers and the fan, power, utilisation, memory and version queries all
    fail, the record is not blanked: it carries the temperature and the
    peak, and the documented fallback of each failed query (fan 0, power 0
    of 320 W, utilisation 0, memory 0 of 16 GB at 0.0 percent, versions
    "Unknown"). *)
Theorem gpu_fallbacks_of_failed_queries (h : Host) (s : SystemMonitor) (t : Z)
    (e1 e2 e3 e4 e5 : exn) :
  NVIDIA_AVAILABLE h = true → gpu_handle s = Some tt →
  nvmlDeviceGetTemperature h = Ok t →
  nvmlDeviceGetFanSpeed h = Raise e1 →
  nvmlDeviceGetPowerUsage h = Raise e2 →
  nvmlDeviceGetUtilizationRates h = Raise e3 →
  nvmlDeviceGetMemoryInfo h = Raise e4 →
  nvmlSystemGetDriverVersion h = Raise e5 →
  get_gpu_stats h s
  = (Ok (dict_of [("name", VStr (gpu_name s));
                  ("temperature", VInt t);
                  ("max_temp", VInt (Z.max (max_gpu_temp s) t));
                  ("fan_speed", VInt 0);
                  ("fan_percent", VInt 0);
                  ("power_draw", VInt 0);
                  ("max_power", VInt 320);
                  ("usage", VInt 0);
                  ("memory_usage", VFloat (FFin 0));
                  ("memory_used", VInt 0);
                  ("memory_total", VInt 16);
                  ("driver_version", VStr "Unknown");
                  ("cuda_version", VStr "Unknown")]%string),
     set_max_gpu_temp (Z.max (max_gpu_temp s) t) s).
Proof.
  intros En Eh Et E1 E2 E3 E4 E5.
  unfold get_gpu_stats, try_except, bind, lift, get, modify, ret.
  rewrite En. cbn [negb]. rewrite Eh, Et. cbv beta iota.
  unfold gpu_memory, gpu_power, gpu_fan_speed, gpu_utilization, gpu_versions.
  rewrite E1, E2, E3, E4, E5. cbn [rbind or_default fst snd].
  rewrite memory_usage_fallback. cbv beta iota.
  unfold gpu_record. cbn [fst snd]. rewrite round_zero.
  cbn [py_round rbind of_num]. reflexivity.
Qed.

Lemma gpu_fallbacks_of_failed_queries_witness :
  get_gpu_stats (host_with_gpu (Ok 64)) (__init__ (host_with_gpu (Ok 64)))
  = (Ok (dict_of [("name", VStr (gpu_name (__init__ (host_with_gpu (Ok 64)))));
                  ("temperature", VInt 64);
                  ("max_temp", VInt (Z.max (max_gpu_temp (__init__ (host_with_gpu (Ok 64)))) 64));
                  ("fan_speed", VInt 0);
                  ("fan_percent", VInt 0);
                  ("power_draw", VInt 0);
                  ("max_power", VInt 320);
                  ("usage", VInt 0);
                  ("memory_usage", VFloat (FFin 0));
                  ("memory_used", VInt 0);
                  ("memory_total", VInt 16);
                  ("driver_version", VStr "Unknown");
                  ("cuda_version", VStr "Unknown")]%string),
     set_max_gpu_temp (Z.max (max_gpu_temp (__init__ (host_with_gpu (Ok 64)))) 64)
       (__init__ (host_with_gpu (Ok 64)))).
Proof.
  apply (gpu_fallbacks_of_failed_queries (host_with_gpu (Ok 64))
           (__init__ (host_with_gpu (Ok 64))) 64
           NVMLError NVMLError NVMLError NVMLError NVMLError); reflexivity.
Defined.

Lemma gpu_power_limit_fails (h : Host) (e : exn) :
  nvmlDeviceGetPowerManagementLimitConstraints h = Raise e →
  gpu_power h = (NInt 0, NInt 320).
Proof.
  intros E. unfold gpu_power. rewrite E.
  destruct (nvmlDeviceGetPowerUsage h) as [mw |]; cbn [rbind or_default]; [| reflexivity].
  destruct (py_truediv (NInt mw) (NInt 1000)); reflexivity.
Qed.

(** X19. The power draw and the power limit are read in one [try]: when
    the limit query fails, a power draw that was read is thrown away with
    it, and every record reports a power draw of 0 (with the fallback
    limit of 320 W, or 0 in the zeroed record). *)
Theorem power_draw_lost_with_limit (h : Host) (s : SystemMonitor) (e : exn) :
  nvmlDeviceGetPowerManagementLimitConstraints h = Raise e →
  ∃ d,
    fst (get_gpu_stats h s) = Ok d ∧
    d !! "power_draw"%string = Some (VInt 0) ∧
    (d !! "max_power"%string = Some (VInt 320) ∨ d !! "max_power"%string = Some (VInt 0)).
Proof.
  intros El.
  destruct (get_gpu_stats_inv h s)
    as [[_ ->] | [(_ & _ & ->) | (t & d & _ & _ & _ & -> & Hd)]];
    eexists; (split; [reflexivity |]);
    try (split; [| right]; apply gpu_zero_lookup).
  destruct Hd as [-> | (mu & _ & Hd)]; [split; [| right]; apply gpu_zero_lookup |].
  rewrite (gpu_power_limit_fails h e El) in Hd.
  apply gpu_record_inv in Hd
    as (v1 & v2 & v3 & E1 & E2 & _ & _ & _ & _ & _ & _ & Hp & Hm & _).
  cbn in E1, E2. injection E1 as <-. injection E2 as <-. auto.
Qed.

Lemma power_draw_lost_with_limit_witness :
  ∃ d,
    fst (get_gpu_stats (with_power (Ok 180500) (Raise NVMLError) host_healthy)
           (__init__ host_healthy)) = Ok d ∧
    d !! "power_draw"%string = Some (VInt 0) ∧
    (d !! "max_power"%string = Some (VInt 320) ∨ d !! "max_power"%string = Some (VInt 0)).
Proof.
  apply (power_draw_lost_with_limit (with_power (Ok 180500) (Raise NVMLError) host_healthy)
           (__init__ host_healthy) NVMLError).
  reflexivity.
Defined.

(** X20. Every record [get_gpu_stats] returns is consistent: the
    temperature it reports is not above the [max_temp] it reports, and
    [fan_speed] is 22 times [fan_percent]. *)
Theorem gpu_record_is_consistent (h : Host) (s : SystemMonitor) :
  ∃ d temperature peak fan,
    fst (get_gpu_stats h s) = Ok d ∧
    d !! "temperature"%string = Some (VInt temperature) ∧
    d !! "max_temp"%string = Some (VInt peak) ∧
    temperature ≤ peak ∧
    d !! "fan_percent"%string = Some (VInt fan) ∧
    d !! "fan_speed"%string = Some (VInt (fan * 22)).
Proof.
  assert (Hz : ∀ name version,
    gpu_zero name version !! "temperature"%string = Some (VInt 0) ∧
    gpu_zero name version !! "max_temp"%string = Some (VInt 0) ∧ 0 ≤ 0 ∧
    gpu_zero name version !! "fan_percent"%string = Some (VInt 0) ∧
    gpu_zero name version !! "fan_speed"%string = Some (VInt (0 * 22))).
  { intros name version. repeat split; try apply gpu_zero_lookup. lia. }
  destruct (get_gpu_stats_inv h s)
    as [[_ ->] | [(_ & _ & ->) | (t & d & _ & _ & _ & -> & Hd)]].
  - eexists _, 0, 0, 0. split; [reflexivity | apply Hz].
  - eexists _, 0, 0, 0. split; [reflexivity | apply Hz].
  - destruct Hd as [-> | (mu & _ & Hd)].
    + eexists _, 0, 0, 0. split; [reflexivity | apply Hz].
    + apply gpu_record_inv in Hd
        as (v1 & v2 & v3 & _ & _ & _ & _ & Ht & Hp & Hs & Hf & _).
      exists d, t, (Z.max (max_gpu_temp s) t), (gpu_fan_speed h).
      repeat split; try assumption. lia.
Qed.

(** * Rounding keeps a value below an integer bound *)

Lemma round_half_even_le (q : Q) (n : Z) : (q <= inject_Z n)%Q → round_half_even q ≤ n.
Proof.
  intros H. pose proof (Qfloor_le q) as Hf.
  assert (Hfn : Qfloor q ≤ n) by (rewrite Zle_Qle; lra).
  destruct (Z.eq_dec (Qfloor q) n) as [E | N].
  - unfold round_half_even.
    assert (L : (q - inject_Z (Qfloor q) ?= 1 # 2)%Q = Lt).
    { rewrite E. apply (proj1 (Qlt_alt _ _)). lra. }
    rewrite L. lia.
  - destruct (round_half_even_range q) as [-> | ->]; lia.
Qed.

Lemma float_round_le (q : Q) (n : Z) (f : pyfloat) :
  (q <= inject_Z n)%Q → float_round (FFin q) 1 = Ok f →
  ∃ r, f = FFin r ∧ (r <= inject_Z n)%Q.
Proof.
  intros Hq. cbn. destruct (overflows _); [discriminate |].
  intros [= <-]. eexists; split; [reflexivity |]. rewrite Qred_correct.
  change (inject_Z (10 ^ Z.of_nat 1)) with (10 # 1)%Q.
  apply Qle_shift_div_r; [reflexivity |].
  assert (Hk : round_half_even (q * (10 # 1)) ≤ n * 10).
  { apply round_half_even_le. rewrite inject_Z_mult.
    change (inject_Z 10) with (10 # 1)%Q. lra. }
  rewrite Zle_Qle, inject_Z_mult in Hk.
  change (inject_Z 10) with (10 # 1)%Q in Hk. exact Hk.
Qed.

(** The share of GPU memory in use, before rounding, lies in [0,100]. *)
Lemma gpu_memory_usage_range (h : Host) (mu : num) :
  match nvmlDeviceGetMemoryInfo h with
  | Ok mi => 0 ≤ mem_used mi ≤ mem_total mi ∧ mem_total mi < 2 ^ 64
  | Raise _ => True
  end →
  gpu_memory_usage (fst (gpu_memory h)) (snd (gpu_memory h)) = Ok mu →
  mu = NInt 0 ∨ ∃ x, mu = NFloat (FFin x) ∧ (0 <= x)%Q ∧ (x <= 100)%Q.
Proof.
  intros Hm.
  destruct (gpu_memory_cases h) as [-> | (mi & Emi & ->)]; cbn [fst snd].
  - rewrite memory_usage_fallback. intros [= <-]. right. exists 0%Q. split; [reflexivity | lra].
  - rewrite Emi in Hm. destruct Hm as [Hu Ht].
    assert (Hu' : 0 ≤ mem_used mi < 2 ^ 64) by lia.
    apply inject_Z_range in Hu' as [Hu0 Hu1].
    assert (Hut : (inject_Z (mem_used mi) <= inject_Z (mem_total mi))%Q)
      by (rewrite <- Zle_Qle; lia).
    pose proof (Qred_correct (inject_Z (mem_used mi) / inject_Z (1024 ^ 3))) as Ea.
    pose proof (Qred_correct (inject_Z (mem_total mi) / inject_Z (1024 ^ 3))) as Eb.
    set (a := Qred (inject_Z (mem_used mi) / inject_Z (1024 ^ 3))) in *.
    set (b := Qred (inject_Z (mem_total mi) / inject_Z (1024 ^ 3))) in *.
    unfold Qdiv in Ea, Eb.
    change (/ inject_Z (1024 ^ 3))%Q with (1 # 1073741824)%Q in Ea, Eb.
    unfold gpu_memory_usage, py_gt, py_lt. cbn [exact float_ltb].
    destruct (Qltb (inject_Z 0) b) eqn:Eg; [| intros [= <-]; left; reflexivity].
    apply Qltb_true in Eg. change (inject_Z 0) with 0%Q in Eg.
    unfold py_truediv. cbn [to_float rbind float_is_zero].
    assert (Ez : Qeqb b 0 = false).
    { unfold Qeqb. destruct (Qeq_bool b 0) eqn:E; [| reflexivity].
      apply Qeq_bool_iff in E. lra. }
    rewrite Ez. cbn [float_div rbind].
    assert (Hr0 : (0 <= a / b)%Q) by (apply Qle_shift_div_l; lra).
    assert (Hr1 : (a / b <= 1)%Q) by (apply Qle_shift_div_r; lra).
    pose proof float_bound_numeral as HB.
    assert (Hv : (Qabs (a / b) < float_bound)%Q) by (apply Qabs_Qlt_condition; lra).
    rewrite (fl_finite _ Hv). rewrite py_mul_float_int by lia. cbn [float_mul].
    pose proof (Qred_correct (a / b)) as Er. set (r := Qred (a / b)) in *.
    assert (Hv2 : (Qabs (r * inject_Z 100) < float_bound)%Q).
    { apply Qabs_Qlt_condition. change (inject_Z 100) with (100 # 1)%Q. lra. }
    rewrite (fl_finite _ Hv2). intros [= <-]. right. eexists. split; [reflexivity |].
    rewrite Qred_correct. change (inject_Z 100) with (100 # 1)%Q. lra.
Qed.

(** X21. When the driver reports no more memory in use than there is
    (64-bit sizes), the [memory_usage] of every record is a percentage: a
    finite number between 0 and 100, after rounding too. *)
Theorem gpu_memory_usage_is_a_percentage (h : Host) (s : SystemMonitor) :
  match nvmlDeviceGetMemoryInfo h with
  | Ok mi => 0 ≤ mem_used mi ≤ mem_total mi ∧ mem_total mi < 2 ^ 64
  | Raise _ => True
  end →
  ∃ d v,
    fst (get_gpu_stats h s) = Ok d ∧
    d !! "memory_usage"%string = Some v ∧ in_percent v.
Proof.
  intros Hm.
  assert (Hz : ∀ name version,
    gpu_zero name version !! "memory_usage"%string = Some (VInt 0) ∧ in_percent (VInt 0)).
  { intros. split; [apply gpu_zero_lookup | cbn; lia]. }
  destruct (get_gpu_stats_inv h s)
    as [[_ ->] | [(_ & _ & ->) | (t & d & _ & _ & _ & -> & Hd)]];
    try (eexists _, (VInt 0); split; [reflexivity | apply Hz]).
  destruct Hd as [-> | (mu & Emu & Hd)];
    [eexists _, (VInt 0); split; [reflexivity | apply Hz] |].
  apply gpu_record_inv in Hd as (v1 & v2 & v3 & _ & _ & E3 & _ & _ & _ & _ & _ & _ & _ & Hu).
  exists d, (of_num v3). split; [reflexivity |]. split; [exact Hu |].
  destruct (gpu_memory_usage_range h mu Hm Emu) as [-> | (x & -> & Hx0 & Hx1)].
  - cbn in E3. injection E3 as <-. cbn. lia.
  - cbn [py_round] in E3.
    destruct (float_round (FFin x) 1) as [f |] eqn:Ef; cbn in E3; [| discriminate].
    injection E3 as <-.
    destruct (float_round_nonneg x 1 f Hx0 Ef) as (r & -> & Hr0).
    destruct (float_round_le x 100 (FFin r) Hx1 Ef) as (r' & [= <-] & Hr1).
    split; assumption.
Qed.

Lemma gpu_memory_usage_is_a_percentage_witness :
  ∃ d v,
    fst (get_gpu_stats host_healthy (__init__ host_healthy)) = Ok d ∧
    d !! "memory_usage"%string = Some v ∧ in_percent v.
Proof.
  apply (gpu_memory_usage_is_a_percentage host_healthy (__init__ host_healthy)).
  cbn. lia.
Defined.

(** * More on the network deriver *)

(** X22. The upper clamp of the usage percent always works: whatever the
    counters and the baseline are, the [usage] of the record is a number
    that is at most 100. *)
Theorem usage_never_above_100 (h : Host) (s : SystemMonitor) :
  ∃ d v,
    fst (get_network_stats h s) = Ok d ∧
    d !! "usage"%string = Some v ∧ at_most_100 v.
Proof.
  destruct (get_network_stats_inv h s)
    as [E | [(cur & _ & E) |
             (cur & base & up & down & ts & tr & usage & v1 & v2 & v3 & v4 & v5 &
              _ & _ & Eu & Ed & _ & _ & Eus & E1 & _ & _ & _ & _ & E)]];
    rewrite E; cbn [fst].
  - exists zero_network, (VInt 0). repeat split. cbn. lia.
  - exists zero_network, (VInt 0). repeat split. cbn. lia.
  - eexists _, (of_num v1). split; [reflexivity |]. split; [reflexivity |].
    apply to_mbps_number in Eu as [Fu Nu]. apply to_mbps_number in Ed as [Fd Nd].
    assert (Hm : is_float (py_max up down) ∧ not_nan (py_max up down))
      by (destruct (py_max_cases up down) as [-> | ->]; auto).
    destruct Hm as [Fm Nm]. destruct (py_max up down) as [| fm]; [contradiction |].
    destruct (py_truediv (NFloat fm) (NInt 100)) as [r |] eqn:Er; cbn [rbind] in Eus;
      [| discriminate].
    apply py_truediv_const in Er as [Fr Nr]; [| lia | destruct fm; cbn in Nm; congruence].
    destruct r as [| fr]; [contradiction |].
    apply py_mul_const in Eus as [Fus Nus]; [| lia | destruct fr; cbn in Nr; congruence].
    destruct usage as [| [q | [] |]]; try contradiction.
    + unfold py_min, py_lt in E1. cbn [exact float_ltb] in E1.
      destruct (Qltb (inject_Z 100) q) eqn:El.
      * cbn in E1. injection E1 as <-. cbn. lia.
      * apply Qltb_false in El. cbn [py_round] in E1.
        destruct (float_round (FFin q) 1) as [f |] eqn:Ef; cbn in E1; [| discriminate].
        injection E1 as <-.
        destruct (float_round_le q 100 f El Ef) as (r & -> & Hr). exact Hr.
    + cbn in E1. injection E1 as <-. exact I.
    + cbn in E1. injection E1 as <-. cbn. lia.
Qed.











(** * More on the disk adapter *)

Lemma disk_entry_fields (h : Host) (linux : bool) (p : sdiskpart)
    (name : string) (entry : pydict) :
  disk_entry h linux p = Ok (name, entry) →
  name = disk_name linux p ∧
  (∃ usage, disk_usage h (mountpoint p) = Ok usage) ∧
  entry !! "label"%string = Some (VStr (display_name linux p)) ∧
  entry !! "fstype"%string = Some (VStr (fstype p)).
Proof.
  unfold disk_entry.
  destruct (disk_usage h _) as [usage |]; cbn [rbind]; [| discriminate].
  destruct (py_truediv (NInt (du_used usage)) _) as [used |]; cbn [rbind]; [| discriminate].
  destruct (py_round used 1) as [v1 |]; cbn [rbind]; [| discriminate].
  destruct (py_truediv (NInt (du_total usage)) _) as [total |]; cbn [rbind];
    [| discriminate].
  destruct (py_round total 1) as [v2 |]; cbn [rbind]; [| discriminate].
  intros [= <- <-]. split; [reflexivity |]. split; [eauto |].
  split; vm_compute; reflexivity.
Qed.

Lemma disk_loop_origin (h : Host) (linux : bool) (partitions : list sdiskpart)
    (disks : gmap string pydict) (name : string) (entry : pydict) :
  disk_loop h linux partitions disks !! name = Some entry →
  disks !! name = Some entry ∨
  ∃ p, In p partitions ∧ skipped linux p = false ∧
       disk_entry h linux p = Ok (name, entry).
Proof.
  revert disks. induction partitions as [| p rest IH]; intros disks; [auto |].
  cbn [disk_loop]. destruct (skipped linux p) eqn:Es.
  - intros H. destruct (IH _ H) as [? | (p' & Hin & ?)]; [auto |].
    right. exists p'. split; [right; exact Hin | assumption].
  - destruct (disk_entry h linux p) as [[key new] | e] eqn:E.
    + intros H. destruct (IH _ H) as [Hl | (p' & Hin & ?)].
      * rewrite lookup_insert in Hl. destruct (decide (key = name)) as [-> |]; [| auto].
        injection Hl as <-. right. exists p. split; [left; reflexivity | auto].
      * right. exists p'. split; [right; exact Hin | assumption].
    + destruct (is_OSError e); [| auto].
      intros H. destruct (IH _ H) as [? | (p' & Hin & ?)]; [auto |].
      right. exists p'. split; [right; exact Hin | assumption].
Qed.

(** X24. Every entry of the disk map comes from a partition that passed
    the filter and whose usage query answered: its key is the identifier
    derived from that partition, its label and [fstype] are the
    partition's.  On Linux, therefore, no entry has one of the pseudo
    filesystem types, and no entry's mount point lies under /sys, /proc,
    /dev, /run or /snap. *)
Theorem disk_entries_come_from_kept_partitions
    (h : Host) (s : SystemMonitor) (name : string) (entry : pydict) :
  (∃ disks, fst (get_disk_stats h s) = Ok disks ∧ disks !! name = Some entry) →
  ∃ partitions p usage,
    disk_partitions h = Ok partitions ∧ In p partitions ∧
    skipped (is_linux s) p = false ∧
    disk_usage h (mountpoint p) = Ok usage ∧
    name = disk_name (is_linux s) p ∧
    entry !! "label"%string = Some (VStr (display_name (is_linux s) p)) ∧
    entry !! "fstype"%string = Some (VStr (fstype p)) ∧
    (is_linux s = true →
       ¬ In (fstype p) skip_types ∧
       ∀ skip, In skip skip_mounts → String.prefix skip (mountpoint p) = false).
Proof.
  intros (disks & E & Hl). unfold get_disk_stats, bind, get, ret in E. cbn in E.
  injection E as <-.
  destruct (disk_partitions h) as [partitions |]; [| rewrite lookup_empty in Hl; discriminate].
  apply disk_loop_origin in Hl as [Hl | (p & Hin & Hs & He)];
    [rewrite lookup_empty in Hl; discriminate |].
  apply disk_entry_fields in He as (Hn & [usage Hu] & Hlab & Hfs).
  exists partitions, p, usage.
  split; [reflexivity |]. split; [exact Hin |]. split; [exact Hs |].
  split; [exact Hu |]. split; [exact Hn |]. split; [exact Hlab |]. split; [exact Hfs |].
  intros Hlinux. unfold skipped in Hs. rewrite Hlinux in Hs.
  apply orb_false_iff in Hs as [Ht Hm]. split.
  - intros Hf.
    assert (Hc : existsb (String.eqb (fstype p)) skip_types = true); [| congruence].
    apply existsb_exists. exists (fstype p). split; [exact Hf | apply String.eqb_refl].
  - intros skip Hin'.
    destruct (String.prefix skip (mountpoint p)) eqn:Ep; [| reflexivity].
    assert (Hc : existsb (λ skip, String.prefix skip (mountpoint p)) skip_mounts = true);
      [| congruence].
    apply existsb_exists. exists skip. auto.
Qed.

Lemma disk_entries_come_from_kept_partitions_witness :
  ∃ partitions p usage,
    disk_partitions host_healthy = Ok partitions ∧ In p partitions ∧
    skipped (is_linux (__init__ host_healthy)) p = false ∧
    disk_usage host_healthy (mountpoint p) = Ok usage ∧
    "root"%string = disk_name (is_linux (__init__ host_healthy)) p ∧
    (dict_of [("used", VFloat (FFin (559 # 5))); ("total", VFloat (FFin (4657 # 10)));
              ("label", VStr "/"); ("fstype", VStr "ext4")]%string : pydict)
      !! "label"%string
      = Some (VStr (display_name (is_linux (__init__ host_healthy)) p)) ∧
    (dict_of [("used", VFloat (FFin (559 # 5))); ("total", VFloat (FFin (4657 # 10)));
              ("label", VStr "/"); ("fstype", VStr "ext4")]%string : pydict)
      !! "fstype"%string = Some (VStr (fstype p)) ∧
    (is_linux (__init__ host_healthy) = true →
       ¬ In (fstype p) skip_types ∧
       ∀ skip, In skip skip_mounts → String.prefix skip (mountpoint p) = false).
Proof.
  apply (disk_entries_come_from_kept_partitions host_healthy (__init__ host_healthy)
           "root"
           (dict_of [("used", VFloat (FFin (559 # 5))); ("total", VFloat (FFin (4657 # 10)));
                     ("label", VStr "/"); ("fstype", VStr "ext4")]%string)).
  eexists. split; [reflexivity |]. vm_compute. reflexivity.
Defined.

Lemma disk_entry_raises (h : Host) (linux : bool) (p : sdiskpart) (e : exn) :
  disk_usage h (mountpoint p) = Raise e → disk_entry h linux p = Raise e.
Proof. intros E. unfold disk_entry. rewrite E. reflexivity. Qed.

(** X25. A usage query that fails with [PermissionError] or [OSError]
    costs only its own partition: the loop goes on as if the partition
    were not in the table.  A query that fails with any other exception
    ends the loop: the entries made so far are returned and every later
    partition is dropped. *)
Theorem disk_usage_failure_skips_or_stops
    (h : Host) (linux : bool) (before after : list sdiskpart) (p : sdiskpart)
    (disks : gmap string pydict) (e : exn) :
  skipped linux p = false → disk_usage h (mountpoint p) = Raise e →
  disk_loop h linux (before ++ p :: after) disks
  = if is_OSError e
    then disk_loop h linux (before ++ after) disks
    else disk_loop h linux before disks.
Proof.
  intros Hs Hu. apply (disk_entry_raises h linux) in Hu.
  revert disks. induction before as [| b rest IH]; intros disks.
  - cbn [app disk_loop]. rewrite Hs, Hu. destruct (is_OSError e); reflexivity.
  - cbn [app disk_loop]. destruct (skipped linux b); [apply IH |].
    destruct (disk_entry h linux b) as [[key new] | e'].
    + apply IH.
    + destruct (is_OSError e'); [apply IH |]. destruct (is_OSError e); reflexivity.
Qed.

Lemma disk_usage_failure_skips_or_stops_witness :
  disk_loop host_healthy true ([part_root] ++ part_data :: [part_srv]) ∅
  = if is_OSError PermissionError
    then disk_loop host_healthy true ([part_root] ++ [part_srv]) ∅
    else disk_loop host_healthy true [part_root] ∅.
Proof.
  apply (disk_usage_failure_skips_or_stops host_healthy true [part_root] [part_srv]
           part_data ∅ PermissionError); reflexivity.
Defined.

(** X26. The identifier is not unique per volume: two partitions whose
    mount paths or devices give the same identifier share one key, and the
    map keeps only the entry of the later one. *)
Theorem disk_identifier_collision_keeps_last
    (h : Host) (linux : bool) (p1 p2 : sdiskpart) (name : string) (e1 e2 : pydict) :
  skipped linux p1 = false → skipped linux p2 = false →
  disk_entry h linux p1 = Ok (name, e1) → disk_entry h linux p2 = Ok (name, e2) →
  disk_loop h linux [p1; p2] ∅ = {[name := e2]}.
Proof.
  intros S1 S2 E1 E2. cbn [disk_loop]. rewrite S1, E1, S2, E2.
  rewrite insert_insert_eq. reflexivity.
Qed.

Lemma disk_identifier_collision_keeps_last_witness :
  disk_loop (host_with_disks []) true [part_a_b; part_a_b'] ∅
  = {["a_b"%string :=
        dict_of [("used", VFloat (FFin (559 # 5))); ("total", VFloat (FFin (4657 # 10)));
                 ("label", VStr "/a_b"); ("fstype", VStr "xfs")]%string]}.
Proof.
  apply (disk_identifier_collision_keeps_last (host_with_disks []) true
           part_a_b part_a_b' "a_b"
           (dict_of [("used", VFloat (FFin (559 # 5))); ("total", VFloat (FFin (4657 # 10)));
                     ("label", VStr "/a/b"); ("fstype", VStr "ext4")]%string)
           (dict_of [("used", VFloat (FFin (559 # 5))); ("total", VFloat (FFin (4657 # 10)));
                     ("label", VStr "/a_b"); ("fstype", VStr "xfs")]%string));
    vm_compute; reflexivity.
Defined.

(** ** The identifiers *)

Lemma lstrip_char_idem (c : ascii) (s : string) :
  lstrip_char c (lstrip_char c s) = lstrip_char c s.
Proof.
  induction s as [| a r IH]; [reflexivity |].
  cbn [lstrip_char]. destruct (Ascii.eqb a c) eqn:E; [exact IH |].
  cbn [lstrip_char]. rewrite E. reflexivity.
Qed.

Lemma rstrip_char_idem (c : ascii) (s : string) :
  rstrip_char c (rstrip_char c s) = rstrip_char c s.
Proof.
  induction s as [| a r IH]; [reflexivity |].
  cbn [rstrip_char]. destruct (rstrip_char c r) as [| b r'] eqn:Er.
  - destruct (Ascii.eqb a c) eqn:E; [reflexivity |]. cbn [rstrip_char]. rewrite E.
    reflexivity.
  - cbn [rstrip_char]. cbn [rstrip_char] in IH.
    destruct (rstrip_char c r') as [| b' r''] eqn:Er'.
    + destruct (Ascii.eqb b c); [discriminate IH |]. rewrite IH. reflexivity.
    + rewrite IH. reflexivity.
Qed.

(** Stripping on the right leaves a string that does not start with [c]
    so. *)
Lemma lstrip_rstrip (c : ascii) (s : string) :
  lstrip_char c s = s → lstrip_char c (rstrip_char c s) = rstrip_char c s.
Proof.
  destruct s as [| a r]; [reflexivity |].
  cbn [lstrip_char]. destruct (Ascii.eqb a c) eqn:E.
  - intros H. exfalso.
    assert (L : ∀ t, (String.length (lstrip_char c t) <= String.length t)%nat).
    { induction t as [| x t IHt]; cbn; [lia |]. destruct (Ascii.eqb x c); cbn; lia. }
    specialize (L r). rewrite H in L. cbn in L. lia.
  - intros _. cbn [rstrip_char].
    destruct (rstrip_char c r); [rewrite E |]; cbn [lstrip_char]; rewrite E; reflexivity.
Qed.

Lemma strip_char_idem (c : ascii) (s : string) :
  strip_char c (strip_char c s) = strip_char c s.
Proof.
  unfold strip_char.
  rewrite (lstrip_rstrip c (lstrip_char c s)) by apply lstrip_char_idem.
  apply rstrip_char_idem.
Qed.

Lemma has_char_lstrip (c d : ascii) (s : string) :
  has_char c s = false → has_char c (lstrip_char d s) = false.
Proof.
  induction s as [| a r IH]; [reflexivity |].
  cbn [has_char lstrip_char]. intros H. apply orb_false_iff in H as [H1 H2].
  destruct (Ascii.eqb a d); [apply IH; exact H2 |]. cbn [has_char]. rewrite H1, H2.
  reflexivity.
Qed.

Lemma has_char_rstrip (c d : ascii) (s : string) :
  has_char c s = false → has_char c (rstrip_char d s) = false.
Proof.
  induction s as [| a r IH]; [reflexivity |].
  cbn [has_char rstrip_char]. intros H. apply orb_false_iff in H as [H1 H2].
  specialize (IH H2). destruct (rstrip_char d r).
  - destruct (Ascii.eqb a d); [reflexivity |]. cbn [has_char]. rewrite H1. reflexivity.
  - cbn [has_char] in *. rewrite H1, IH. reflexivity.
Qed.

Lemma has_char_replace (c d : ascii) (s : string) :
  c ≠ d → has_char c (replace_char c d s) = false.
Proof.
  intros Hne. induction s as [| a r IH]; [reflexivity |].
  cbn [replace_char has_char]. rewrite IH, orb_false_r.
  destruct (Ascii.eqb a c) eqn:E; [| exact E].
  apply Ascii.eqb_neq. congruence.
Qed.

(** X27. On Linux the identifier of a volume is never empty, holds no
    slash, and neither starts nor ends with an underscore (stripping it
    again changes nothing); the root file system is "root". *)
Theorem linux_disk_identifier_is_clean (p : sdiskpart) :
  disk_name true p ≠ EmptyString ∧
  has_char "/" (disk_name true p) = false ∧
  strip_char "_" (disk_name true p) = disk_name true p ∧
  (mountpoint p = "/"%string → disk_name true p = "root"%string).
Proof.
  unfold disk_name.
  set (name := strip_char "_" (replace_char "/" "_" (mountpoint p))).
  assert (Hs : has_char "/" name = false).
  { unfold name, strip_char. apply has_char_rstrip, has_char_lstrip, has_char_replace.
    discriminate. }
  assert (Hi : strip_char "_" name = name) by apply strip_char_idem.
  repeat split.
  - destruct (String.eqb name EmptyString) eqn:E; [discriminate |].
    apply String.eqb_neq in E. exact E.
  - destruct (String.eqb name EmptyString); [reflexivity | exact Hs].
  - destruct (String.eqb name EmptyString); [reflexivity | exact Hi].
  - intros Hm. unfold name. rewrite Hm. reflexivity.
Qed.

(** * More on the CPU and memory adapters *)

Lemma round_five : py_round (NFloat (FFin 5)) 1 = Ok (NFloat (FFin 5)).
Proof. vm_compute. reflexivity. Qed.

(** X28. Without frequency information the CPU record reports the
    frequency 0, and the maximum 5.0 stands in whenever the maximum is
    unknown: the frequency query returned nothing or failed, or the
    maximum it returned is zero. *)
Theorem cpu_frequency_fallbacks (h : Host) :
  match cpu_freq h with
  | Ok (Some fr) => ∃ q, freq_max fr = FFin q ∧ (q == 0)%Q
  | _ => True
  end →
  get_cpu_stats h !! "max_frequency"%string = Some (VFloat (FFin 5)) ∧
  (cpu_freq h = Ok None → get_cpu_stats h !! "frequency"%string = Some (VInt 0)).
Proof.
  intros Hm. unfold get_cpu_stats.
  destruct (cpu_percent h) as [cp |]; cbn [rbind or_default];
    [| split; [| intros _]; vm_compute; reflexivity].
  destruct (cpu_freq h) as [[fr |] |]; cbn [rbind or_default];
    [| | split; [vm_compute; reflexivity | discriminate]].
  - split; [| discriminate]. destruct Hm as (q & Eq & Hq). rewrite Eq.
    assert (Hb : py_bool (NFloat (FFin q)) = false).
    { cbn. unfold Qeqb. apply negb_false_iff, Qeq_bool_iff. exact Hq. }
    rewrite Hb.
    destruct (py_truediv (NFloat (freq_current fr)) (NInt 1000)) as [cur |];
      cbn [rbind or_default fst snd]; [| vm_compute; reflexivity].
    destruct (py_round (NFloat cp) 1) as [v1 |]; cbn [rbind or_default];
      [| vm_compute; reflexivity].
    destruct (py_round cur 1) as [v2 |]; cbn [rbind or_default];
      [| vm_compute; reflexivity].
    rewrite round_five. cbn [rbind or_default]. vm_compute. reflexivity.
  - cbn [fst snd].
    destruct (py_round (NFloat cp) 1) as [v1 |]; cbn [rbind or_default];
      [| split; [| intros _]; vm_compute; reflexivity].
    rewrite round_five. cbn [py_round rbind or_default].
    split; [| intros _]; vm_compute; reflexivity.
Qed.

Lemma cpu_frequency_fallbacks_witness :
  get_cpu_stats host_failing !! "max_frequency"%string = Some (VFloat (FFin 5)) ∧
  (cpu_freq host_failing = Ok None →
   get_cpu_stats host_failing !! "frequency"%string = Some (VInt 0)).
Proof. apply (cpu_frequency_fallbacks host_failing). exact I. Defined.

Lemma py_round_percent (p : Q) (v : num) :
  (0 <= p)%Q → (p <= 100)%Q → py_round (NFloat (FFin p)) 1 = Ok v → in_percent (of_num v).
Proof.
  intros H0 H1. cbn [py_round].
  destruct (float_round (FFin p) 1) as [f |] eqn:Ef; cbn; [| discriminate].
  intros [= <-].
  destruct (float_round_nonneg p 1 f H0 Ef) as (r & -> & Hr0).
  destruct (float_round_le p 100 (FFin r) H1 Ef) as (r' & [= <-] & Hr1).
  split; assumption.
Qed.

Lemma get_cpu_stats_cases (h : Host) :
  get_cpu_stats h = cpu_fallback ∨
  ∃ cp v1 v2 v3,
    cpu_percent h = Ok cp ∧ py_round (NFloat cp) 1 = Ok v1 ∧
    get_cpu_stats h
    = dict_of [("usage", of_num v1); ("frequency", of_num v2);
               ("max_frequency", of_num v3)]%string.
Proof.
  unfold get_cpu_stats.
  destruct (cpu_percent h) as [cp |]; cbn [rbind or_default]; [| auto].
  destruct (cpu_freq h) as [fr |]; cbn [rbind or_default]; [| auto].
  destruct (match fr with Some _ => _ | None => _ end) as [freqs |];
    cbn [rbind or_default]; [| auto].
  destruct (py_round (NFloat cp) 1) as [v1 |] eqn:E1; cbn [rbind or_default]; [| auto].
  destruct (py_round (fst freqs) 1) as [v2 |]; cbn [rbind or_default]; [| auto].
  destruct (py_round (snd freqs) 1) as [v3 |]; cbn [rbind or_default]; [| auto].
  right. exists cp, v1, v2, v3. auto.
Qed.

Lemma get_memory_stats_cases (h : Host) :
  get_memory_stats h = memory_fallback ∨
  ∃ m v1 v2 v3,
    virtual_memory h = Ok m ∧ py_round (NFloat (vm_percent m)) 1 = Ok v1 ∧
    get_memory_stats h
    = dict_of [("usage_percent", of_num v1); ("used_gb", of_num v2);
               ("total_gb", of_num v3)]%string.
Proof.
  unfold get_memory_stats.
  destruct (virtual_memory h) as [m |]; cbn [rbind or_default]; [| auto].
  destruct (py_round (NFloat (vm_percent m)) 1) as [v1 |] eqn:E1; cbn [rbind or_default];
    [| auto].
  destruct (py_truediv (NInt (vm_used m)) _) as [used |]; cbn [rbind or_default]; [| auto].
  destruct (py_round used 1) as [v2 |]; cbn [rbind or_default]; [| auto].
  destruct (py_truediv (NInt (vm_total m)) _) as [total |]; cbn [rbind or_default];
    [| auto].
  destruct (py_round total 1) as [v3 |]; cbn [rbind or_default]; [| auto].
  right. exists m, v1, v2, v3. auto.
Qed.

(** X29. A percentage stays a percentage: when the provider's CPU usage
    lies in [0,100], so does the [usage] of the CPU record, rounded or
    replaced by the fallback 0; and the same holds for the memory usage
    percent. *)
Theorem provider_percentages_stay_in_range (h : Host) :
  match cpu_percent h with
  | Ok (FFin p) => (0 <= p)%Q ∧ (p <= 100)%Q
  | Ok _ => False
  | Raise _ => True
  end →
  match virtual_memory h with
  | Ok m => ∃ p, vm_percent m = FFin p ∧ (0 <= p)%Q ∧ (p <= 100)%Q
  | Raise _ => True
  end →
  (∃ v, get_cpu_stats h !! "usage"%string = Some v ∧ in_percent v) ∧
  (∃ v, get_memory_stats h !! "usage_percent"%string = Some v ∧ in_percent v).
Proof.
  intros Hc Hm.
  assert (Z0 : in_percent (VInt 0)) by (cbn; lia).
  split.
  - destruct (get_cpu_stats_cases h) as [-> | (cp & v1 & v2 & v3 & Ec & E1 & ->)].
    + exists (VInt 0). split; [vm_compute; reflexivity | exact Z0].
    + rewrite Ec in Hc. destruct cp as [p | |]; try contradiction.
      destruct Hc as [H0 H1].
      exists (of_num v1). split; [vm_compute; reflexivity |].
      exact (py_round_percent p v1 H0 H1 E1).
  - destruct (get_memory_stats_cases h) as [-> | (m & v1 & v2 & v3 & Em & E1 & ->)].
    + exists (VInt 0). split; [vm_compute; reflexivity | exact Z0].
    + rewrite Em in Hm. destruct Hm as (p & Ep & H0 & H1). rewrite Ep in E1.
      exists (of_num v1). split; [vm_compute; reflexivity |].
      exact (py_round_percent p v1 H0 H1 E1).
Qed.

Lemma provider_percentages_stay_in_range_witness :
  (∃ v, get_cpu_stats host_healthy !! "usage"%string = Some v ∧ in_percent v) ∧
  (∃ v, get_memory_stats host_healthy !! "usage_percent"%string = Some v ∧ in_percent v).
Proof.
  apply (provider_percentages_stay_in_range host_healthy).
  - cbn. split; vm_compute; discriminate.
  - cbn. exists (375 # 10)%Q. repeat split; vm_compute; discriminate.
Defined.

(** ** Rounding is monotone *)

Lemma round_half_even_mono (x y : Q) :
  (x <= y)%Q → round_half_even x ≤ round_half_even y.
Proof.
  intros H. pose proof (Qfloor_resp_le x y H) as Hf.
  destruct (Z.eq_dec (Qfloor x) (Qfloor y)) as [E | N].
  - unfold round_half_even. rewrite E.
    destruct (x - inject_Z (Qfloor y) ?= 1 # 2)%Q eqn:Cx;
      destruct (y - inject_Z (Qfloor y) ?= 1 # 2)%Q eqn:Cy;
      try lia; try (destruct (Z.even (Qfloor y)); lia); exfalso.
    + apply Qeq_alt in Cx. apply Qlt_alt in Cy. lra.
    + apply Qgt_alt in Cx. apply Qeq_alt in Cy. lra.
    + apply Qgt_alt in Cx. apply Qlt_alt in Cy. lra.
  - destruct (round_half_even_range x) as [-> | ->],
             (round_half_even_range y) as [-> | ->]; lia.
Qed.

Lemma round_to_mono (n : nat) (x y : Q) : (x <= y)%Q → (round_to n x <= round_to n y)%Q.
Proof.
  intros H. unfold round_to, Qdiv. pose proof (pow10_pos n) as Hp.
  apply Qmult_le_compat_r.
  - rewrite <- Zle_Qle. apply round_half_even_mono.
    apply Qmult_le_compat_r; [exact H | lra].
  - apply Qinv_le_0_compat. lra.
Qed.

Lemma py_round_value (q : Q) (n : nat) (v : num) :
  py_round (NFloat (FFin q)) n = Ok v → v = NFloat (FFin (Qred (round_to n q))).
Proof.
  cbn [py_round float_round]. fold (round_to n q).
  destruct (overflows (round_to n q)); cbn; [discriminate |]. intros [= <-]. reflexivity.
Qed.

Lemma py_truediv_gb_value (bytes : Z) (r : num) :
  py_truediv (NInt bytes) (NInt (1024 ^ 3)) = Ok r →
  r = NFloat (FFin (Qred (gigabytes bytes))).
Proof.
  unfold py_truediv. change (1024 ^ 3 =? 0) with false. cbv iota.
  fold (gigabytes bytes). destruct (overflows (gigabytes bytes)); [discriminate |].
  intros [= <-]. reflexivity.
Qed.

(** X30. The memory record never shows more memory in use than there is:
    when the provider's [used] is at most its [total], [used_gb] is at
    most [total_gb] after the division and the rounding (and both are 0 in
    the fallback record). *)
Theorem memory_used_not_above_total (h : Host) :
  match virtual_memory h with
  | Ok m => vm_used m ≤ vm_total m
  | Raise _ => True
  end →
  ∃ used total,
    get_memory_stats h !! "used_gb"%string = Some used ∧
    get_memory_stats h !! "total_gb"%string = Some total ∧
    value_le used total.
Proof.
  intros Hm.
  assert (Z0 : memory_fallback !! "used_gb"%string = Some (VInt 0) ∧
               memory_fallback !! "total_gb"%string = Some (VInt 0) ∧
               value_le (VInt 0) (VInt 0)).
  { repeat split; try (vm_compute; reflexivity). cbn. lia. }
  unfold get_memory_stats.
  destruct (virtual_memory h) as [m |]; cbn [rbind or_default];
    [| exists (VInt 0), (VInt 0); exact Z0].
  destruct (py_round (NFloat (vm_percent m)) 1) as [v1 |]; cbn [rbind or_default];
    [| exists (VInt 0), (VInt 0); exact Z0].
  destruct (py_truediv (NInt (vm_used m)) _) as [used |] eqn:Eu; cbn [rbind or_default];
    [| exists (VInt 0), (VInt 0); exact Z0].
  apply py_truediv_gb_value in Eu as ->.
  destruct (py_round _ 1) as [v2 |] eqn:E2; cbn [rbind or_default];
    [| exists (VInt 0), (VInt 0); exact Z0].
  apply py_round_value in E2 as ->.
  destruct (py_truediv (NInt (vm_total m)) _) as [total |] eqn:Et; cbn [rbind or_default];
    [| exists (VInt 0), (VInt 0); exact Z0].
  apply py_truediv_gb_value in Et as ->.
  destruct (py_round _ 1) as [v3 |] eqn:E3; cbn [rbind or_default];
    [| exists (VInt 0), (VInt 0); exact Z0].
  apply py_round_value in E3 as ->.
  remember (Qred (round_to 1 (Qred (gigabytes (vm_used m))))) as ru eqn:Eru.
  remember (Qred (round_to 1 (Qred (gigabytes (vm_total m))))) as rt eqn:Ert.
  exists (VFloat (FFin ru)), (VFloat (FFin rt)).
  split; [vm_compute; reflexivity |]. split; [vm_compute; reflexivity |].
  cbn [value_le]. subst ru rt. rewrite !(Qred_correct (round_to _ _)).
  apply round_to_mono. rewrite !Qred_correct.
  assert (Hq : (inject_Z (vm_used m) <= inject_Z (vm_total m))%Q)
    by (rewrite <- Zle_Qle; exact Hm).
  unfold gigabytes, Qdiv. change (/ inject_Z (1024 ^ 3))%Q with (1 # 1073741824)%Q. lra.
Qed.

Lemma memory_used_not_above_total_witness :
  ∃ used total,
    get_memory_stats host_healthy !! "used_gb"%string = Some used ∧
    get_memory_stats host_healthy !! "total_gb"%string = Some total ∧
    value_le used total.
Proof.
  apply (memory_used_not_above_total host_healthy). cbn. lia.
Defined.
